(** * Commit2Doc: commit acquisition, commit store and documentation generation

    A shallow embedding of the TypeScript sources

      - [src/services/azureService.ts]   (parseAzureUrl, fetchAzureRepositories,
                                          fetchAzureCommit)
      - [src/services/githubService.ts]  (fetchGitHubCommit)
      - [src/services/geminiService.ts]  (generateDocumentation)
      - [src/App.tsx]                    (handleAddCommit, handleRemoveCommit)
      - [src/components/CommitManager.tsx] (handleManualAdd)
      - [src/types.ts]                   (Commit, CommitSource, GenerationConfig)

    JavaScript strings are modelled as [string] (sequences of characters with
    the operations the sources use on them); [undefined] as [None]; [async]
    code as a state-and-exception monad over an abstract platform that
    supplies the network, the clock, the id generator and the text-generation
    endpoint. *)

From Stdlib Require Import String Ascii List ZArith Lia Bool Sorted Permutation.
From Stdlib Require Import DecimalString OrdersEx RelationClasses.
Import ListNotations.
Local Open Scope list_scope.
Local Open Scope string_scope.

Set Implicit Arguments.

(* ================================================================== *)
(** * JavaScript string and array primitives used by the sources *)
(* ================================================================== *)

Module JS.

(** The line feed written [\n] in the sources. *)
Definition nl : string := String (ascii_of_nat 10) EmptyString.

(** The double quote, which occurs inside template literals. *)
Definition dq : string := String (ascii_of_nat 34) EmptyString.

(** The backtick, which occurs escaped inside template literals. *)
Definition bt : string := String (ascii_of_nat 96) EmptyString.

(** The NUL character written ['\0'] in the sources. *)
Definition nul : string := String (ascii_of_nat 0) EmptyString.

(** [s.startsWith(p)]. *)
Fixpoint startsWith (s p : string) {struct p} : bool :=
  match p, s with
  | EmptyString, _ => true
  | String _ _, EmptyString => false
  | String a p', String b s' => Ascii.eqb a b && startsWith s' p'
  end.

(** [s.includes(sub)]: [sub] occurs at some position of [s]. *)
Fixpoint includes (s sub : string) : bool :=
  startsWith s sub ||
  match s with
  | EmptyString => false
  | String _ s' => includes s' sub
  end.

(** [s.endsWith(suffix)]: [suffix] occurs at the last position where it fits. *)
Fixpoint endsWith (s suffix : string) : bool :=
  if String.eqb s suffix then true
  else match s with
       | EmptyString => false
       | String _ s' => endsWith s' suffix
       end.

(** [s.length], a JavaScript number. *)
Definition length (s : string) : Z := Z.of_nat (String.length s).

(** [s.substring(a, b)] for [0 <= a <= b]; indices beyond the end are clamped
    to the length, as in JavaScript.  The sources call it with [a = 0] only. *)
Definition substring (s : string) (a b : Z) : string :=
  String.substring (Z.to_nat a) (Z.to_nat (b - a)) s.

(** [s.split(sep)] for a one-character separator: the pieces between the
    separators, empty pieces included ([''.split('/')] is [['']]). *)
Fixpoint split (sep : ascii) (s : string) : list string :=
  match s with
  | EmptyString => [EmptyString]
  | String c s' =>
      if Ascii.eqb c sep then EmptyString :: split sep s'
      else match split sep s' with
           | [] => [String c EmptyString]
           | piece :: pieces => String c piece :: pieces
           end
  end.

(** [arr.join(sep)]. *)
Fixpoint join (sep : string) (l : list string) : string :=
  match l with
  | [] => EmptyString
  | [x] => x
  | x :: rest => x ++ sep ++ join sep rest
  end.

(** [arr.indexOf(x)]: the first index holding [x], or [-1]. *)
Fixpoint indexOf (l : list string) (x : string) : Z :=
  match l with
  | [] => (-1)%Z
  | y :: l' =>
      if String.eqb y x then 0%Z
      else let i := indexOf l' x in
           if (i =? -1)%Z then (-1)%Z else (i + 1)%Z
  end.

(** [arr[i]] for an integer index: [undefined] out of range. *)
Definition at_index (l : list string) (i : Z) : option string :=
  if (i <? 0)%Z then None else nth_error l (Z.to_nat i).

(** Truthiness of a string: the empty string is falsy. *)
Definition truthy (s : string) : bool :=
  match s with EmptyString => false | String _ _ => true end.

(** Truthiness of a [string | undefined] value. *)
Definition truthy_opt (o : option string) : bool :=
  match o with None => false | Some s => truthy s end.

(** [o || d] on a [string | undefined] value. *)
Definition or_else (o : option string) (d : string) : string :=
  match o with
  | Some s => if truthy s then s else d
  | None => d
  end.

(** White space removed by [trim], restricted to one-byte characters:
    TAB, LF, VT, FF, CR, SPACE and NBSP. *)
Definition isWhite (c : ascii) : bool :=
  let n := nat_of_ascii c in
  (Nat.leb 9 n && Nat.leb n 13) || Nat.eqb n 32 || Nat.eqb n 160.

Fixpoint trimStart (s : string) : string :=
  match s with
  | EmptyString => EmptyString
  | String c s' => if isWhite c then trimStart s' else s
  end.

(** Drops trailing white space; the result is empty when [s] is all white. *)
Fixpoint trimEnd (s : string) : string :=
  match s with
  | EmptyString => EmptyString
  | String c s' =>
      match trimEnd s' with
      | EmptyString => if isWhite c then EmptyString else String c EmptyString
      | t => String c t
      end
  end.

(** [s.trim()]. *)
Definition trim (s : string) : string := trimEnd (trimStart s).

(** ** Regular expressions

    The three patterns of the sources are sequences of literal characters and
    of capturing groups [([^c]+)].  [exec] is the backtracking matcher of
    [String.prototype.match] for a pattern without flags: the leftmost start
    position that matches wins, and [+] is greedy, giving characters back one
    at a time when what follows fails. *)

Inductive node : Type :=
| Lit (c : ascii)            (* a literal character, e.g. [\.] or [g] *)
| CapPlusNot (c : ascii).    (* the group [([^c]+)] *)

Definition regex := list node.

(** A literal string as a pattern. *)
Fixpoint lits (s : string) : regex :=
  match s with
  | EmptyString => []
  | String c s' => Lit c :: lits s'
  end.

(** The greedy loop of [[^c]+] once one character is taken: [taken] is what
    the group holds so far, [k] matches the rest of the pattern.  A longer
    group is tried first; when everything after it fails the group stops
    here. *)
Fixpoint greedy (c : ascii) (k : string -> option (list string))
    (taken s : string) {struct s} : option (list string) :=
  let stop := option_map (cons taken) (k s) in
  match s with
  | String a s' =>
      if Ascii.eqb a c then stop
      else match greedy c k (taken ++ String a EmptyString) s' with
           | Some r => Some r
           | None => stop
           end
  | EmptyString => stop
  end.

(** [matchAt re s]: match [re] at the beginning of [s]; the captures in
    order. *)
Fixpoint matchAt (re : regex) (s : string) : option (list string) :=
  match re with
  | [] => Some []
  | Lit c :: re' =>
      match s with
      | String a s' => if Ascii.eqb a c then matchAt re' s' else None
      | EmptyString => None
      end
  | CapPlusNot c :: re' =>
      match s with
      | String a s' =>
          if Ascii.eqb a c then None
          else greedy c (matchAt re') (String a EmptyString) s'
      | EmptyString => None
      end
  end.

(** [s.match(re)]: the captures of the leftmost match, [None] for [null]. *)
Fixpoint exec (re : regex) (s : string) : option (list string) :=
  match matchAt re s with
  | Some caps => Some caps
  | None =>
      match s with
      | EmptyString => None
      | String _ s' => exec re s'
      end
  end.

End JS.

(* ================================================================== *)
(** * The shared data model ([src/types.ts]) *)
(* ================================================================== *)

Module Types.

Inductive CommitSource : Type := GITHUB | AZURE | MANUAL.

Record Commit : Type := {
  id : string;
  hash : string;
  message : string;
  diff : string;
  author : option string;      (* author?: string *)
  date : option string;        (* date?: string *)
  source : CommitSource
}.

Record GenerationConfig : Type := {
  extraInfo : string;
  setupInstructions : string;
  previousDocContent : option string   (* string | null *)
}.

End Types.

(* ================================================================== *)
(** * The platform: network, clock, identifiers, text generation *)
(* ================================================================== *)

Module Platform.

(** A thrown [Error], identified by its [message]. *)
Inductive result (A : Type) : Type :=
| Ok (a : A)
| Throw (message : string).
Arguments Ok {A} a.
Arguments Throw {A} message.

Record Request : Type := {
  url : string;
  headers : list (string * string)
}.

Record Response : Type := {
  ok : bool;
  status : Z;
  body : string
}.

(** What [await fetch(...)] does: the promise rejects (transport failure) or
    resolves to a response of any status. *)
Inductive FetchOutcome : Type :=
| Rejected (message : string)
| Resolved (r : Response).

(** The result of [new URL(s)], of which the sources read two fields. *)
Record URL : Type := {
  hostname : string;
  pathname : string
}.

(** ** Shapes of the JSON bodies (the REST interfaces the sources read) *)

Record AzureAuthor : Type := {
  author_name : option string;
  author_date : option string
}.

(** [GET .../commits/{id}] *)
Record AzureCommitData : Type := {
  commitId : string;
  comment : string;
  commit_author : option AzureAuthor     (* read with [?.] *)
}.

Record AzureItem : Type := {
  path : string;
  item_url : string;
  isFolder : bool                        (* absent counts as false *)
}.

Record AzureChange : Type := {
  item : AzureItem;
  changeType : string
}.

(** [GET .../commits/{id}/changes] *)
Record AzureChangesData : Type := {
  changes : option (list AzureChange)    (* read with [|| []] *)
}.

(** One entry of [GET .../_apis/git/repositories]. *)
Record AzureRepoItem : Type := {
  repo_id : string;
  repo_name : string;
  repo_webUrl : string;
  repo_project_name : string
}.

Record AzureRepoList : Type := {
  value : list AzureRepoItem
}.

(** The body of an error response: [err.message] may be missing. *)
Record ErrorBody : Type := {
  err_message : option string
}.

(** What [response.json()] gives for an error response.  The JSON value
    [null] parses like any other, and it is the one value of which no
    property can be read; every other value has a [message] or has none. *)
Inductive ErrorJson : Type :=
| JsonNull
| JsonValue (err : ErrorBody).

Record GitHubFile : Type := {
  filename : string;
  file_status : string;
  patch : option string                  (* patch?: string *)
}.

(** [interface GitHubCommitResponse] *)
Record GitHubCommitResponse : Type := {
  sha : string;
  commit_message : string;
  commit_author_name : string;
  commit_author_date : string;
  files : option (list GitHubFile)       (* tested with [if (data.files)] *)
}.

(** ** The text-generation call *)

Record GenerateRequest : Type := {
  model : string;
  contents : string;
  systemInstruction : string;
  temperature_tenths : Z                 (* 0.4 is 4 tenths *)
}.

Inductive GenerateOutcome : Type :=
| GenThrows (message : string)           (* the call throws [error] *)
| GenReturns (text : option string).     (* [response.text] may be undefined *)

(** The environment the services run in.  [W] is the state of the outside
    world; every effectful primitive may read and change it.  [json_*] stand
    for [response.json()] read at the shape the caller expects, and throw
    when the body does not parse.  [readOfNull p] is the message of the
    [TypeError] that reading the property [p] of [null] throws. *)
Class Env (W : Type) : Type := {
  fetch : Request -> W -> FetchOutcome * W;
  randomUUID : W -> string * W;
  nowISOString : W -> string * W;
  generateContent : GenerateRequest -> W -> GenerateOutcome * W;
  newURL : string -> option URL;
  btoa : string -> string;
  localeCompare : string -> string -> Z;
  json_commit : string -> result AzureCommitData;
  json_changes : string -> result AzureChangesData;
  json_repos : string -> result AzureRepoList;
  json_error : string -> result ErrorJson;
  json_github : string -> result GitHubCommitResponse;
  readOfNull : string -> string
}.

(** [err.message] *)
Definition messageOf {W} {E : Env W} (err : ErrorJson) : result (option string) :=
  match err with
  | JsonNull => Throw (readOfNull "message")
  | JsonValue e => Ok (err_message e)
  end.

(** ** The monad of [async] functions

    The state is the world together with the log of the requests sent so far;
    a computation returns a value or throws. *)

Record State (W : Type) : Type := {
  world : W;
  sent : list Request
}.

Definition M (W A : Type) : Type := State W -> result A * State W.

Definition ret {W A} (a : A) : M W A := fun s => (Ok a, s).

Definition throw {W A} (message : string) : M W A := fun s => (Throw message, s).

Definition bind {W A B} (c : M W A) (k : A -> M W B) : M W B :=
  fun s =>
    match c s with
    | (Ok a, s') => k a s'
    | (Throw m, s') => (Throw m, s')
    end.

(** [try { c } catch (e) { h e.message }] *)
Definition try_catch {W A} (c : M W A) (h : string -> M W A) : M W A :=
  fun s =>
    match c s with
    | (Ok a, s') => (Ok a, s')
    | (Throw m, s') => h m s'
    end.

(** A pure computation that may throw. *)
Definition lift {W A} (r : result A) : M W A := fun s => (r, s).

(** An effect of the world that cannot throw. *)
Definition perform {W A} (f : W -> A * W) : M W A :=
  fun s =>
    let '(a, w') := f (world s) in
    (Ok a, {| world := w'; sent := sent s |}).

(** [await fetch(url, { headers })]: the request is logged, then answered. *)
Definition await_fetch {W} {E : Env W} (rq : Request) : M W Response :=
  fun s =>
    let '(o, w') := fetch rq (world s) in
    let s' := {| world := w'; sent := (sent s ++ [rq])%list |} in
    match o with
    | Rejected m => (Throw m, s')
    | Resolved r => (Ok r, s')
    end.

End Platform.

Declare Scope async_scope.
Delimit Scope async_scope with async.
Notation "x <- c ;; k" := (Platform.bind c (fun x => k))
  (at level 61, c at next level, right associativity) : async_scope.

(* ================================================================== *)
(** * [src/services/azureService.ts] *)
(* ================================================================== *)

Module Azure.
Import Platform.
Local Open Scope async_scope.

Record AzureRepository : Type := {
  id : string;
  name : string;
  webUrl : string;
  project : string
}.

(** The object [{ org, project, repo }] returned by [parseAzureUrl]. *)
Record AzureRepoRef : Type := {
  ref_org : string;
  ref_project : string;
  ref_repo : string
}.

(** The [repo] lookup shared by both host shapes:
    [if (gitIndex !== -1 && gitIndex + 1 < pathParts.length) repo = pathParts[gitIndex + 1]],
    [repo] keeping its initial [''] otherwise. *)
Definition repoAfterGit (pathParts : list string) : option string :=
  let gitIndex := JS.indexOf pathParts "_git" in
  if negb (gitIndex =? -1)%Z && (gitIndex + 1 <? Z.of_nat (List.length pathParts))%Z
  then JS.at_index pathParts (gitIndex + 1)%Z
  else Some EmptyString.

Section WithEnv.
Context {W : Type} {E : Env W}.

Definition parseAzureUrl (url : string) : option AzureRepoRef :=
  match newURL url with
  | None => None                               (* catch (e) { return null } *)
  | Some urlObj =>
      let pathParts := filter JS.truthy (JS.split "/" (pathname urlObj)) in
      let '(org, project, repo) :=
        if JS.endsWith (hostname urlObj) "visualstudio.com" then
          (hd_error (JS.split "." (hostname urlObj)),
           JS.at_index pathParts 0,
           repoAfterGit pathParts)
        else if String.eqb (hostname urlObj) "dev.azure.com" then
          (JS.at_index pathParts 0,
           JS.at_index pathParts 1,
           repoAfterGit pathParts)
        else (Some EmptyString, Some EmptyString, Some EmptyString) in
      if negb (JS.truthy_opt org) || negb (JS.truthy_opt project)
         || negb (JS.truthy_opt repo)
      then None
      else match org, project, repo with
           | Some o, Some p, Some r =>
               Some {| ref_org := o; ref_project := p; ref_repo := r |}
           | _, _, _ => None
           end
  end.

(** [/dev\.azure\.com\/([^/]+)/] *)
Definition re_dev_azure : JS.regex :=
  (JS.lits "dev.azure.com/" ++ [JS.CapPlusNot "/"])%list.

(** [/([^.]+)\.visualstudio\.com/] *)
Definition re_visualstudio : JS.regex :=
  (JS.CapPlusNot "." :: JS.lits ".visualstudio.com")%list.

(** [match ? match[1] : cleanInput] *)
Definition group1_or (m : option (list string)) (d : string) : string :=
  match m with
  | Some (g :: _) => g
  | _ => d
  end.

Definition baseUrlOf (orgInput : string) : string :=
  let cleanInput := JS.trim orgInput in
  if JS.includes cleanInput "dev.azure.com" then
    let orgName := group1_or (JS.exec re_dev_azure cleanInput) cleanInput in
    "https://dev.azure.com/" ++ orgName
  else if JS.includes cleanInput "visualstudio.com" then
    let orgName := group1_or (JS.exec re_visualstudio cleanInput) cleanInput in
    "https://" ++ orgName ++ ".visualstudio.com"
  else
    "https://dev.azure.com/" ++ cleanInput.

(** [arr.sort(compare)]: a stable sort; [x] moves past [y] only when
    [compare x y] is positive. *)
Fixpoint insertSorted {A} (compare : A -> A -> Z) (x : A) (l : list A) : list A :=
  match l with
  | [] => [x]
  | y :: l' =>
      if (0 <? compare x y)%Z then y :: insertSorted compare x l'
      else x :: l
  end.

Fixpoint sort {A} (compare : A -> A -> Z) (l : list A) : list A :=
  match l with
  | [] => []
  | x :: l' => insertSorted compare x (sort compare l')
  end.

Definition toRepository (repo : AzureRepoItem) : AzureRepository :=
  {| id := repo_id repo;
     name := repo_name repo;
     webUrl := repo_webUrl repo;
     project := repo_project_name repo |}.

(** ['Basic ' + btoa(':' + token)] *)
Definition authHeaderOf (token : string) : string :=
  "Basic " ++ btoa (":" ++ token).

(** [fetch(url, { headers: { 'Authorization': authHeader } })] *)
Definition authorized (authHeader url : string) : Request :=
  {| url := url; headers := [("Authorization", authHeader)] |}.

(** [`https://dev.azure.com/${org}/${project}/_apis/git/repositories/${repo}`] *)
Definition apiBaseUrl (parsed : AzureRepoRef) : string :=
  "https://dev.azure.com/" ++ ref_org parsed ++ "/" ++ ref_project parsed
    ++ "/_apis/git/repositories/" ++ ref_repo parsed.

(** [`${baseUrl}/commits/${commitHash}?api-version=7.1`] *)
Definition commitUrl (baseUrl commitHash : string) : string :=
  baseUrl ++ "/commits/" ++ commitHash ++ "?api-version=7.1".

(** [`${baseUrl}/commits/${commitHash}/changes?api-version=7.1`] *)
Definition changesUrl (baseUrl commitHash : string) : string :=
  baseUrl ++ "/commits/" ++ commitHash ++ "/changes?api-version=7.1".

(** [`${baseUrl}/_apis/git/repositories?api-version=7.1`] *)
Definition repositoriesUrl (baseUrl : string) : string :=
  baseUrl ++ "/_apis/git/repositories?api-version=7.1".

Definition fetchAzureRepositories (orgInput token : string)
  : M W (list AzureRepository) :=
  let baseUrl := baseUrlOf orgInput in
  let authHeader := authHeaderOf token in
  try_catch
    (response <- await_fetch (authorized authHeader (repositoriesUrl baseUrl)) ;;
     if negb (ok response) then
       if (status response =? 401)%Z then
         throw "Unauthorized. Please check your Personal Access Token (PAT)."
       else if (status response =? 404)%Z then
         throw ("Organization not found at " ++ baseUrl)
       else throw "Failed to fetch repositories."
     else
       data <- lift (json_repos (body response)) ;;
       ret (sort (fun a b => localeCompare (name a) (name b))
                 (map toRepository (value data))))
    (fun error => throw error).            (* console.error; throw error *)

(** The message thrown when [parseAzureUrl] returns [null]. *)
Definition invalidAzureUrl : string :=
  "Invalid Azure DevOps repository URL. Format should be https://dev.azure.com/{org}/{project}/_git/{repo}".

(** [['edit', 'add'].includes(change.changeType)] *)
Definition isEditOrAdd (changeType : string) : bool :=
  String.eqb "edit" changeType || String.eqb "add" changeType.

(** [`\nFile: ${change.item.path} [${change.changeType}]\n`] *)
Definition fileHeader (change : AzureChange) : string :=
  JS.nl ++ "File: " ++ path (item change)
    ++ " [" ++ changeType change ++ "]" ++ JS.nl.

(** What a fetched file adds to the transcript. *)
Definition contentBlock (text : string) : string :=
  if (JS.length text <? 30000)%Z && negb (JS.includes text JS.nul) then
    "```" ++ JS.nl ++ JS.substring text 0 5000
      ++ (if (5000 <? JS.length text)%Z
          then JS.nl ++ "... (truncated)" else EmptyString)
      ++ JS.nl ++ "```" ++ JS.nl
  else
    "(File too large or binary, content skipped)" ++ JS.nl.

(** The body of [for (const change of changes)], from the value of
    [diffContent] before the iteration to its value after. *)
Definition processChange (authHeader : string) (change : AzureChange)
    (diffContent : string) : M W string :=
  let diffContent := diffContent ++ fileHeader change in
  diffContent <-
    (if isEditOrAdd (changeType change) && negb (isFolder (item change)) then
       try_catch
         (contentResponse <- await_fetch
              (authorized authHeader (item_url (item change))) ;;
          if ok contentResponse then
            let text := body contentResponse in
            ret (diffContent ++ contentBlock text)
          else ret diffContent)
         (fun e => ret (diffContent ++ "(Could not fetch file content)" ++ JS.nl))
     else ret diffContent) ;;
  ret (diffContent ++ "---" ++ JS.nl).

Fixpoint processChanges (authHeader : string) (changes : list AzureChange)
    (diffContent : string) : M W string :=
  match changes with
  | [] => ret diffContent
  | change :: rest =>
      diffContent <- processChange authHeader change diffContent ;;
      processChanges authHeader rest diffContent
  end.

(** The object literal returned by [fetchAzureCommit]. *)
Definition azureCommit (id : string) (commitData : AzureCommitData)
    (diffContent : string) : Types.Commit :=
  {| Types.id := id;
     Types.hash := JS.substring (commitId commitData) 0 7;
     Types.message := comment commitData;
     Types.diff := diffContent;
     Types.author :=                          (* commitData.author?.name *)
       match commit_author commitData with
       | Some a => author_name a
       | None => None
       end;
     Types.date :=                            (* commitData.author?.date *)
       match commit_author commitData with
       | Some a => author_date a
       | None => None
       end;
     Types.source := Types.AZURE |}.

(** The transcript starts from this line. *)
Definition changesSummary : string := "## Changes Summary" ++ JS.nl.

Definition fetchAzureCommit (repoUrl commitHash token : string)
  : M W Types.Commit :=
  match parseAzureUrl repoUrl with
  | None => throw invalidAzureUrl
  | Some parsed =>
      let baseUrl := apiBaseUrl parsed in
      let authHeader := authHeaderOf token in
      try_catch
        ((* 1. Fetch Commit Details *)
         commitResponse <- await_fetch
             (authorized authHeader (commitUrl baseUrl commitHash)) ;;
         commitData <-
           (if negb (ok commitResponse) then
              if (status commitResponse =? 401)%Z then
                throw "Unauthorized. Please check your Personal Access Token (PAT)."
              else
                let err :=
                  match json_error (body commitResponse) with
                  | Ok e => e
                  | Throw _ =>                             (* .catch(() => ({})) *)
                      JsonValue {| err_message := None |}
                  end in
                message <- lift (messageOf err) ;;
                throw (JS.or_else message
                         "Failed to fetch commit from Azure DevOps")
            else lift (json_commit (body commitResponse))) ;;
         (* 2. Fetch Changes *)
         changesResponse <- await_fetch
             (authorized authHeader (changesUrl baseUrl commitHash)) ;;
         let diffContent := changesSummary in
         diffContent <-
           (if ok changesResponse then
              changesData <- lift (json_changes (body changesResponse)) ;;
              let changes :=
                match Platform.changes changesData with
                | Some l => l
                | None => []
                end in
              diffContent <- processChanges authHeader changes diffContent ;;
              if (Z.of_nat (List.length changes) =? 0)%Z then
                ret (diffContent ++ "No file changes found in this commit.")
              else ret diffContent
            else
              ret (diffContent ++ "Could not fetch changes list from Azure API.")) ;;
         id <- perform randomUUID ;;
         ret (azureCommit id commitData diffContent))
        (fun error => throw error)           (* console.error; throw error *)
  end.

End WithEnv.
End Azure.

(* ================================================================== *)
(** * [src/services/githubService.ts] *)
(* ================================================================== *)

Module GitHub.
Import Platform.
Local Open Scope async_scope.

(** [/github\.com\/([^/]+)\/([^/]+)/] *)
Definition re_github : JS.regex :=
  (JS.lits "github.com/" ++ [JS.CapPlusNot "/"; JS.Lit "/"; JS.CapPlusNot "/"])%list.

(** The message thrown when the pattern does not match. *)
Definition invalidGitHubUrl : string := "Invalid GitHub repository URL".

(** [`File: ${f.filename} (${f.status})\n${f.patch || '[Binary or Large File]'}`] *)
Definition fileBlock (f : GitHubFile) : string :=
  "File: " ++ filename f ++ " (" ++ file_status f ++ ")" ++ JS.nl
    ++ JS.or_else (patch f) "[Binary or Large File]".

Section WithEnv.
Context {W : Type} {E : Env W}.

Definition fetchGitHubCommit (repoUrl commitHash : string) (token : option string)
  : M W Types.Commit :=
  match JS.exec re_github repoUrl with
  | None => throw invalidGitHubUrl
  | Some m =>
      let owner := nth 0 m EmptyString in      (* match[1] *)
      let repo := nth 1 m EmptyString in       (* match[2] *)
      let headers :=
        cons ("Accept", "application/vnd.github.v3+json")
          match token with                      (* if (token) *)
          | Some t =>
              if JS.truthy t then [("Authorization", "token " ++ t)] else []
          | None => []
          end in
      try_catch
        (response <- await_fetch
             {| url := "https://api.github.com/repos/" ++ owner ++ "/" ++ repo
                         ++ "/commits/" ++ commitHash;
                headers := headers |} ;;
         data <-
           (if negb (ok response) then
              err <- lift (json_error (body response)) ;;
              message <- lift (messageOf err) ;;
              throw (JS.or_else message "Failed to fetch commit from GitHub")
            else lift (json_github (body response))) ;;
         let fullDiff :=
           match files data with
           | Some fs => JS.join (JS.nl ++ JS.nl) (map fileBlock fs)
           | None => EmptyString
           end in
         id <- perform randomUUID ;;
         ret {| Types.id := id;
                Types.hash := JS.substring (sha data) 0 7;
                Types.message := commit_message data;
                Types.diff := fullDiff;
                Types.author := Some (commit_author_name data);
                Types.date := Some (commit_author_date data);
                Types.source := Types.GITHUB |})
        (fun error => throw error)           (* console.error; throw error *)
  end.

End WithEnv.
End GitHub.

(* ================================================================== *)
(** * [src/services/geminiService.ts] *)
(* ================================================================== *)

Module Gemini.
Import Platform.
Local Open Scope async_scope.

(** [`${n}`] for a natural number. *)
Definition showNat (n : nat) : string :=
  NilZero.string_of_uint (Nat.to_uint n).

(** The template of one commit; [i] is the index passed by [map]. *)
Definition commitBlock (c : Types.Commit) (i : nat) : string :=
  JS.nl ++
  "--- COMMIT " ++ showNat (i + 1) ++ " ---" ++ JS.nl ++
  "Hash: " ++ Types.hash c ++ JS.nl ++
  "Message: " ++ Types.message c ++ JS.nl ++
  "Author: " ++ JS.or_else (Types.author c) "Unknown" ++ JS.nl ++
  "Date: " ++ JS.or_else (Types.date c) "Unknown" ++ JS.nl ++
  "Diff/Changes:" ++ JS.nl ++
  JS.substring (Types.diff c) 0 15000 ++ " " ++ JS.nl ++
  "(truncated if too long)" ++ JS.nl ++
  "-----------------------" ++ JS.nl.

(** [commits.map((c, i) => ...)] from index [i] on. *)
Fixpoint mapIndexed (i : nat) (commits : list Types.Commit) : list string :=
  match commits with
  | [] => []
  | c :: rest => commitBlock c i :: mapIndexed (S i) rest
  end.

Definition taskIntro : string :=
  JS.nl ++
  "You are a world-class Technical Writer. Your task is to write comprehensive, developer-friendly documentation for a software feature based on the provided git commits." ++ JS.nl ++
  "The documentation should be in Markdown format." ++ JS.nl ++
  "  ".

Definition taskUpdate : string :=
  JS.nl ++ JS.nl ++
  "IMPORTANT: You have been provided with an EXISTING DOCUMENTATION file. " ++ JS.nl ++
  "Your goal is to UPDATE this existing documentation to reflect the changes introduced by the new commits." ++ JS.nl ++
  "Maintain the style and structure of the original document where possible, but add new sections or modify existing ones as needed." ++ JS.nl ++
  "    ".

Definition taskNew : string :=
  JS.nl ++ JS.nl ++
  "Since no previous documentation was provided, create a brand new documentation file." ++ JS.nl ++
  "Structure it with the following sections:" ++ JS.nl ++
  "1. **Title**: A clear, concise title for the feature/change." ++ JS.nl ++
  "2. **Overview**: High-level summary of what changed and why." ++ JS.nl ++
  "3. **Key Changes**: Bullet points of technical details." ++ JS.nl ++
  "4. **Usage**: Code examples or instructions on how to use the new feature." ++ JS.nl ++
  "5. **Configuration/Setup**: (If applicable)" ++ JS.nl ++
  "    ".

Definition buildPrompt (commits : list Types.Commit)
    (config : Types.GenerationConfig) : string :=
  let commitContext := JS.join JS.nl (mapIndexed 0 commits) in
  let taskDescription :=
    taskIntro ++
    (if JS.truthy_opt (Types.previousDocContent config) then taskUpdate else taskNew) in
  JS.nl ++
  taskDescription ++ JS.nl ++
  JS.nl ++
  "User Provided Extra Context:" ++ JS.nl ++
  JS.dq ++ JS.or_else (Some (Types.extraInfo config)) "N/A" ++ JS.dq ++ JS.nl ++
  JS.nl ++
  "User Provided Setup Instructions (incorporate this exactly if present):" ++ JS.nl ++
  JS.dq ++ JS.or_else (Some (Types.setupInstructions config)) "N/A" ++ JS.dq ++ JS.nl ++
  JS.nl ++
  "Previous Documentation Content:" ++ JS.nl ++
  (match Types.previousDocContent config with
   | Some doc =>
       if JS.truthy doc
       then JS.bt ++ JS.bt ++ JS.bt ++ "markdown" ++ JS.nl ++ doc ++ JS.nl
              ++ JS.bt ++ JS.bt ++ JS.bt
       else "None"
   | None => "None"
   end) ++ JS.nl ++
  JS.nl ++
  "Commits to Process:" ++ JS.nl ++
  commitContext ++ JS.nl ++
  JS.nl ++
  "Output the final Markdown only. Do not wrap in JSON." ++ JS.nl.

(** The argument of [ai.models.generateContent]. *)
Definition generateRequest (commits : list Types.Commit)
    (config : Types.GenerationConfig) : GenerateRequest :=
  {| model := "gemini-2.5-flash";
     contents := buildPrompt commits config;
     systemInstruction :=
       "You are an expert software documentation generator. You are precise, clear, and thorough.";
     temperature_tenths := 4 |}.

(** The placeholder returned when the response carries no text. *)
Definition noContent : string := "# Error: No content generated.".

(** [`# Generation Failed\n\nAn error occurred while communicating with the AI: ${error.message}`] *)
Definition generationFailed (message : string) : string :=
  "# Generation Failed" ++ JS.nl ++ JS.nl ++
  "An error occurred while communicating with the AI: " ++ message.

Section WithEnv.
Context {W : Type} {E : Env W}.

(** [await ai.models.generateContent(...)]: returns the response's [text]
    or throws. *)
Definition await_generateContent (rq : GenerateRequest) : M W (option string) :=
  fun s =>
    let '(o, w') := generateContent rq (world s) in
    let s' := {| world := w'; sent := sent s |} in
    match o with
    | GenThrows m => (Throw m, s')
    | GenReturns t => (Ok t, s')
    end.

Definition generateDocumentation (commits : list Types.Commit)
    (config : Types.GenerationConfig) : M W string :=
  try_catch
    (response_text <- await_generateContent (generateRequest commits config) ;;
     ret (JS.or_else response_text noContent))
    (fun message => ret (generationFailed message)).   (* console.error; return *)

End WithEnv.
End Gemini.

(* ================================================================== *)
(** * [src/App.tsx]: the commit store *)
(* ================================================================== *)

Module App.

(** [setCommits(prev => [...prev, commit])] *)
Definition handleAddCommit (commit : Types.Commit) (prev : list Types.Commit)
  : list Types.Commit :=
  (prev ++ [commit])%list.

(** [setCommits(prev => prev.filter(c => c.id !== id))] *)
Definition handleRemoveCommit (id : string) (prev : list Types.Commit)
  : list Types.Commit :=
  filter (fun c => negb (String.eqb (Types.id c) id)) prev.

(** The store after adding the commits of [cs], in order, to [store]. *)
Definition addAll (cs store : list Types.Commit) : list Types.Commit :=
  fold_left (fun st c => handleAddCommit c st) cs store.

(** The [useState] cells of the application component. *)
Record AppState : Type := {
  commits : list Types.Commit;
  generatedDoc : string;
  isGenerating : bool;
  extraInfo : string;
  setupInstructions : string;
  previousDocContent : option string;     (* string | null *)
  previousDocName : string
}.

Definition setIsGenerating (b : bool) (st : AppState) : AppState :=
  {| commits := commits st; generatedDoc := generatedDoc st;
     isGenerating := b; extraInfo := extraInfo st;
     setupInstructions := setupInstructions st;
     previousDocContent := previousDocContent st;
     previousDocName := previousDocName st |}.

Definition setGeneratedDoc (markdown : string) (st : AppState) : AppState :=
  {| commits := commits st; generatedDoc := markdown;
     isGenerating := isGenerating st; extraInfo := extraInfo st;
     setupInstructions := setupInstructions st;
     previousDocContent := previousDocContent st;
     previousDocName := previousDocName st |}.

(** [setPreviousDocContent(null); setPreviousDocName('')] *)
Definition clearPreviousDoc (st : AppState) : AppState :=
  {| commits := commits st; generatedDoc := generatedDoc st;
     isGenerating := isGenerating st; extraInfo := extraInfo st;
     setupInstructions := setupInstructions st;
     previousDocContent := None;
     previousDocName := EmptyString |}.

(** The object literal [config] of [handleGenerate]. *)
Definition configOf (st : AppState) : Types.GenerationConfig :=
  {| Types.extraInfo := extraInfo st;
     Types.setupInstructions := setupInstructions st;
     Types.previousDocContent := previousDocContent st |}.

Section WithEnv.
Import Platform.
Local Open Scope async_scope.
Context {W : Type} {E : Env W}.

(** [handleGenerate], run from the click to the end of its [finally]
    without another event in between: the cells after it. *)
Definition handleGenerate (st : AppState) : M W AppState :=
  if (Z.of_nat (List.length (commits st)) =? 0)%Z then ret st      (* return; *)
  else
    let st := setIsGenerating true st in
    st <- try_catch
            (markdown <- Gemini.generateDocumentation (commits st) (configOf st) ;;
             ret (setGeneratedDoc markdown st))
            (fun error => ret st) ;;                     (* console.error *)
    ret (setIsGenerating false st).                      (* finally *)

End WithEnv.

End App.

(* ================================================================== *)
(** * [src/components/CommitManager.tsx]: manual entry *)
(* ================================================================== *)

Module CommitManager.
Import Platform.
Local Open Scope async_scope.

(** The two fields of the manual form ([useState] cells). *)
Record ManualForm : Type := {
  manualDiff : string;
  manualMessage : string
}.

(** [useState<'manual' | 'github' | 'azure'>] *)
Inductive Tab : Type := manual | github | azure.

(** The other [useState] cells of the component: the fetch form. *)
Record FetchForm : Type := {
  activeTab : Tab;
  repoUrl : string;
  commitHash : string;
  ghToken : string;
  azureToken : string;
  azureOrg : string;
  azureRepos : list Azure.AzureRepository;
  isLoadingRepos : bool;
  isFetching : bool;
  fetchError : string
}.

Definition setCommitHash (h : string) (st : FetchForm) : FetchForm :=
  {| activeTab := activeTab st; repoUrl := repoUrl st; commitHash := h;
     ghToken := ghToken st; azureToken := azureToken st; azureOrg := azureOrg st;
     azureRepos := azureRepos st; isLoadingRepos := isLoadingRepos st;
     isFetching := isFetching st; fetchError := fetchError st |}.

Definition setAzureRepos (repos : list Azure.AzureRepository) (st : FetchForm)
  : FetchForm :=
  {| activeTab := activeTab st; repoUrl := repoUrl st;
     commitHash := commitHash st;
     ghToken := ghToken st; azureToken := azureToken st; azureOrg := azureOrg st;
     azureRepos := repos; isLoadingRepos := isLoadingRepos st;
     isFetching := isFetching st; fetchError := fetchError st |}.

Definition setIsLoadingRepos (b : bool) (st : FetchForm) : FetchForm :=
  {| activeTab := activeTab st; repoUrl := repoUrl st;
     commitHash := commitHash st;
     ghToken := ghToken st; azureToken := azureToken st; azureOrg := azureOrg st;
     azureRepos := azureRepos st; isLoadingRepos := b;
     isFetching := isFetching st; fetchError := fetchError st |}.

Definition setIsFetching (b : bool) (st : FetchForm) : FetchForm :=
  {| activeTab := activeTab st; repoUrl := repoUrl st;
     commitHash := commitHash st;
     ghToken := ghToken st; azureToken := azureToken st; azureOrg := azureOrg st;
     azureRepos := azureRepos st; isLoadingRepos := isLoadingRepos st;
     isFetching := b; fetchError := fetchError st |}.

Definition setFetchError (e : string) (st : FetchForm) : FetchForm :=
  {| activeTab := activeTab st; repoUrl := repoUrl st;
     commitHash := commitHash st;
     ghToken := ghToken st; azureToken := azureToken st; azureOrg := azureOrg st;
     azureRepos := azureRepos st; isLoadingRepos := isLoadingRepos st;
     isFetching := isFetching st; fetchError := e |}.

Section WithEnv.
Context {W : Type} {E : Env W}.

(** The object literal [newCommit] of [handleManualAdd]; its fields are
    evaluated in the order written ([id] before [date]). *)
Definition newManualCommit (form : ManualForm) : M W Types.Commit :=
  id <- perform randomUUID ;;
  now <- perform nowISOString ;;
  ret {| Types.id := id;
         Types.hash := "manual";
         Types.message := JS.or_else (Some (manualMessage form)) "Manual Diff Entry";
         Types.diff := manualDiff form;
         Types.author := None;                 (* not set *)
         Types.date := Some now;               (* new Date().toISOString() *)
         Types.source := Types.MANUAL |}.

(** [handleManualAdd]: the form and the store (through [onAddCommit], which
    the application binds to [handleAddCommit]) after the click. *)
Definition handleManualAdd (form : ManualForm) (commits : list Types.Commit)
  : M W (ManualForm * list Types.Commit) :=
  if negb (JS.truthy (manualDiff form)) then ret (form, commits)   (* return; *)
  else
    newCommit <- newManualCommit form ;;
    ret ({| manualDiff := EmptyString; manualMessage := EmptyString |},
         App.handleAddCommit newCommit commits).

(** The [try] block of [handleFetch] up to the commit it obtains. *)
Definition fetchByTab (st : FetchForm) : M W Types.Commit :=
  match activeTab st with
  | github =>
      GitHub.fetchGitHubCommit (repoUrl st) (commitHash st) (Some (ghToken st))
  | azure =>
      if negb (JS.truthy (azureToken st)) then
        throw "Personal Access Token (PAT) is required for Azure DevOps"
      else Azure.fetchAzureCommit (repoUrl st) (commitHash st) (azureToken st)
  | manual => throw "Invalid fetch source"
  end.

(** [handleFetch], run from the click to the end of its [finally] without
    another event in between: the form and the store after it.  The values
    read ([repoUrl], [commitHash], the tokens, the tab) are those of the
    render in which the click happened. *)
Definition handleFetch (st : FetchForm) (commits : list Types.Commit)
  : M W (FetchForm * list Types.Commit) :=
  if negb (JS.truthy (repoUrl st)) || negb (JS.truthy (commitHash st)) then
    ret (setFetchError "Repo URL and Commit Hash are required" st, commits)
  else
    let st := setFetchError EmptyString (setIsFetching true st) in
    r <- try_catch
           (commit <- fetchByTab st ;;
            (* onAddCommit(commit); setCommitHash(''); setFetchError('') *)
            ret (setFetchError EmptyString (setCommitHash EmptyString st),
                 App.handleAddCommit commit commits))
           (fun message =>
              ret (setFetchError (JS.or_else (Some message) "Failed to fetch") st,
                   commits)) ;;
    ret (setIsFetching false (fst r), snd r).              (* finally *)

(** [handleLoadRepos], run in the same way: the form after it. *)
Definition handleLoadRepos (st : FetchForm) : M W FetchForm :=
  if negb (JS.truthy (azureOrg st)) || negb (JS.truthy (azureToken st)) then
    ret (setFetchError "Organization and PAT are required to load repositories" st)
  else
    let st :=
      setAzureRepos [] (setFetchError EmptyString (setIsLoadingRepos true st)) in
    st <- try_catch
            (repos <- Azure.fetchAzureRepositories (azureOrg st) (azureToken st) ;;
             let st := setAzureRepos repos st in
             if (Z.of_nat (List.length repos) =? 0)%Z then
               ret (setFetchError "No repositories found in this organization." st)
             else ret st)
            (fun message =>
               ret (setFetchError
                      (JS.or_else (Some message) "Failed to load repositories") st)) ;;
    ret (setIsLoadingRepos false st).                      (* finally *)

End WithEnv.
End CommitManager.

(* ================================================================== *)
(** * A scripted platform, on which the services can be run *)
(* ================================================================== *)

Module Demo.
Import Platform.

(** The world: the answers the network will give, in the order of the
    requests; a counter for identifiers; what the text generation does. *)
Record World : Type := {
  answers : list FetchOutcome;
  nextId : nat;
  generation : GenerateOutcome
}.

Definition demoFetch (_ : Request) (w : World) : FetchOutcome * World :=
  match answers w with
  | [] => (Rejected "Failed to fetch", w)
  | o :: rest =>
      (o, {| answers := rest; nextId := nextId w; generation := generation w |})
  end.

Definition demoUUID (w : World) : string * World :=
  ("uuid-" ++ Gemini.showNat (nextId w),
   {| answers := answers w; nextId := S (nextId w); generation := generation w |}).

Definition demoNow (w : World) : string * World :=
  ("2024-05-01T12:00:00.000Z", w).

Definition demoGenerate (_ : GenerateRequest) (w : World) : GenerateOutcome * World :=
  (generation w, w).

Definition isUpper (c : ascii) : bool :=
  let n := nat_of_ascii c in Nat.leb 65 n && Nat.leb n 90.

Definition isLower (c : ascii) : bool :=
  let n := nat_of_ascii c in Nat.leb 97 n && Nat.leb n 122.

Definition toLower (c : ascii) : ascii :=
  if isUpper c then ascii_of_nat (nat_of_ascii c + 32) else c.

Definition swapCase (c : ascii) : ascii :=
  if isUpper c then ascii_of_nat (nat_of_ascii c + 32)
  else if isLower c then ascii_of_nat (nat_of_ascii c - 32)
  else c.

Fixpoint mapString (f : ascii -> ascii) (s : string) : string :=
  match s with
  | EmptyString => EmptyString
  | String c s' => String (f c) (mapString f s')
  end.

(** A comparison in the manner of [localeCompare] on unaccented letters:
    letters compare without regard to case first; strings equal up to case
    are ordered with lower case before upper case. *)
Definition demoCompare (a b : string) : Z :=
  match String_as_OT.compare (mapString toLower a) (mapString toLower b) with
  | Lt => (-1)%Z
  | Gt => 1%Z
  | Eq =>
      match String_as_OT.compare (mapString swapCase a) (mapString swapCase b) with
      | Lt => (-1)%Z
      | Gt => 1%Z
      | Eq => 0%Z
      end
  end.

(** [until stop s]: the characters before the first one that [stop] accepts,
    and the rest. *)
Fixpoint until (stop : ascii -> bool) (s : string) : string * string :=
  match s with
  | EmptyString => (EmptyString, EmptyString)
  | String c s' =>
      if stop c then (EmptyString, s)
      else let '(a, b) := until stop s' in (String c a, b)
  end.

(** [new URL(s)] on the plain form [https://host/path?query#fragment]; any
    other string is refused. *)
Definition demoURL (s : string) : option URL :=
  if JS.startsWith s "https://" then
    let afterScheme := String.substring 8 (String.length s) s in
    let '(host, rest) :=
      until (fun c => Ascii.eqb c "/" || Ascii.eqb c "?" || Ascii.eqb c "#")
            afterScheme in
    let '(p, _) := until (fun c => Ascii.eqb c "?" || Ascii.eqb c "#") rest in
    if JS.truthy host
    then Some {| hostname := mapString toLower host;
                 pathname := if JS.truthy p then p else "/" |}
    else None
  else None.

Definition base64Alphabet : string :=
  "ABCDEFGHIJKLMNOPQRSTUVWXYZabcdefghijklmnopqrstuvwxyz0123456789+/".

Definition base64Digit (n : N) : string :=
  match String.get (N.to_nat n) base64Alphabet with
  | Some c => String c EmptyString
  | None => "="
  end.

(** [btoa]: base 64 of the bytes of the string. *)
Fixpoint demoBtoa (s : string) : string :=
  match s with
  | EmptyString => EmptyString
  | String a EmptyString =>
      let n := (N_of_ascii a * 16)%N in
      base64Digit (n / 64) ++ base64Digit (n mod 64) ++ "=="
  | String a (String b EmptyString) =>
      let n := ((N_of_ascii a * 256 + N_of_ascii b) * 4)%N in
      base64Digit (n / 4096) ++ base64Digit ((n / 64) mod 64)
        ++ base64Digit (n mod 64) ++ "="
  | String a (String b (String c rest)) =>
      let n := ((N_of_ascii a * 256 + N_of_ascii b) * 256 + N_of_ascii c)%N in
      base64Digit (n / 262144) ++ base64Digit ((n / 4096) mod 64)
        ++ base64Digit ((n / 64) mod 64) ++ base64Digit (n mod 64)
        ++ demoBtoa rest
  end.

(** The bodies the scripted servers send, with what they parse to. *)
Record Bodies : Type := {
  commitBodies : list (string * AzureCommitData);
  changesBodies : list (string * AzureChangesData);
  repoBodies : list (string * AzureRepoList);
  errorBodies : list (string * ErrorJson);
  githubBodies : list (string * GitHubCommitResponse)
}.

Fixpoint parseWith {A} (table : list (string * A)) (body : string) : result A :=
  match table with
  | [] => Throw "Unexpected token in JSON"
  | (b, a) :: rest => if String.eqb b body then Ok a else parseWith rest body
  end.

Definition env (t : Bodies) : Env World :=
  {| fetch := demoFetch;
     randomUUID := demoUUID;
     nowISOString := demoNow;
     generateContent := demoGenerate;
     newURL := demoURL;
     btoa := demoBtoa;
     localeCompare := demoCompare;
     json_commit := parseWith (commitBodies t);
     json_changes := parseWith (changesBodies t);
     json_repos := parseWith (repoBodies t);
     json_error := parseWith (errorBodies t);
     json_github := parseWith (githubBodies t);
     readOfNull := fun property =>
       "Cannot read properties of null (reading '" ++ property ++ "')" |}.

(** The state before any request is sent. *)
Definition start (answers : list FetchOutcome) (g : GenerateOutcome) : State World :=
  {| world := {| answers := answers; nextId := 0; generation := g |};
     sent := [] |}.

Definition respond (status : Z) (body : string) : FetchOutcome :=
  Resolved {| ok := (200 <=? status)%Z && (status <=? 299)%Z;
              status := status; body := body |}.

Fixpoint copies (n : nat) : string :=
  match n with
  | O => EmptyString
  | S n' => String "x" (copies n')
  end.

(** A text of [n] copies of the letter [x]. *)
Definition letters (n : Z) : string := copies (Z.to_nat n).

Definition noBodies : Bodies :=
  {| commitBodies := []; changesBodies := []; repoBodies := [];
     errorBodies := []; githubBodies := [] |}.

End Demo.


(* ================================================================== *)
(** * Vocabulary of the statements *)
(* ================================================================== *)

Module Spec.
Import Platform.

(** [lacks c s]: the character [c] does not occur in [s]. *)
Fixpoint lacks (c : ascii) (s : string) : bool :=
  match s with
  | EmptyString => true
  | String a s' => negb (Ascii.eqb a c) && lacks c s'
  end.

(** [s] is at its end or at an occurrence of [c]. *)
Definition stopsAt (c : ascii) (s : string) : Prop :=
  s = EmptyString \/ exists s', s = String c s'.

(** A path segment: not empty, and free of [/]. *)
Definition segment (x : string) : Prop :=
  x <> EmptyString /\ JS.includes x "/" = false.

(** The non-empty pieces of a path: [pathname.split('/').filter(p => p)]. *)
Definition pathParts (pathname : string) : list string :=
  filter JS.truthy (JS.split "/" pathname).

(** Whether the content of a changed item is fetched. *)
Definition eligible (change : AzureChange) : bool :=
  Azure.isEditOrAdd (changeType change) && negb (isFolder (item change)).

(** What the content request of one file adds between the header of the file
    and its separator. *)
Definition note (o : FetchOutcome) : string :=
  match o with
  | Rejected _ => "(Could not fetch file content)" ++ JS.nl
  | Resolved r => if ok r then Azure.contentBlock (body r) else EmptyString
  end.

(** [x] comes no later than [y] under [compare]. *)
Definition upTo {A : Type} (compare : A -> A -> Z) (x y : A) : Prop :=
  (compare x y <= 0)%Z.

(** [compare x y] is not [Gt]. *)
Definition notAfter (x y : string) : Prop := String_as_OT.compare x y <> Gt.

(** The content requests of a list of changes: one for each change whose
    content is fetched, in the order of the list. *)
Definition contentRequests (authHeader : string) (changes : list AzureChange)
  : list Request :=
  map (fun change => Azure.authorized authHeader (item_url (item change)))
      (filter eligible changes).

(** The changes of a response, none when the field is missing. *)
Definition changesOf (changesData : AzureChangesData) : list AzureChange :=
  match changes changesData with
  | Some l => l
  | None => []
  end.

(** What a change contributes when its content is not fetched. *)
Definition listed (change : AzureChange) : string :=
  Azure.fileHeader change ++ "---" ++ JS.nl.

(** All the characters of [s] are white space. *)
Fixpoint allWhite (s : string) : bool :=
  match s with
  | EmptyString => true
  | String c s' => JS.isWhite c && allWhite s'
  end.

(** The request of [fetchGitHubCommit] for an owner, a repository and a
    commit: the [Authorization] header only for a non-empty token. *)
Definition githubRequest (owner repo commitHash : string) (token : option string)
  : Request :=
  {| url := "https://api.github.com/repos/" ++ owner ++ "/" ++ repo
              ++ "/commits/" ++ commitHash;
     headers :=
       cons ("Accept", "application/vnd.github.v3+json")
         match token with
         | Some t => if JS.truthy t then [("Authorization", "token " ++ t)] else []
         | None => []
         end |}.

(** A commit with its diff cut to the first 15000 characters. *)
Definition cutDiff (c : Types.Commit) : Types.Commit :=
  {| Types.id := Types.id c; Types.hash := Types.hash c;
     Types.message := Types.message c;
     Types.diff := JS.substring (Types.diff c) 0 15000;
     Types.author := Types.author c; Types.date := Types.date c;
     Types.source := Types.source c |}.

End Spec.

(* ================================================================== *)
(** * Scenarios on the scripted platform *)
(* ================================================================== *)

Module StoreDemo.

Definition commit (id message : string) : Types.Commit :=
  {| Types.id := id; Types.hash := "manual"; Types.message := message;
     Types.diff := "+ line"; Types.author := None; Types.date := None;
     Types.source := Types.MANUAL |}.

Definition three : list Types.Commit :=
  [commit "a" "first"; commit "b" "second"; commit "c" "third"].

End StoreDemo.

Module ManualDemo.

Definition pasted : CommitManager.ManualForm :=
  {| CommitManager.manualDiff := "+ added line";
     CommitManager.manualMessage := EmptyString |}.

Definition before : Platform.State Demo.World :=
  Demo.start [] (Platform.GenReturns None).

Definition created : Types.Commit :=
  {| Types.id := "uuid-0"; Types.hash := "manual";
     Types.message := "Manual Diff Entry"; Types.diff := "+ added line";
     Types.author := None; Types.date := Some "2024-05-01T12:00:00.000Z";
     Types.source := Types.MANUAL |}.

End ManualDemo.

Module GeminiDemo.

Definition oneCommit : list Types.Commit := [ManualDemo.created].

Definition config : Types.GenerationConfig :=
  {| Types.extraInfo := EmptyString;
     Types.setupInstructions := EmptyString;
     Types.previousDocContent := None |}.

Definition quota : Platform.State Demo.World :=
  Demo.start [] (Platform.GenThrows "quota exceeded").

Definition silent : Platform.State Demo.World :=
  Demo.start [] (Platform.GenReturns None).

End GeminiDemo.

Module AzureDemo.
Import Platform.

Definition repoUrl : string := "https://dev.azure.com/contoso/Web/_git/site".

Definition parsed : Azure.AzureRepoRef :=
  {| Azure.ref_org := "contoso"; Azure.ref_project := "Web";
     Azure.ref_repo := "site" |}.

Definition metadata : AzureCommitData :=
  {| commitId := "0123456789abcdef0123456789abcdef01234567";
     comment := "Fix the parser";
     commit_author :=
       Some {| author_name := Some "Ada";
               author_date := Some "2024-04-30T09:00:00Z" |} |}.

Definition edited : AzureChange :=
  {| item := {| path := "/src/app.ts";
                item_url := "https://dev.azure.com/contoso/_apis/git/items/1";
                isFolder := false |};
     changeType := "edit" |}.

Definition deleted : AzureChange :=
  {| item := {| path := "/src/old.ts";
                item_url := "https://dev.azure.com/contoso/_apis/git/items/2";
                isFolder := false |};
     changeType := "delete" |}.

Definition bodies : Demo.Bodies :=
  {| Demo.commitBodies := [("commit.json", metadata)];
     Demo.changesBodies :=
       [("changes.json", {| changes := Some [edited; deleted] |});
        ("nochanges.json", {| changes := Some [] |})];
     Demo.repoBodies := [];
     Demo.errorBodies := [];
     Demo.githubBodies := [] |}.

Definition env : Env Demo.World := Demo.env bodies.

(** The commit is read, then the changes, then the text of the edited file. *)
Definition withContent (content : FetchOutcome) : State Demo.World :=
  Demo.start [Demo.respond 200 "commit.json"; Demo.respond 200 "changes.json";
              content]
             (GenReturns None).

(** The commit is read, and the list of changes answers with status 500. *)
Definition changesDown : State Demo.World :=
  Demo.start [Demo.respond 200 "commit.json"; Demo.respond 500 "Internal error"]
             (GenReturns None).

Definition run (s : State Demo.World) : result Types.Commit * State Demo.World :=
  Azure.fetchAzureCommit (E := env) repoUrl "0123456789abcdef" "pat" s.

(** The transcript of a returned commit, empty when the call throws. *)
Definition diffOf (r : result Types.Commit * State Demo.World) : string :=
  match fst r with
  | Ok c => Types.diff c
  | Throw _ => EmptyString
  end.

(** The transcript when the edited file has the text [text]. *)
Definition transcript (text : string) : string :=
  diffOf (run (withContent (Demo.respond 200 text))).

Definition expected (block : string) : string :=
  "## Changes Summary" ++ JS.nl
    ++ JS.nl ++ "File: /src/app.ts [edit]" ++ JS.nl
    ++ block
    ++ "---" ++ JS.nl
    ++ JS.nl ++ "File: /src/old.ts [delete]" ++ JS.nl
    ++ "---" ++ JS.nl.

End AzureDemo.

Module RepoDemo.
Import Platform.

Definition repoNamed (n : string) : AzureRepoItem :=
  {| repo_id := "id-" ++ n; repo_name := n;
     repo_webUrl := "https://dev.azure.com/contoso/Web/_git/" ++ n;
     repo_project_name := "Web" |}.

Definition listings : Demo.Bodies :=
  {| Demo.commitBodies := [];
     Demo.changesBodies := [];
     Demo.repoBodies :=
       [("repos.json",
         {| value := [repoNamed "zeta"; repoNamed "alpha"; repoNamed "Beta"] |});
        ("none.json", {| value := [] |})];
     Demo.errorBodies := [];
     Demo.githubBodies := [] |}.

Definition listingEnv : Env Demo.World := Demo.env listings.

Definition listing (body : string) : State Demo.World :=
  Demo.start [Demo.respond 200 body] (GenReturns None).

Definition listRepos (body : string)
  : result (list Azure.AzureRepository) * State Demo.World :=
  Azure.fetchAzureRepositories (E := listingEnv) "contoso" "pat" (listing body).

Definition namesOf (r : result (list Azure.AzureRepository) * State Demo.World)
  : option (list string) :=
  match fst r with
  | Ok repos => Some (map Azure.name repos)
  | Throw _ => None
  end.

End RepoDemo.

Module GitHubDemo.
Import Platform.

Definition response : GitHubCommitResponse :=
  {| sha := "89abcdef0123456789abcdef0123456789abcdef";
     commit_message := "Add greeting";
     commit_author_name := "Octo";
     commit_author_date := "2024-03-02T10:00:00Z";
     files :=
       Some [{| filename := "hello.txt"; file_status := "added";
                patch := Some "@@ -0,0 +1 @@" |};
             {| filename := "logo.png"; file_status := "added";
                patch := None |}] |}.

Definition replies : Demo.Bodies :=
  {| Demo.commitBodies := [];
     Demo.changesBodies := [];
     Demo.repoBodies := [];
     Demo.errorBodies := [];
     Demo.githubBodies := [("github.json", response)] |}.

Definition githubEnv : Env Demo.World := Demo.env replies.

Definition online : State Demo.World :=
  Demo.start [Demo.respond 200 "github.json"] (GenReturns None).

Definition fetchAt (repoUrl : string) : result Types.Commit * State Demo.World :=
  GitHub.fetchGitHubCommit (E := githubEnv) repoUrl "89abcdef" None online.

End GitHubDemo.

Module AzureUrlDemo.
Import Platform.

Definition parse (url : string) : option Azure.AzureRepoRef :=
  Azure.parseAzureUrl (E := AzureDemo.env) url.

Definition fetchFrom (url : string) : result Types.Commit * State Demo.World :=
  Azure.fetchAzureCommit (E := AzureDemo.env) url "0123456789abcdef" "pat"
    AzureDemo.changesDown.

End AzureUrlDemo.

Module MoreDemo.
Import Platform.

Definition folderAdded : AzureChange :=
  {| item := {| path := "/docs";
                item_url := "https://dev.azure.com/contoso/_apis/git/items/3";
                isFolder := true |};
     changeType := "add" |}.

Definition added : AzureChange :=
  {| item := {| path := "/src/new.ts";
                item_url := "https://dev.azure.com/contoso/_apis/git/items/4";
                isFolder := false |};
     changeType := "add" |}.

Definition bodies : Demo.Bodies :=
  {| Demo.commitBodies := [("commit.json", AzureDemo.metadata)];
     Demo.changesBodies :=
       [("mixed.json",
         {| changes := Some [AzureDemo.deleted; AzureDemo.edited; folderAdded; added] |});
        ("empty.json", {| changes := Some [] |});
        ("missing.json", {| changes := None |});
        ("removed.json", {| changes := Some [AzureDemo.deleted; folderAdded] |})];
     Demo.repoBodies :=
       [("repos.json",
         {| value := [RepoDemo.repoNamed "site"; RepoDemo.repoNamed "api"] |});
        ("none.json", {| value := [] |})];
     Demo.errorBodies :=
       [("notfound.json",
         JsonValue {| err_message := Some "TF401175: commit not found" |});
        ("blank.json", JsonValue {| err_message := None |});
        ("null", JsonNull)];
     Demo.githubBodies := [("github.json", GitHubDemo.response)] |}.

Definition env : Env Demo.World := Demo.env bodies.

(** The world in which the network will give [answers]. *)
Definition network (answers : list FetchOutcome) : Demo.World :=
  {| Demo.answers := answers; Demo.nextId := 0;
     Demo.generation := GenReturns None |}.

Definition answering (answers : list FetchOutcome) : State Demo.World :=
  {| world := network answers; sent := [] |}.

Definition azure (answers : list FetchOutcome)
  : result Types.Commit * State Demo.World :=
  Azure.fetchAzureCommit (E := env) AzureDemo.repoUrl "0123456789abcdef" "pat"
    (answering answers).

Definition commitRequest : Request :=
  Azure.authorized "Basic OnBhdA=="
    "https://dev.azure.com/contoso/Web/_apis/git/repositories/site/commits/0123456789abcdef?api-version=7.1".

Definition changesRequest : Request :=
  Azure.authorized "Basic OnBhdA=="
    "https://dev.azure.com/contoso/Web/_apis/git/repositories/site/commits/0123456789abcdef/changes?api-version=7.1".

Definition contentRequest (n : string) : Request :=
  Azure.authorized "Basic OnBhdA=="
    ("https://dev.azure.com/contoso/_apis/git/items/" ++ n).

(** The state once the answers are used up and [requests] have been sent;
    [ids] identifiers have been drawn. *)
Definition finished (ids : nat) (requests : list Request) : State Demo.World :=
  {| world := {| Demo.answers := []; Demo.nextId := ids;
                 Demo.generation := GenReturns None |};
     sent := requests |}.

Definition okResponse (body : string) : Response :=
  {| ok := true; status := 200; body := body |}.

Definition failure (status : Z) (body : string) : Response :=
  {| ok := false; status := status; body := body |}.

(** A fetch form on the GitHub tab, filled in. *)
Definition githubForm : CommitManager.FetchForm :=
  {| CommitManager.activeTab := CommitManager.github;
     CommitManager.repoUrl := "https://github.com/octocat/hello";
     CommitManager.commitHash := "89abcdef";
     CommitManager.ghToken := EmptyString;
     CommitManager.azureToken := EmptyString;
     CommitManager.azureOrg := EmptyString;
     CommitManager.azureRepos := [];
     CommitManager.isLoadingRepos := false;
     CommitManager.isFetching := false;
     CommitManager.fetchError := "an earlier error" |}.

(** A fetch form on the Azure tab, with a list loaded earlier. *)
Definition azureForm : CommitManager.FetchForm :=
  {| CommitManager.activeTab := CommitManager.azure;
     CommitManager.repoUrl := AzureDemo.repoUrl;
     CommitManager.commitHash := "0123456789abcdef";
     CommitManager.ghToken := EmptyString;
     CommitManager.azureToken := "pat";
     CommitManager.azureOrg := "contoso";
     CommitManager.azureRepos := [Azure.toRepository (RepoDemo.repoNamed "site")];
     CommitManager.isLoadingRepos := false;
     CommitManager.isFetching := false;
     CommitManager.fetchError := EmptyString |}.

(** An application state with three commits and no document yet. *)
Definition appState (commits : list Types.Commit) : App.AppState :=
  {| App.commits := commits;
     App.generatedDoc := EmptyString;
     App.isGenerating := false;
     App.extraInfo := EmptyString;
     App.setupInstructions := EmptyString;
     App.previousDocContent := None;
     App.previousDocName := EmptyString |}.

End MoreDemo.

(* ================================================================== *)
(** * Facts about the string primitives *)
(* ================================================================== *)

Module StringFacts.

Lemma app_assoc (a b c : string) : (a ++ b) ++ c = a ++ (b ++ c).
Proof. induction a as [|x a IH]; simpl; [reflexivity | now rewrite IH]. Qed.

Lemma app_nil_r (a : string) : a ++ EmptyString = a.
Proof. induction a as [|x a IH]; simpl; [reflexivity | now rewrite IH]. Qed.

Lemma length_app (a b : string) :
  String.length (a ++ b) = String.length a + String.length b.
Proof. induction a as [|x a IH]; simpl; [reflexivity | now rewrite IH]. Qed.

Lemma startsWith_refl (p : string) : JS.startsWith p p = true.
Proof.
  induction p as [|x p IH]; simpl; [reflexivity|].
  now rewrite Ascii.eqb_refl, IH.
Qed.

Lemma startsWith_app (p rest : string) : JS.startsWith (p ++ rest) p = true.
Proof.
  induction p as [|x p IH]; simpl; [reflexivity|].
  now rewrite Ascii.eqb_refl, IH.
Qed.

(** [startsWith s p] holds exactly when [s] is [p] followed by something. *)
Lemma startsWith_inv (p s : string) :
  JS.startsWith s p = true -> exists rest, s = p ++ rest.
Proof.
  revert s; induction p as [|x p IH]; intros s Hs.
  - now exists s.
  - destruct s as [|y s]; simpl in Hs; [discriminate|].
    apply andb_prop in Hs as [Hxy Hs].
    apply Ascii.eqb_eq in Hxy; subst y.
    destruct (IH _ Hs) as [rest ->]. now exists rest.
Qed.

Lemma includes_here (s sub : string) :
  JS.startsWith s sub = true -> JS.includes s sub = true.
Proof. intros Hs; destruct s; simpl in *; now rewrite Hs. Qed.

Lemma includes_later (c : ascii) (s sub : string) :
  JS.includes s sub = true -> JS.includes (String c s) sub = true.
Proof. intros Hs. cbn [JS.includes]. rewrite Hs. apply orb_true_r. Qed.

(** A string includes whatever it is built around. *)
Lemma includes_app (pre sub post : string) :
  JS.includes (pre ++ sub ++ post) sub = true.
Proof.
  induction pre as [|x pre IH].
  - cbn [append]. apply includes_here, startsWith_app.
  - cbn [append]. now apply includes_later.
Qed.

Lemma includes_app_end (pre sub : string) : JS.includes (pre ++ sub) sub = true.
Proof.
  rewrite <- (app_nil_r sub) at 1. apply includes_app.
Qed.

Lemma includes_inv (s sub : string) :
  JS.includes s sub = true -> exists pre post, s = pre ++ sub ++ post.
Proof.
  induction s as [|c s IH]; cbn [JS.includes]; intros Hs.
  - destruct sub; cbn in Hs; [|discriminate].
    now exists EmptyString, EmptyString.
  - apply orb_prop in Hs as [Hs|Hs].
    + apply startsWith_inv in Hs as [rest Hrest]. now exists EmptyString, rest.
    + destruct (IH Hs) as (pre & post & ->). now exists (String c pre), post.
Qed.

Lemma truthy_true (s : string) : JS.truthy s = true <-> s <> EmptyString.
Proof. destruct s; simpl; split; intros; congruence. Qed.

Lemma truthy_false (s : string) : JS.truthy s = false <-> s = EmptyString.
Proof. destruct s; simpl; split; intros; congruence. Qed.

End StringFacts.

(* ================================================================== *)
(** * The commit store *)
(* ================================================================== *)

Module StoreFacts.
Import App.

Lemma addAll_app (cs store : list Types.Commit) :
  addAll cs store = (store ++ cs)%list.
Proof.
  revert store; induction cs as [|c cs IH]; intros store; cbn.
  - now rewrite List.app_nil_r.
  - unfold addAll in IH. rewrite IH. unfold handleAddCommit.
    now rewrite <- List.app_assoc.
Qed.

Lemma remove_absent (id : string) (store : list Types.Commit) :
  ~ In id (map Types.id store) -> handleRemoveCommit id store = store.
Proof.
  unfold handleRemoveCommit.
  induction store as [|c store IH]; intros Hid; cbn; [reflexivity|].
  cbn in Hid.
  destruct (String.eqb_spec (Types.id c) id) as [E|E]; cbn.
  - exfalso; apply Hid; now left.
  - f_equal; apply IH; intros Hin; apply Hid; now right.
Qed.

Lemma remove_app (id : string) (l1 l2 : list Types.Commit) :
  handleRemoveCommit id (l1 ++ l2)%list
  = (handleRemoveCommit id l1 ++ handleRemoveCommit id l2)%list.
Proof. unfold handleRemoveCommit. apply filter_app. Qed.

Lemma remove_present (pre post : list Types.Commit) (c : Types.Commit) :
  NoDup (map Types.id (pre ++ c :: post)%list) ->
  handleRemoveCommit (Types.id c) (pre ++ c :: post)%list = (pre ++ post)%list.
Proof.
  intros Hnd. rewrite map_app in Hnd. cbn in Hnd.
  pose proof (NoDup_remove_2 _ _ _ Hnd) as Hnotin.
  rewrite remove_app.
  change (c :: post) with ([c] ++ post)%list. rewrite remove_app.
  rewrite (@remove_absent _ pre), (@remove_absent _ post).
  - unfold handleRemoveCommit; cbn. now rewrite String.eqb_refl.
  - intros Hin; apply Hnotin, in_or_app; now right.
  - intros Hin; apply Hnotin, in_or_app; now left.
Qed.

End StoreFacts.

(** C8. After adding the commits [cs] (with pairwise distinct identifiers, as
    the data model requires) to an empty store, removing one of them by its
    identifier leaves the others in their order, one fewer in number; and
    removing an identifier that is not in the store leaves it unchanged. *)
Theorem C8_remove_keeps_order (cs : list Types.Commit) :
  NoDup (map Types.id cs) ->
  (forall pre c post,
      cs = (pre ++ c :: post)%list ->
      App.handleRemoveCommit (Types.id c) (App.addAll cs []) = (pre ++ post)%list
      /\ List.length (App.handleRemoveCommit (Types.id c) (App.addAll cs []))
         = List.length cs - 1)
  /\ (forall id,
      ~ In id (map Types.id cs) ->
      App.handleRemoveCommit id (App.addAll cs []) = App.addAll cs []).
Proof.
  intros Hnd. rewrite StoreFacts.addAll_app. cbn [app]. split.
  - intros pre c post ->.
    rewrite (StoreFacts.remove_present _ _ _ Hnd).
    split; [reflexivity|].
    rewrite !length_app. cbn [List.length]. lia.
  - intros id Hid. now apply StoreFacts.remove_absent.
Qed.


Lemma three_distinct : NoDup (map Types.id StoreDemo.three).
Proof.
  cbn. repeat constructor; cbn; intuition discriminate.
Defined.

Lemma C8_remove_keeps_order_witness :
  NoDup (map Types.id StoreDemo.three)
  /\ App.handleRemoveCommit "b" (App.addAll StoreDemo.three [])
     = [StoreDemo.commit "a" "first"; StoreDemo.commit "c" "third"]
  /\ App.handleRemoveCommit "z" (App.addAll StoreDemo.three [])
     = App.addAll StoreDemo.three [].
Proof.
  split; [exact three_distinct|].
  destruct (@C8_remove_keeps_order StoreDemo.three three_distinct) as [Hrem Hno].
  split.
  - exact (proj1 (Hrem [StoreDemo.commit "a" "first"] (StoreDemo.commit "b" "second")
                       [StoreDemo.commit "c" "third"] eq_refl)).
  - apply Hno. cbn. intuition discriminate.
Defined.

(* ================================================================== *)
(** * Running the monad *)
(* ================================================================== *)

Module Run.
Import Platform.

Lemma bind_ok {W A B} (c : M W A) (k : A -> M W B) (s s' : State W) (a : A) :
  c s = (Ok a, s') -> bind c k s = k a s'.
Proof. unfold bind; now intros ->. Qed.

Lemma bind_throw {W A B} (c : M W A) (k : A -> M W B) (s s' : State W) m :
  c s = (Throw m, s') -> bind c k s = (Throw m, s').
Proof. unfold bind; now intros ->. Qed.

Lemma try_ok {W A} (c : M W A) (h : string -> M W A) (s s' : State W) (a : A) :
  c s = (Ok a, s') -> try_catch c h s = (Ok a, s').
Proof. unfold try_catch; now intros ->. Qed.

Lemma try_throw {W A} (c : M W A) (h : string -> M W A) (s s' : State W) m :
  c s = (Throw m, s') -> try_catch c h s = h m s'.
Proof. unfold try_catch; now intros ->. Qed.

(** Catching only to throw again changes nothing. *)
Lemma try_rethrow {W A} (c : M W A) (s : State W) :
  try_catch c (fun e => throw e) s = c s.
Proof.
  unfold try_catch, throw. destruct (c s) as [[a|m] s']; reflexivity.
Qed.

Lemma perform_eq {W A} (f : W -> A * W) (s : State W) a w' :
  f (world s) = (a, w') ->
  perform f s = (Ok a, {| world := w'; sent := sent s |}).
Proof. unfold perform; now intros ->. Qed.

Lemma fetch_resolved {W} {E : Env W} (rq : Request) (s : State W) r w' :
  fetch rq (world s) = (Resolved r, w') ->
  await_fetch rq s = (Ok r, {| world := w'; sent := (sent s ++ [rq])%list |}).
Proof. unfold await_fetch; now intros ->. Qed.

Lemma fetch_rejected {W} {E : Env W} (rq : Request) (s : State W) m w' :
  fetch rq (world s) = (Rejected m, w') ->
  await_fetch rq s = (Throw m, {| world := w'; sent := (sent s ++ [rq])%list |}).
Proof. unfold await_fetch; now intros ->. Qed.

End Run.

(* ================================================================== *)
(** * Manual entry *)
(* ================================================================== *)

(** C9, as the code has it.  A manual entry (made only when the pasted diff
    is not empty) appends one commit whose [hash] is the literal ["manual"],
    whose [author] is absent, whose [date] is present and holds the time of
    the entry, whose [message] is the typed message or, when that is empty,
    the placeholder ["Manual Diff Entry"], whose [diff] is the pasted text
    and whose [source] is [MANUAL]. *)
Theorem C9_manual_commit_fields {W : Type} {E : Platform.Env W}
    (form : CommitManager.ManualForm) (commits : list Types.Commit)
    (s : Platform.State W) (id now : string) (w1 w2 : W) :
  JS.truthy (CommitManager.manualDiff form) = true ->
  Platform.randomUUID (Platform.world s) = (id, w1) ->
  Platform.nowISOString w1 = (now, w2) ->
  exists c,
    CommitManager.handleManualAdd form commits s
    = (Platform.Ok ({| CommitManager.manualDiff := EmptyString;
                       CommitManager.manualMessage := EmptyString |},
                    (commits ++ [c])%list),
       {| Platform.world := w2; Platform.sent := Platform.sent s |})
    /\ Types.id c = id
    /\ Types.hash c = "manual"
    /\ Types.author c = None
    /\ Types.date c = Some now
    /\ (CommitManager.manualMessage form = EmptyString ->
        Types.message c = "Manual Diff Entry")
    /\ (CommitManager.manualMessage form <> EmptyString ->
        Types.message c = CommitManager.manualMessage form)
    /\ Types.diff c = CommitManager.manualDiff form
    /\ Types.source c = Types.MANUAL.
Proof.
  intros Hdiff Hid Hnow.
  unfold CommitManager.handleManualAdd, CommitManager.newManualCommit.
  rewrite Hdiff. cbn [negb].
  eexists. split.
  - unfold Platform.bind, Platform.perform, Platform.ret, App.handleAddCommit.
    rewrite Hid. cbn. rewrite Hnow. reflexivity.
  - cbn. repeat split.
    + now intros ->.
    + intros Hm. destruct (CommitManager.manualMessage form); [congruence | reflexivity].
Qed.


Lemma C9_manual_commit_fields_witness :
  JS.truthy (CommitManager.manualDiff ManualDemo.pasted) = true
  /\ exists c,
       fst (CommitManager.handleManualAdd (E := Demo.env Demo.noBodies)
              ManualDemo.pasted [] ManualDemo.before)
       = Platform.Ok ({| CommitManager.manualDiff := EmptyString;
                         CommitManager.manualMessage := EmptyString |}, [c])
       /\ Types.date c = Some "2024-05-01T12:00:00.000Z"
       /\ Types.message c = "Manual Diff Entry".
Proof.
  split; [reflexivity|].
  destruct (@C9_manual_commit_fields Demo.World (Demo.env Demo.noBodies)
              ManualDemo.pasted [] ManualDemo.before "uuid-0"
              "2024-05-01T12:00:00.000Z"
              {| Demo.answers := []; Demo.nextId := 1;
                 Demo.generation := Platform.GenReturns None |}
              {| Demo.answers := []; Demo.nextId := 1;
                 Demo.generation := Platform.GenReturns None |}
              eq_refl eq_refl eq_refl)
    as (c & Hrun & _ & _ & _ & Hdate & Hmsg & _).
  exists c. rewrite Hrun. cbn [fst app]. repeat split.
  - exact Hdate.
  - apply Hmsg. reflexivity.
Defined.

(** C9 as stated fails on [date]: the commit made from a pasted diff carries
    the time of the entry. *)
Lemma C9_counterexample :
  CommitManager.handleManualAdd (E := Demo.env Demo.noBodies)
    ManualDemo.pasted [] ManualDemo.before
  = (Platform.Ok ({| CommitManager.manualDiff := EmptyString;
                     CommitManager.manualMessage := EmptyString |},
                  [ManualDemo.created]),
     {| Platform.world := {| Demo.answers := []; Demo.nextId := 1;
                             Demo.generation := Platform.GenReturns None |};
        Platform.sent := [] |})
  /\ Types.date ManualDemo.created <> None.
Proof.
  split; [vm_compute; reflexivity | discriminate].
Qed.

(* ================================================================== *)
(** * Documentation generation *)
(* ================================================================== *)

Module GeminiFacts.
Import Platform.

Lemma failed_starts (m : string) :
  JS.startsWith (Gemini.generationFailed m) "# Generation Failed" = true.
Proof. reflexivity. Qed.

Lemma failed_includes (m : string) :
  JS.includes (Gemini.generationFailed m) m = true.
Proof.
  unfold Gemini.generationFailed.
  rewrite <- !StringFacts.app_assoc. apply StringFacts.includes_app_end.
Qed.

Section WithEnv.
Context {W : Type} {E : Env W}.

(** What [generateDocumentation] returns, by the outcome of the call. *)
Lemma generate_run (commits : list Types.Commit) (config : Types.GenerationConfig)
    (s : State W) :
  Gemini.generateDocumentation commits config s
  = let '(o, w') := generateContent (Gemini.generateRequest commits config) (world s) in
    (Ok match o with
        | GenThrows m => Gemini.generationFailed m
        | GenReturns t => JS.or_else t Gemini.noContent
        end,
     {| world := w'; sent := sent s |}).
Proof.
  unfold Gemini.generateDocumentation, try_catch, bind, ret,
    Gemini.await_generateContent.
  destruct (generateContent _ _) as [[m|t] w']; reflexivity.
Qed.

End WithEnv.
End GeminiFacts.

(** C6. [generateDocumentation] always returns a string and never throws.
    When the text-generation call throws an error with message [m], the string
    begins with [# Generation Failed] and contains [m]; when the call returns
    a response without text (undefined or empty), the string is the fixed
    placeholder; otherwise it is the response text. *)
Theorem C6_generation_never_throws {W : Type} {E : Platform.Env W}
    (commits : list Types.Commit) (config : Types.GenerationConfig)
    (s : Platform.State W) :
  (exists doc s',
      Gemini.generateDocumentation commits config s = (Platform.Ok doc, s'))
  /\ (forall m w',
      Platform.generateContent (Gemini.generateRequest commits config)
        (Platform.world s) = (Platform.GenThrows m, w') ->
      exists doc,
        Gemini.generateDocumentation commits config s
        = (Platform.Ok doc,
           {| Platform.world := w'; Platform.sent := Platform.sent s |})
        /\ JS.startsWith doc "# Generation Failed" = true
        /\ JS.includes doc m = true)
  /\ (forall t w',
      Platform.generateContent (Gemini.generateRequest commits config)
        (Platform.world s) = (Platform.GenReturns t, w') ->
      Gemini.generateDocumentation commits config s
      = (Platform.Ok (if JS.truthy_opt t
                      then match t with Some text => text | None => EmptyString end
                      else "# Error: No content generated."),
         {| Platform.world := w'; Platform.sent := Platform.sent s |})).
Proof.
  rewrite GeminiFacts.generate_run.
  destruct (Platform.generateContent _ _) as [o w0] eqn:Hgen.
  split; [eauto|]. split.
  - intros m w' [= -> ->]. eexists. split; [reflexivity|]. split.
    + apply GeminiFacts.failed_starts.
    + apply GeminiFacts.failed_includes.
  - intros t w' [= -> ->]. destruct t as [[|c t]|]; reflexivity.
Qed.


Lemma C6_generation_never_throws_witness :
  (exists doc,
      Gemini.generateDocumentation (E := Demo.env Demo.noBodies)
        GeminiDemo.oneCommit GeminiDemo.config GeminiDemo.quota
      = (Platform.Ok doc, GeminiDemo.quota)
      /\ JS.startsWith doc "# Generation Failed" = true
      /\ JS.includes doc "quota exceeded" = true)
  /\ Gemini.generateDocumentation (E := Demo.env Demo.noBodies)
       GeminiDemo.oneCommit GeminiDemo.config GeminiDemo.silent
     = (Platform.Ok "# Error: No content generated.", GeminiDemo.silent).
Proof.
  split.
  - exact (proj1 (proj2 (@C6_generation_never_throws Demo.World
             (Demo.env Demo.noBodies) GeminiDemo.oneCommit GeminiDemo.config
             GeminiDemo.quota))
           "quota exceeded" _ eq_refl).
  - exact (proj2 (proj2 (@C6_generation_never_throws Demo.World
             (Demo.env Demo.noBodies) GeminiDemo.oneCommit GeminiDemo.config
             GeminiDemo.silent))
           None _ eq_refl).
Defined.

(* ================================================================== *)
(** * The Azure transcript *)
(* ================================================================== *)

Module AzureFacts.
Import Platform Spec.

Section WithEnv.
Context {W : Type} {E : Env W}.


(** One iteration of the loop, as a function of the answer of the network. *)
Lemma processChange_run (authHeader : string) (change : AzureChange)
    (diffContent : string) (s : State W) :
  Azure.processChange authHeader change diffContent s
  = if eligible change then
      let rq := Azure.authorized authHeader (item_url (item change)) in
      let '(o, w') := fetch rq (world s) in
      (Ok (diffContent ++ Azure.fileHeader change ++ note o ++ "---" ++ JS.nl),
       {| world := w'; sent := (sent s ++ [rq])%list |})
    else
      (Ok (diffContent ++ Azure.fileHeader change ++ "---" ++ JS.nl), s).
Proof.
  unfold Azure.processChange, eligible.
  destruct (Azure.isEditOrAdd _ && negb _).
  - unfold bind, try_catch, ret, await_fetch.
    destruct (fetch _ _) as [[m|r] w']; cbn [note].
    + now rewrite !StringFacts.app_assoc.
    + destruct (ok r); now rewrite !StringFacts.app_assoc.
  - unfold bind, ret. now rewrite !StringFacts.app_assoc.
Qed.

(** An iteration never throws and only appends to the transcript. *)
Lemma processChange_extends (authHeader : string) (change : AzureChange)
    (diffContent : string) (s : State W) :
  exists ext s',
    Azure.processChange authHeader change diffContent s
    = (Ok (diffContent ++ ext), s').
Proof.
  rewrite processChange_run. destruct (eligible change).
  - cbv zeta. destruct (fetch _ _) as [o w']. eauto.
  - eauto.
Qed.

(** So does the whole loop. *)
Lemma processChanges_extends (authHeader : string) (changes : list AzureChange) :
  forall (diffContent : string) (s : State W),
  exists ext s',
    Azure.processChanges authHeader changes diffContent s
    = (Ok (diffContent ++ ext), s').
Proof.
  induction changes as [|change rest IH]; intros d s; cbn [Azure.processChanges].
  - exists EmptyString, s. unfold ret. now rewrite StringFacts.app_nil_r.
  - destruct (processChange_extends authHeader change d s) as (e1 & s1 & H1).
    rewrite (Run.bind_ok _ _ _ H1).
    destruct (IH (d ++ e1) s1) as (e2 & s2 & H2).
    exists (e1 ++ e2), s2. now rewrite H2, StringFacts.app_assoc.
Qed.

(** The loop over [pre ++ change :: post] runs [pre], then [change], then
    [post]. *)
Lemma processChanges_app (authHeader : string) (pre post : list AzureChange) :
  forall (diffContent : string) (s : State W),
  Azure.processChanges authHeader (pre ++ post)%list diffContent s
  = bind (Azure.processChanges authHeader pre diffContent)
         (Azure.processChanges authHeader post) s.
Proof.
  induction pre as [|change pre IH]; intros d s; cbn [app Azure.processChanges].
  - reflexivity.
  - unfold bind in *.
    destruct (Azure.processChange authHeader change d s) as [[d1|m] s1].
    + apply IH.
    + reflexivity.
Qed.

(** A returned commit is built from the parsed metadata and from a transcript
    that extends the summary line. *)
Lemma fetchAzureCommit_inv (repoUrl commitHash token : string) (s s' : State W)
    (c : Types.Commit) :
  Azure.fetchAzureCommit repoUrl commitHash token s = (Ok c, s') ->
  exists id commitData ext,
    c = Azure.azureCommit id commitData (Azure.changesSummary ++ ext).
Proof.
  unfold Azure.fetchAzureCommit.
  destruct (Azure.parseAzureUrl repoUrl) as [parsed|]; [|discriminate].
  rewrite Run.try_rethrow.
  unfold bind at 1. destruct (await_fetch _ s) as [[r1|m1] s1]; [|discriminate].
  unfold bind at 1.
  destruct (ok r1); cbn [negb].
  2:{ destruct (status r1 =? 401)%Z; [discriminate|].
      unfold bind at 1. unfold lift at 1.
      destruct (messageOf _); discriminate. }
  unfold lift at 1. destruct (json_commit (body r1)) as [cd|m2]; [|discriminate].
  unfold bind at 1. destruct (await_fetch _ s1) as [[r2|m3] s2]; [|discriminate].
  unfold bind at 1.
  destruct (ok r2).
  - unfold bind at 1. unfold lift at 1.
    destruct (json_changes (body r2)) as [chd|m4]; [|discriminate].
    unfold bind at 1.
    destruct (processChanges_extends (Azure.authHeaderOf token)
                match changes chd with Some l => l | None => [] end
                Azure.changesSummary s2) as (ext & s3 & Hloop).
    rewrite Hloop.
    destruct (Z.of_nat _ =? 0)%Z; unfold ret at 1.
    + unfold bind, perform, ret. destruct (randomUUID _) as [id w4].
      intros [= <- _]. exists id, cd, (ext ++ "No file changes found in this commit.").
      reflexivity.
    + unfold bind, perform, ret. destruct (randomUUID _) as [id w4].
      intros [= <- _]. now exists id, cd, ext.
  - unfold ret at 1. unfold bind, perform, ret.
    destruct (randomUUID _) as [id w4].
    intros [= <- _]. now exists id, cd, "Could not fetch changes list from Azure API.".
Qed.

End WithEnv.
End AzureFacts.

(** C10. Whenever [fetchAzureCommit] returns a commit, its [diff] begins with
    the line [## Changes Summary]: whether the list of changes could not be
    read, was empty, or whatever the content requests gave. *)
Theorem C10_diff_begins_with_summary {W : Type} {E : Platform.Env W}
    (repoUrl commitHash token : string) (s s' : Platform.State W)
    (c : Types.Commit) :
  Azure.fetchAzureCommit repoUrl commitHash token s = (Platform.Ok c, s') ->
  JS.startsWith (Types.diff c) ("## Changes Summary" ++ JS.nl) = true.
Proof.
  intros Hrun.
  destruct (AzureFacts.fetchAzureCommit_inv _ _ _ _ Hrun) as (id & cd & ext & ->).
  cbn [Azure.azureCommit Types.diff].
  apply StringFacts.startsWith_app.
Qed.


Module SubstringFacts.

Lemma prefix_all (n : nat) (s : string) :
  String.length s <= n -> String.substring 0 n s = s.
Proof.
  revert n; induction s as [|c s IH]; intros [|n] Hn; cbn in *;
    try reflexivity; try lia.
  f_equal. apply IH. lia.
Qed.

Lemma prefix_length (n : nat) (s : string) :
  n <= String.length s -> String.length (String.substring 0 n s) = n.
Proof.
  revert n; induction s as [|c s IH]; intros [|n] Hn; cbn in *;
    try reflexivity; try lia.
  f_equal. apply IH. lia.
Qed.

Lemma prefix_starts (n : nat) (s : string) :
  JS.startsWith s (String.substring 0 n s) = true.
Proof.
  revert n; induction s as [|c s IH]; intros [|n]; cbn; try reflexivity.
  now rewrite Ascii.eqb_refl, IH.
Qed.

(** [s.substring(0, b)] is the whole of a string of at most [b] characters. *)
Lemma substring_short (s : string) (b : Z) :
  (JS.length s <= b)%Z -> JS.substring s 0 b = s.
Proof.
  unfold JS.length, JS.substring. intros Hb.
  change (Z.to_nat 0) with 0. apply prefix_all. lia.
Qed.

(** [s.substring(0, b)] is the first [b] characters of a longer string. *)
Lemma substring_long (s : string) (b : Z) :
  (0 <= b <= JS.length s)%Z ->
  JS.length (JS.substring s 0 b) = b
  /\ JS.startsWith s (JS.substring s 0 b) = true.
Proof.
  unfold JS.length, JS.substring. intros Hb.
  change (Z.to_nat 0) with 0. split.
  - rewrite prefix_length; lia.
  - apply prefix_starts.
Qed.

End SubstringFacts.

Module AzureRuns.
Import Platform.

Section WithEnv.
Context {W : Type} {E : Env W}.

(** The run up to the answer of the changes request, when the commit request
    succeeds: what remains is to build the transcript and the commit. *)
Lemma after_changes_response (repoUrl commitHash token : string) (s : State W)
    (parsed : Azure.AzureRepoRef) (r1 r2 : Response) (w1 w2 : W)
    (commitData : AzureCommitData) :
  let authHeader := Azure.authHeaderOf token in
  let rq1 := Azure.authorized authHeader
               (Azure.commitUrl (Azure.apiBaseUrl parsed) commitHash) in
  let rq2 := Azure.authorized authHeader
               (Azure.changesUrl (Azure.apiBaseUrl parsed) commitHash) in
  Azure.parseAzureUrl repoUrl = Some parsed ->
  fetch rq1 (world s) = (Resolved r1, w1) ->
  ok r1 = true ->
  json_commit (body r1) = Ok commitData ->
  fetch rq2 w1 = (Resolved r2, w2) ->
  Azure.fetchAzureCommit repoUrl commitHash token s
  = bind
      (if ok r2 then
         bind (lift (json_changes (body r2))) (fun changesData =>
         let changes :=
           match Platform.changes changesData with Some l => l | None => [] end in
         bind (Azure.processChanges authHeader changes Azure.changesSummary)
           (fun diffContent =>
         if (Z.of_nat (List.length changes) =? 0)%Z
         then ret (diffContent ++ "No file changes found in this commit.")
         else ret diffContent))
       else
         ret (Azure.changesSummary ++ "Could not fetch changes list from Azure API."))
      (fun diffContent =>
         bind (perform randomUUID) (fun id =>
         ret (Azure.azureCommit id commitData diffContent)))
      {| world := w2; sent := (sent s ++ [rq1; rq2])%list |}.
Proof.
  intros authHeader rq1 rq2 Hparse Hf1 Hok1 Hjson Hf2.
  unfold Azure.fetchAzureCommit. rewrite Hparse, Run.try_rethrow.
  fold authHeader rq1 rq2.
  rewrite (Run.bind_ok _ _ _ (Run.fetch_resolved _ _ Hf1)).
  rewrite Hok1. cbn [negb]. rewrite Hjson.
  unfold lift at 1. unfold bind at 1.
  assert (Hf2' : fetch rq2 (world {| world := w1; sent := (sent s ++ [rq1])%list |})
                 = (Resolved r2, w2)) by exact Hf2.
  rewrite (Run.bind_ok _ _ _ (Run.fetch_resolved _ _ Hf2')).
  cbn [sent]. rewrite <- List.app_assoc. reflexivity.
Qed.

End WithEnv.
End AzureRuns.

(** C2. When the commit request succeeds (a success status and a body that
    reads as commit metadata) and the changes request is answered with a
    status that is not a success, [fetchAzureCommit] does not throw: it
    returns the commit built from the metadata, whose [diff] is the summary
    line followed by the note that the changes list could not be fetched. *)
Theorem C2_changes_failure_is_soft {W : Type} {E : Platform.Env W}
    (repoUrl commitHash token : string) (s : Platform.State W)
    (parsed : Azure.AzureRepoRef) (r1 r2 : Platform.Response) (w1 w2 w3 : W)
    (commitData : Platform.AzureCommitData) (id : string) :
  let authHeader := Azure.authHeaderOf token in
  let rq1 := Azure.authorized authHeader
               (Azure.commitUrl (Azure.apiBaseUrl parsed) commitHash) in
  let rq2 := Azure.authorized authHeader
               (Azure.changesUrl (Azure.apiBaseUrl parsed) commitHash) in
  Azure.parseAzureUrl repoUrl = Some parsed ->
  Platform.fetch rq1 (Platform.world s) = (Platform.Resolved r1, w1) ->
  Platform.ok r1 = true ->
  Platform.json_commit (Platform.body r1) = Platform.Ok commitData ->
  Platform.fetch rq2 w1 = (Platform.Resolved r2, w2) ->
  Platform.ok r2 = false ->
  Platform.randomUUID w2 = (id, w3) ->
  Azure.fetchAzureCommit repoUrl commitHash token s
  = (Platform.Ok
       {| Types.id := id;
          Types.hash := JS.substring (Platform.commitId commitData) 0 7;
          Types.message := Platform.comment commitData;
          Types.diff := "## Changes Summary" ++ JS.nl
                          ++ "Could not fetch changes list from Azure API.";
          Types.author :=
            match Platform.commit_author commitData with
            | Some a => Platform.author_name a
            | None => None
            end;
          Types.date :=
            match Platform.commit_author commitData with
            | Some a => Platform.author_date a
            | None => None
            end;
          Types.source := Types.AZURE |},
     {| Platform.world := w3;
        Platform.sent := (Platform.sent s ++ [rq1; rq2])%list |}).
Proof.
  intros authHeader rq1 rq2 Hparse Hf1 Hok1 Hjson Hf2 Hok2 Hid.
  rewrite (AzureRuns.after_changes_response _ _ _ _ Hparse Hf1 Hok1 Hjson Hf2).
  rewrite Hok2.
  unfold Platform.bind, Platform.ret, Platform.perform. cbn [Platform.world].
  rewrite Hid. reflexivity.
Qed.

Lemma C2_changes_failure_is_soft_witness :
  AzureDemo.diffOf (AzureDemo.run AzureDemo.changesDown)
  = "## Changes Summary" ++ JS.nl ++ "Could not fetch changes list from Azure API."
  /\ exists c s', AzureDemo.run AzureDemo.changesDown = (Platform.Ok c, s')
                  /\ Types.hash c = "0123456"
                  /\ Types.message c = "Fix the parser".
Proof.
  pose proof (@C2_changes_failure_is_soft Demo.World AzureDemo.env
    AzureDemo.repoUrl "0123456789abcdef" "pat" AzureDemo.changesDown
    AzureDemo.parsed
    {| Platform.ok := true; Platform.status := 200; Platform.body := "commit.json" |}
    {| Platform.ok := false; Platform.status := 500; Platform.body := "Internal error" |}
    {| Demo.answers := [Demo.respond 500 "Internal error"]; Demo.nextId := 0;
       Demo.generation := Platform.GenReturns None |}
    {| Demo.answers := []; Demo.nextId := 0;
       Demo.generation := Platform.GenReturns None |}
    {| Demo.answers := []; Demo.nextId := 1;
       Demo.generation := Platform.GenReturns None |}
    AzureDemo.metadata "uuid-0"
    eq_refl eq_refl eq_refl eq_refl eq_refl eq_refl eq_refl) as Hrun.
  unfold AzureDemo.diffOf, AzureDemo.run. rewrite Hrun. cbn [fst Types.diff].
  split; [reflexivity|].
  eexists _, _. split; [reflexivity|]. split; reflexivity.
Defined.

(** C1. In a run of [fetchAzureCommit] that reads the commit and the list of
    changes, take any changed item of type [edit] or [add] that is not a
    folder and whose content request is answered with a success status.
    Then the returned [diff] holds, after the header of that file and before
    its separator:
    - when the text has fewer than 30000 characters and no NUL character, a
      fenced block with the first 5000 characters of the text (all of it when
      it has at most 5000), followed by the [(truncated)] marker exactly when
      the text has more than 5000 characters;
    - when the text has 30000 characters or more, or holds a NUL character,
      the note that the file was skipped as too large or binary. *)
Theorem C1_file_content_embedding {W : Type} {E : Platform.Env W}
    (repoUrl commitHash token : string) (s s1 : Platform.State W)
    (parsed : Azure.AzureRepoRef) (r1 r2 r3 : Platform.Response) (w1 w2 w3 : W)
    (commitData : Platform.AzureCommitData)
    (pre post : list Platform.AzureChange) (change : Platform.AzureChange)
    (d1 : string) :
  let authHeader := Azure.authHeaderOf token in
  let rq1 := Azure.authorized authHeader
               (Azure.commitUrl (Azure.apiBaseUrl parsed) commitHash) in
  let rq2 := Azure.authorized authHeader
               (Azure.changesUrl (Azure.apiBaseUrl parsed) commitHash) in
  let text := Platform.body r3 in
  Azure.parseAzureUrl repoUrl = Some parsed ->
  Platform.fetch rq1 (Platform.world s) = (Platform.Resolved r1, w1) ->
  Platform.ok r1 = true ->
  Platform.json_commit (Platform.body r1) = Platform.Ok commitData ->
  Platform.fetch rq2 w1 = (Platform.Resolved r2, w2) ->
  Platform.ok r2 = true ->
  Platform.json_changes (Platform.body r2)
  = Platform.Ok {| Platform.changes := Some (pre ++ change :: post)%list |} ->
  Azure.processChanges authHeader pre ("## Changes Summary" ++ JS.nl)
    {| Platform.world := w2;
       Platform.sent := (Platform.sent s ++ [rq1; rq2])%list |}
  = (Platform.Ok d1, s1) ->
  Platform.changeType change = "edit" \/ Platform.changeType change = "add" ->
  Platform.isFolder (Platform.item change) = false ->
  Platform.fetch
    (Azure.authorized authHeader (Platform.item_url (Platform.item change)))
    (Platform.world s1) = (Platform.Resolved r3, w3) ->
  Platform.ok r3 = true ->
  exists c s' embedded rest,
    Azure.fetchAzureCommit repoUrl commitHash token s = (Platform.Ok c, s')
    /\ Types.diff c
       = d1 ++ (JS.nl ++ "File: " ++ Platform.path (Platform.item change)
                  ++ " [" ++ Platform.changeType change ++ "]" ++ JS.nl)
            ++ embedded ++ ("---" ++ JS.nl) ++ rest
    /\ ((JS.length text < 30000)%Z /\ JS.includes text JS.nul = false ->
        embedded
        = "```" ++ JS.nl ++ JS.substring text 0 5000
            ++ (if (5000 <? JS.length text)%Z
                then JS.nl ++ "... (truncated)" else EmptyString)
            ++ JS.nl ++ "```" ++ JS.nl)
    /\ ((30000 <= JS.length text)%Z \/ JS.includes text JS.nul = true ->
        embedded = "(File too large or binary, content skipped)" ++ JS.nl)
    /\ ((JS.length text <= 5000)%Z -> JS.substring text 0 5000 = text)
    /\ ((5000 < JS.length text)%Z ->
        JS.length (JS.substring text 0 5000) = 5000%Z
        /\ JS.startsWith text (JS.substring text 0 5000) = true).
Proof.
  intros authHeader rq1 rq2 text Hparse Hf1 Hok1 Hjson Hf2 Hok2 Hchanges Hpre
    Htype Hfile Hf3 Hok3.
  rewrite (AzureRuns.after_changes_response _ _ _ _ Hparse Hf1 Hok1 Hjson Hf2).
  rewrite Hok2, Hchanges. cbn [Platform.changes].
  fold authHeader rq1 rq2.
  assert (Helig : Spec.eligible change = true).
  { unfold Spec.eligible, Azure.isEditOrAdd. rewrite Hfile.
    destruct Htype as [-> | ->]; reflexivity. }
  (* the iteration of [change] *)
  pose proof (AzureFacts.processChange_run authHeader change d1 s1) as Hone.
  rewrite Helig in Hone. cbv zeta in Hone. rewrite Hf3 in Hone.
  cbn [Spec.note] in Hone. rewrite Hok3 in Hone.
  (* the iterations after it *)
  destruct (AzureFacts.processChanges_extends authHeader post
              (d1 ++ Azure.fileHeader change ++ Azure.contentBlock text
                  ++ "---" ++ JS.nl)
              {| Platform.world := w3;
                 Platform.sent := (Platform.sent s1
                   ++ [Azure.authorized authHeader
                         (Platform.item_url (Platform.item change))])%list |})
    as (rest & s2 & Hpost).
  assert (Hloop :
    Azure.processChanges authHeader (pre ++ change :: post)%list
      Azure.changesSummary
      {| Platform.world := w2;
         Platform.sent := (Platform.sent s ++ [rq1; rq2])%list |}
    = (Platform.Ok ((d1 ++ Azure.fileHeader change ++ Azure.contentBlock text
                        ++ "---" ++ JS.nl) ++ rest), s2)).
  { rewrite AzureFacts.processChanges_app.
    rewrite (Run.bind_ok _ _ _ Hpre). cbn [Azure.processChanges].
    rewrite (Run.bind_ok _ _ _ Hone). exact Hpost. }
  destruct (Platform.randomUUID (Platform.world s2)) as [id w4] eqn:Hid.
  eexists _, _, (Azure.contentBlock text), rest.
  split; [|split; [|split; [|split; [|split]]]].
  - unfold Platform.bind, Platform.lift, Platform.ret, Platform.perform.
    cbn [Platform.changes]. rewrite Hloop.
    replace (Z.of_nat (List.length (pre ++ change :: post)) =? 0)%Z with false.
    2:{ symmetry. apply Z.eqb_neq. rewrite length_app. cbn [List.length]. lia. } cbn [Platform.world Platform.sent]. rewrite Hid. reflexivity.
  - cbn [Azure.azureCommit Types.diff]. unfold Azure.fileHeader.
    now rewrite !StringFacts.app_assoc.
  - intros [Hlen Hnul]. unfold Azure.contentBlock.
    apply Z.ltb_lt in Hlen. now rewrite Hlen, Hnul.
  - intros Hbig. unfold Azure.contentBlock.
    destruct Hbig as [Hlen | Hnul].
    + apply Z.ltb_ge in Hlen. now rewrite Hlen.
    + rewrite Hnul. now rewrite andb_false_r.
  - apply SubstringFacts.substring_short.
  - intros Hlen. apply SubstringFacts.substring_long. unfold JS.length in *. lia.
Qed.

Lemma C1_file_content_embedding_witness :
  exists c s' rest,
    AzureDemo.run (AzureDemo.withContent (Demo.respond 200 (Demo.letters 6000)))
    = (Platform.Ok c, s')
    /\ Types.diff c
       = ("## Changes Summary" ++ JS.nl)
           ++ (JS.nl ++ "File: /src/app.ts [edit]" ++ JS.nl)
           ++ ("```" ++ JS.nl ++ Demo.letters 5000 ++ JS.nl ++ "... (truncated)"
                 ++ JS.nl ++ "```" ++ JS.nl)
           ++ ("---" ++ JS.nl) ++ rest.
Proof.
  pose proof (@C1_file_content_embedding Demo.World AzureDemo.env
    AzureDemo.repoUrl "0123456789abcdef" "pat"
    (AzureDemo.withContent (Demo.respond 200 (Demo.letters 6000)))
    {| Platform.world :=
         {| Demo.answers := [Demo.respond 200 (Demo.letters 6000)];
            Demo.nextId := 0; Demo.generation := Platform.GenReturns None |};
       Platform.sent :=
         [Azure.authorized (Azure.authHeaderOf (E := AzureDemo.env) "pat")
            (Azure.commitUrl (Azure.apiBaseUrl AzureDemo.parsed) "0123456789abcdef");
          Azure.authorized (Azure.authHeaderOf (E := AzureDemo.env) "pat")
            (Azure.changesUrl (Azure.apiBaseUrl AzureDemo.parsed) "0123456789abcdef")] |}
    AzureDemo.parsed
    {| Platform.ok := true; Platform.status := 200; Platform.body := "commit.json" |}
    {| Platform.ok := true; Platform.status := 200; Platform.body := "changes.json" |}
    {| Platform.ok := true; Platform.status := 200;
       Platform.body := Demo.letters 6000 |}
    {| Demo.answers := [Demo.respond 200 "changes.json";
                        Demo.respond 200 (Demo.letters 6000)];
       Demo.nextId := 0; Demo.generation := Platform.GenReturns None |}
    {| Demo.answers := [Demo.respond 200 (Demo.letters 6000)];
       Demo.nextId := 0; Demo.generation := Platform.GenReturns None |}
    {| Demo.answers := []; Demo.nextId := 0;
       Demo.generation := Platform.GenReturns None |}
    AzureDemo.metadata [] [AzureDemo.deleted] AzureDemo.edited
    ("## Changes Summary" ++ JS.nl)
    eq_refl eq_refl eq_refl eq_refl eq_refl eq_refl eq_refl eq_refl
    (or_introl eq_refl) eq_refl eq_refl eq_refl)
    as (c & s' & embedded & rest & Hrun & Hdiff & Hsmall & _).
  exists c, s', rest. split; [exact Hrun|].
  rewrite Hdiff, Hsmall.
  - cbn [Platform.body]. apply f_equal. vm_compute. reflexivity.
  - split; vm_compute; reflexivity.
Defined.

Module AzureExamples.
Import Platform.

(** 4,000 characters: embedded in full, without the marker. *)
Example text_4000 :
  AzureDemo.transcript (Demo.letters 4000)
  = AzureDemo.expected ("```" ++ JS.nl ++ Demo.letters 4000 ++ JS.nl ++ "```" ++ JS.nl).
Proof. vm_compute. reflexivity. Qed.

(** 6,000 characters: the first 5,000 and the marker. *)
Example text_6000 :
  AzureDemo.transcript (Demo.letters 6000)
  = AzureDemo.expected ("```" ++ JS.nl ++ Demo.letters 5000 ++ JS.nl ++ "... (truncated)"
                ++ JS.nl ++ "```" ++ JS.nl).
Proof. vm_compute. reflexivity. Qed.

(** Exactly 5,000 characters: no marker. *)
Example text_5000 :
  AzureDemo.transcript (Demo.letters 5000)
  = AzureDemo.expected ("```" ++ JS.nl ++ Demo.letters 5000 ++ JS.nl ++ "```" ++ JS.nl).
Proof. vm_compute. reflexivity. Qed.

(** 40,000 characters: skipped, not truncated. *)
Example text_40000 :
  AzureDemo.transcript (Demo.letters 40000)
  = AzureDemo.expected ("(File too large or binary, content skipped)" ++ JS.nl).
Proof. vm_compute. reflexivity. Qed.

(** Exactly 30,000 characters: skipped. *)
Example text_30000 :
  AzureDemo.transcript (Demo.letters 30000)
  = AzureDemo.expected ("(File too large or binary, content skipped)" ++ JS.nl).
Proof. vm_compute. reflexivity. Qed.

(** A short text with a NUL character: skipped. *)
Example text_with_nul :
  AzureDemo.transcript ("PK" ++ JS.nul ++ "data")
  = AzureDemo.expected ("(File too large or binary, content skipped)" ++ JS.nl).
Proof. vm_compute. reflexivity. Qed.

(** A content request that is rejected leaves the note, and the loop goes on
    to the next file. *)
Example content_rejected :
  AzureDemo.diffOf (AzureDemo.run (AzureDemo.withContent (Rejected "Failed to fetch")))
  = AzureDemo.expected ("(Could not fetch file content)" ++ JS.nl).
Proof. vm_compute. reflexivity. Qed.

End AzureExamples.

Module ContentFailure.
Import Platform.

Section WithEnv.
Context {W : Type} {E : Env W}.

(** A rejected content request is caught: the note is appended, then the
    separator, and the iteration returns. *)
Lemma rejected_leaves_note (authHeader : string) (change : AzureChange)
    (diffContent : string) (s : State W) (m : string) (w' : W) :
  Spec.eligible change = true ->
  fetch (Azure.authorized authHeader (item_url (item change))) (world s)
  = (Rejected m, w') ->
  Azure.processChange authHeader change diffContent s
  = (Ok (diffContent ++ Azure.fileHeader change
           ++ ("(Could not fetch file content)" ++ JS.nl) ++ "---" ++ JS.nl),
     {| world := w';
        sent := (sent s ++ [Azure.authorized authHeader
                              (item_url (item change))])%list |}).
Proof.
  intros Helig Hf. rewrite AzureFacts.processChange_run, Helig. cbv zeta.
  now rewrite Hf.
Qed.

(** A content request answered with a status that is not a success appends
    nothing between the header of the file and its separator. *)
Lemma failure_status_leaves_nothing (authHeader : string) (change : AzureChange)
    (diffContent : string) (s : State W) (r : Response) (w' : W) :
  Spec.eligible change = true ->
  fetch (Azure.authorized authHeader (item_url (item change))) (world s)
  = (Resolved r, w') ->
  ok r = false ->
  Azure.processChange authHeader change diffContent s
  = (Ok (diffContent ++ Azure.fileHeader change ++ "---" ++ JS.nl),
     {| world := w';
        sent := (sent s ++ [Azure.authorized authHeader
                              (item_url (item change))])%list |}).
Proof.
  intros Helig Hf Hok. rewrite AzureFacts.processChange_run, Helig. cbv zeta.
  rewrite Hf. cbn [Spec.note]. now rewrite Hok.
Qed.

End WithEnv.
End ContentFailure.

(** C3, on the code.  The content request of the edited file is answered with
    status 404.  The call still returns a commit and goes on to the next
    file, but the transcript holds no note for the file whose content could
    not be fetched: its header is followed at once by the separator. *)
Theorem C3_failure_status_leaves_no_note :
  AzureDemo.run (AzureDemo.withContent (Demo.respond 404 "Not found"))
  = (Platform.Ok
       (Azure.azureCommit "uuid-0" AzureDemo.metadata
          ("## Changes Summary" ++ JS.nl
             ++ JS.nl ++ "File: /src/app.ts [edit]" ++ JS.nl
             ++ "---" ++ JS.nl
             ++ JS.nl ++ "File: /src/old.ts [delete]" ++ JS.nl
             ++ "---" ++ JS.nl)),
     {| Platform.world :=
          {| Demo.answers := []; Demo.nextId := 1;
             Demo.generation := Platform.GenReturns None |};
        Platform.sent :=
          [Azure.authorized "Basic OnBhdA=="
             "https://dev.azure.com/contoso/Web/_apis/git/repositories/site/commits/0123456789abcdef?api-version=7.1";
           Azure.authorized "Basic OnBhdA=="
             "https://dev.azure.com/contoso/Web/_apis/git/repositories/site/commits/0123456789abcdef/changes?api-version=7.1";
           Azure.authorized "Basic OnBhdA=="
             "https://dev.azure.com/contoso/_apis/git/items/1"] |})
  /\ JS.includes
       (AzureDemo.diffOf
          (AzureDemo.run (AzureDemo.withContent (Demo.respond 404 "Not found"))))
       "Could not fetch" = false.
Proof. split; vm_compute; reflexivity. Qed.

Lemma C10_diff_begins_with_summary_witness :
  JS.startsWith
    (AzureDemo.diffOf
       (AzureDemo.run (AzureDemo.withContent (Demo.respond 200 "const x = 1;"))))
    ("## Changes Summary" ++ JS.nl) = true.
Proof.
  unfold AzureDemo.diffOf.
  destruct (AzureDemo.run _) as [[c|m] s'] eqn:Hrun; cbn [fst].
  - exact (@C10_diff_begins_with_summary Demo.World AzureDemo.env _ _ _ _ _ _ Hrun).
  - vm_compute in Hrun. discriminate Hrun.
Defined.

(* ================================================================== *)
(** * Sorting the repositories *)
(* ================================================================== *)

Module SortFacts.
Import Spec.

Section Sorting.
Context {A : Type} (compare : A -> A -> Z).


Hypothesis compare_total : forall x y, (0 < compare x y)%Z -> upTo compare y x.
Hypothesis compare_trans : forall x y z, upTo compare x y -> upTo compare y z -> upTo compare x z.

Lemma insertSorted_perm (x : A) (l : list A) :
  Permutation (x :: l) (Azure.insertSorted compare x l).
Proof.
  induction l as [|y l IH]; cbn [Azure.insertSorted].
  - apply Permutation_refl.
  - destruct (0 <? compare x y)%Z.
    + eapply perm_trans; [apply perm_swap|]. now apply perm_skip.
    + apply Permutation_refl.
Qed.

Lemma sort_perm (l : list A) : Permutation l (Azure.sort compare l).
Proof.
  induction l as [|x l IH]; cbn [Azure.sort].
  - apply perm_nil.
  - eapply perm_trans; [apply perm_skip, IH | apply insertSorted_perm].
Qed.

Lemma insertSorted_sorted (x : A) (l : list A) :
  StronglySorted (upTo compare) l -> StronglySorted (upTo compare) (Azure.insertSorted compare x l).
Proof.
  induction l as [|y l IH]; intros Hl; cbn [Azure.insertSorted].
  - repeat constructor.
  - inversion Hl as [|? ? Hl' Hall]; subst.
    destruct (0 <? compare x y)%Z eqn:Hxy.
    + apply Z.ltb_lt, compare_total in Hxy.
      constructor; [now apply IH|].
      apply (Permutation_Forall (insertSorted_perm x l)).
      now constructor.
    + apply Z.ltb_ge in Hxy.
      constructor; [exact Hl|].
      constructor; [exact Hxy|].
      eapply Forall_impl; [|exact Hall].
      intros z Hyz. now apply compare_trans with y.
Qed.

Lemma sort_sorted (l : list A) : StronglySorted (upTo compare) (Azure.sort compare l).
Proof.
  induction l as [|x l IH]; cbn [Azure.sort].
  - constructor.
  - now apply insertSorted_sorted.
Qed.

End Sorting.

(** ** The comparison of the scripted platform is a total preorder *)

Lemma compare_refl (x : string) : String_as_OT.compare x x = Eq.
Proof.
  destruct (String_as_OT.compare_spec x x) as [_|Hlt|Hlt];
    [reflexivity | |]; exfalso; exact (irreflexivity Hlt).
Qed.

Lemma compare_eq (x y : string) : String_as_OT.compare x y = Eq -> x = y.
Proof.
  destruct (String_as_OT.compare_spec x y); intros; congruence.
Qed.

Lemma compare_gt_lt (x y : string) :
  String_as_OT.compare x y = Gt -> String_as_OT.compare y x = Lt.
Proof.
  destruct (String_as_OT.compare_spec x y) as [_|_|Hlt]; intros Hgt;
    [discriminate | discriminate | exact Hlt].
Qed.

Lemma compare_lt_trans (x y z : string) :
  String_as_OT.compare x y = Lt -> String_as_OT.compare y z = Lt ->
  String_as_OT.compare x z = Lt.
Proof. intros Hxy Hyz. exact (transitivity (R := String_as_OT.lt) Hxy Hyz). Qed.


Lemma notAfter_trans (x y z : string) :
  notAfter x y -> notAfter y z -> notAfter x z.
Proof.
  unfold notAfter. intros Hxy Hyz.
  destruct (String_as_OT.compare x y) eqn:Exy; [| |congruence].
  - apply compare_eq in Exy. now subst.
  - destruct (String_as_OT.compare y z) eqn:Eyz; [| |congruence].
    + apply compare_eq in Eyz. subst. now rewrite Exy.
    + now rewrite (compare_lt_trans _ _ _ Exy Eyz).
Qed.

Lemma demoCompare_le (a b : string) :
  (Demo.demoCompare a b <= 0)%Z <->
  String_as_OT.compare (Demo.mapString Demo.toLower a)
                       (Demo.mapString Demo.toLower b) = Lt
  \/ (Demo.mapString Demo.toLower a = Demo.mapString Demo.toLower b
      /\ notAfter (Demo.mapString Demo.swapCase a) (Demo.mapString Demo.swapCase b)).
Proof.
  unfold Demo.demoCompare, notAfter.
  destruct (String_as_OT.compare (Demo.mapString Demo.toLower a) _) eqn:E1.
  - apply compare_eq in E1.
    destruct (String_as_OT.compare (Demo.mapString Demo.swapCase a) _) eqn:E2.
    + split; [intros _; right; split; [exact E1 | discriminate] | lia].
    + split; [intros _; right; split; [exact E1 | discriminate] | lia].
    + split; [lia|]. intros [Hlt|[_ Hgt]]; [discriminate | now elim Hgt].
  - split; [now left | lia].
  - split; [lia|].
    intros [Hlt|[Heq _]]; [discriminate|].
    rewrite Heq, compare_refl in E1. discriminate.
Qed.

Lemma demoCompare_total (a b : string) :
  (0 < Demo.demoCompare a b)%Z -> (Demo.demoCompare b a <= 0)%Z.
Proof.
  intros Hab. apply demoCompare_le. unfold Demo.demoCompare, notAfter in *.
  destruct (String_as_OT.compare (Demo.mapString Demo.toLower a) _) eqn:E1.
  - apply compare_eq in E1. right. split; [congruence|].
    destruct (String_as_OT.compare (Demo.mapString Demo.swapCase a) _) eqn:E2;
      try lia.
    rewrite (compare_gt_lt _ _ E2). congruence.
  - lia.
  - left. now apply compare_gt_lt.
Qed.

Lemma demoCompare_trans (a b c : string) :
  (Demo.demoCompare a b <= 0)%Z -> (Demo.demoCompare b c <= 0)%Z ->
  (Demo.demoCompare a c <= 0)%Z.
Proof.
  rewrite !demoCompare_le.
  intros [Hab|[Hab Hab']] [Hbc|[Hbc Hbc']].
  - left. eapply compare_lt_trans; eassumption.
  - left. now rewrite <- Hbc.
  - left. now rewrite Hab.
  - right. split; [congruence|]. eapply notAfter_trans; eassumption.
Qed.

End SortFacts.

(** C7. Provided [localeCompare] orders strings (any two are comparable, and
    the order is transitive), every list returned by [fetchAzureRepositories]
    is sorted in ascending order of [name] under [localeCompare], and holds
    exactly the repositories of the response; a response listing no repository
    gives the empty list, not a failure. *)
Theorem C7_repositories_sorted {W : Type} {E : Platform.Env W}
    (orgInput token : string) (s : Platform.State W) :
  (forall a b, (0 < Platform.localeCompare a b)%Z ->
               (Platform.localeCompare b a <= 0)%Z) ->
  (forall a b c, (Platform.localeCompare a b <= 0)%Z ->
                 (Platform.localeCompare b c <= 0)%Z ->
                 (Platform.localeCompare a c <= 0)%Z) ->
  let rq := Azure.authorized (Azure.authHeaderOf token)
              (Azure.repositoriesUrl (Azure.baseUrlOf orgInput)) in
  (forall repos s',
      Azure.fetchAzureRepositories orgInput token s = (Platform.Ok repos, s') ->
      StronglySorted
        (fun a b => (Platform.localeCompare (Azure.name a) (Azure.name b) <= 0)%Z)
        repos
      /\ exists r data,
           Platform.fetch rq (Platform.world s)
           = (Platform.Resolved r, Platform.world s')
           /\ Platform.json_repos (Platform.body r) = Platform.Ok data
           /\ Permutation (map Azure.toRepository (Platform.value data)) repos)
  /\ (forall r w',
      Platform.fetch rq (Platform.world s) = (Platform.Resolved r, w') ->
      Platform.ok r = true ->
      Platform.json_repos (Platform.body r)
      = Platform.Ok {| Platform.value := [] |} ->
      Azure.fetchAzureRepositories orgInput token s
      = (Platform.Ok [],
         {| Platform.world := w';
            Platform.sent := (Platform.sent s ++ [rq])%list |})).
Proof.
  intros Htotal Htrans rq.
  unfold Azure.fetchAzureRepositories. rewrite Run.try_rethrow.
  fold rq. unfold Platform.bind, Platform.await_fetch.
  destruct (Platform.fetch rq (Platform.world s)) as [[m|r] w0] eqn:Hf.
  { split; intros ? ? Hno; discriminate Hno. }
  destruct (Platform.ok r) eqn:Hok; cbn [negb].
  2:{ split.
      - intros repos s'.
        destruct (Platform.status r =? 401)%Z;
          [|destruct (Platform.status r =? 404)%Z]; intros Hno; discriminate Hno.
      - intros r' w' [= <- <-] Hok'. congruence. }
  unfold Platform.lift, Platform.ret.
  destruct (Platform.json_repos (Platform.body r)) as [data|m] eqn:Hjson.
  2:{ split; [intros ? ? Hno; discriminate Hno|].
      intros ? ? [= <- <-] _ Hno. congruence. }
  split.
  - intros repos s' [= <- <-]. split.
    + apply (@SortFacts.sort_sorted _
               (fun a b => Platform.localeCompare (Azure.name a) (Azure.name b))).
      * intros x y. apply Htotal.
      * intros x y z. apply Htrans.
    + exists r, data. cbn [Platform.world].
      split; [reflexivity|]. split; [exact Hjson|].
      apply (@SortFacts.sort_perm _
               (fun a b => Platform.localeCompare (Azure.name a) (Azure.name b))).
  - intros r' w' Heq _ Hempty. injection Heq as Hr Hw. subst r' w'.
    rewrite Hjson in Hempty. injection Hempty as Hdata. subst data. reflexivity.
Qed.


Lemma C7_repositories_sorted_witness :
  RepoDemo.namesOf (RepoDemo.listRepos "repos.json") = Some ["alpha"; "Beta"; "zeta"]
  /\ (forall repos s',
        RepoDemo.listRepos "repos.json" = (Platform.Ok repos, s') ->
        StronglySorted
          (fun a b => (Demo.demoCompare (Azure.name a) (Azure.name b) <= 0)%Z)
          repos)
  /\ RepoDemo.namesOf (RepoDemo.listRepos "none.json") = Some [].
Proof.
  split; [vm_compute; reflexivity|].
  split.
  - intros repos s' Hrun.
    exact (proj1 (proj1 (@C7_repositories_sorted Demo.World RepoDemo.listingEnv
      "contoso" "pat" (RepoDemo.listing "repos.json")
      SortFacts.demoCompare_total SortFacts.demoCompare_trans) _ _ Hrun)).
  - pose proof (proj2 (@C7_repositories_sorted Demo.World RepoDemo.listingEnv
      "contoso" "pat" (RepoDemo.listing "none.json")
      SortFacts.demoCompare_total SortFacts.demoCompare_trans)
      {| Platform.ok := true; Platform.status := 200; Platform.body := "none.json" |}
      _ eq_refl eq_refl eq_refl) as Hrun.
    unfold RepoDemo.namesOf, RepoDemo.listRepos. rewrite Hrun. reflexivity.
Defined.

(* ================================================================== *)
(** * The matcher *)
(* ================================================================== *)

Module RegexFacts.
Import Spec.


Lemma lacks_includes (c : ascii) (s : string) :
  lacks c s = negb (JS.includes s (String c EmptyString)).
Proof.
  induction s as [|a s IH]; [reflexivity|].
  cbn [lacks JS.includes JS.startsWith]. rewrite IH, andb_true_r.
  rewrite (Ascii.eqb_sym c a). now rewrite negb_orb.
Qed.

Lemma lacks_app (c : ascii) (a b : string) :
  lacks c (a ++ b) = lacks c a && lacks c b.
Proof.
  induction a as [|x a IH]; cbn; [reflexivity|]. now rewrite IH, andb_assoc.
Qed.

(** ** Literal prefixes *)

Lemma matchAt_lits (p : string) (re : JS.regex) (s : string) :
  JS.matchAt (JS.lits p ++ re)%list (p ++ s) = JS.matchAt re s.
Proof.
  induction p as [|c p IH]; cbn; [reflexivity|].
  now rewrite Ascii.eqb_refl.
Qed.

Lemma matchAt_lits_inv (p : string) (re : JS.regex) (s : string) caps :
  JS.matchAt (JS.lits p ++ re)%list s = Some caps ->
  exists s', s = p ++ s' /\ JS.matchAt re s' = Some caps.
Proof.
  revert s; induction p as [|c p IH]; intros s Hm; cbn in Hm.
  - now exists s.
  - destruct s as [|a s]; [discriminate|].
    destruct (Ascii.eqb_spec a c) as [->|]; [|discriminate].
    destruct (IH _ Hm) as (s' & -> & Hs'). now exists s'.
Qed.

Lemma matchAt_lits_fail (p : string) (re : JS.regex) (s : string) :
  JS.startsWith s p = false -> JS.matchAt (JS.lits p ++ re)%list s = None.
Proof.
  revert s; induction p as [|c p IH]; intros s Hs; cbn in *; [discriminate|].
  destruct s as [|a s]; [reflexivity|].
  rewrite (Ascii.eqb_sym a c).
  destruct (Ascii.eqb c a); cbn in Hs; [now apply IH | reflexivity].
Qed.

(** ** The greedy group *)

(** Whatever the loop returns, the group holds [taken] and a run free of [c],
    and the rest of the pattern matched what follows. *)
Lemma greedy_sound (c : ascii) (k : string -> option (list string)) (s : string) :
  forall taken r,
    JS.greedy c k taken s = Some r ->
    exists run rest caps,
      s = run ++ rest /\ lacks c run = true /\ k rest = Some caps
      /\ r = (taken ++ run) :: caps.
Proof.
  induction s as [|a s IH]; intros taken r Hg; cbn [JS.greedy] in Hg.
  - destruct (k EmptyString) as [caps|] eqn:Hk; [|discriminate].
    injection Hg as <-.
    exists EmptyString, EmptyString, caps.
    rewrite !StringFacts.app_nil_r. now repeat split.
  - assert (Hstop :
      option_map (cons taken) (k (String a s)) = Some r ->
      exists run rest caps,
        String a s = run ++ rest /\ lacks c run = true /\ k rest = Some caps
        /\ r = (taken ++ run) :: caps).
    { destruct (k (String a s)) as [caps|] eqn:Hk; [|discriminate].
      intros [= <-]. exists EmptyString, (String a s), caps.
      rewrite !StringFacts.app_nil_r. now repeat split. }
    destruct (Ascii.eqb a c) eqn:Hac; [now apply Hstop|].
    destruct (JS.greedy c k (taken ++ String a EmptyString) s) as [r'|] eqn:Hrec;
      [|now apply Hstop].
    injection Hg as <-.
    destruct (IH _ _ Hrec) as (run & rest & caps & -> & Hrun & Hk & ->).
    exists (String a run), rest, caps. cbn [lacks append].
    rewrite Hac, Hrun, StringFacts.app_assoc. now repeat split.
Qed.

(** The group takes the whole run up to the next [c] when the rest of the
    pattern matches there. *)
Lemma greedy_max (c : ascii) (k : string -> option (list string))
    (run rest : string) (caps : list string) :
  lacks c run = true -> stopsAt c rest -> k rest = Some caps ->
  forall taken,
    JS.greedy c k taken (run ++ rest) = Some ((taken ++ run) :: caps).
Proof.
  intros Hrun Hrest Hk.
  induction run as [|a run IH]; intros taken; cbn [append].
  - rewrite StringFacts.app_nil_r.
    destruct Hrest as [->|[rest' ->]]; cbn [JS.greedy].
    + now rewrite Hk.
    + now rewrite Ascii.eqb_refl, Hk.
  - cbn [lacks] in Hrun. apply andb_prop in Hrun as [Hac Hrun].
    apply negb_true_iff in Hac.
    cbn [JS.greedy]. rewrite Hac, (IH Hrun).
    now rewrite StringFacts.app_assoc.
Qed.

(** ** The leftmost match *)

Lemma exec_sound (re : JS.regex) (s : string) caps :
  JS.exec re s = Some caps ->
  exists pre s', s = pre ++ s' /\ JS.matchAt re s' = Some caps.
Proof.
  induction s as [|a s IH]; cbn [JS.exec]; intros He.
  - destruct (JS.matchAt re EmptyString) as [r|] eqn:Hm; [|discriminate].
    injection He as ->. now exists EmptyString, EmptyString.
  - destruct (JS.matchAt re (String a s)) as [r|] eqn:Hm.
    + injection He as ->. now exists EmptyString, (String a s).
    + destruct (IH He) as (pre & s' & -> & Hs'). now exists (String a pre), s'.
Qed.

Lemma exec_here (re : JS.regex) (s : string) caps :
  JS.matchAt re s = Some caps -> JS.exec re s = Some caps.
Proof. intros Hm. destruct s; cbn [JS.exec]; now rewrite Hm. Qed.

(** Positions at which the pattern fails are passed over. *)
Lemma exec_skip (re : JS.regex) (pre s : string) :
  (forall p q, pre = p ++ q -> q <> EmptyString ->
               JS.matchAt re (q ++ s) = None) ->
  JS.exec re (pre ++ s) = JS.exec re s.
Proof.
  induction pre as [|a pre IH]; intros Hfail; [reflexivity|].
  cbn [append JS.exec].
  assert (Hhere : JS.matchAt re (String a (pre ++ s)) = None)
    by (apply (Hfail EmptyString (String a pre) eq_refl); discriminate).
  rewrite Hhere.
  apply IH. intros p q -> Hq. apply (Hfail (String a p) q eq_refl Hq).
Qed.

Lemma exec_none (re : JS.regex) (s : string) :
  (forall p q, s = p ++ q -> JS.matchAt re q = None) -> JS.exec re s = None.
Proof.
  induction s as [|a s IH]; intros Hfail; cbn [JS.exec].
  - now rewrite (Hfail EmptyString EmptyString eq_refl).
  - rewrite (Hfail EmptyString (String a s) eq_refl).
    apply IH. intros p q ->. apply (Hfail (String a p) q eq_refl).
Qed.

End RegexFacts.

(* ================================================================== *)
(** * GitHub repository addresses *)
(* ================================================================== *)

Module GitHubFacts.
Import Platform Spec RegexFacts.


Lemma segment_lacks (x : string) :
  segment x -> exists a x', x = String a x' /\ Ascii.eqb a "/" = false
                            /\ lacks "/" x' = true.
Proof.
  intros [Hne Hfree]. destruct x as [|a x']; [congruence|].
  exists a, x'. split; [reflexivity|].
  assert (Hl : lacks "/" (String a x') = true)
    by (rewrite lacks_includes; now rewrite Hfree).
  cbn [lacks] in Hl. apply andb_prop in Hl as [Ha Hx].
  now apply negb_true_iff in Ha.
Qed.

Lemma lacks_segment (a : ascii) (x : string) :
  Ascii.eqb a "/" = false -> lacks "/" x = true -> segment (String a x).
Proof.
  intros Ha Hx. split; [discriminate|].
  apply negb_true_iff. rewrite <- lacks_includes. cbn [lacks]. now rewrite Ha, Hx.
Qed.

Lemma stopsAt_starts (rest : string) :
  rest = EmptyString \/ JS.startsWith rest "/" = true -> stopsAt "/" rest.
Proof.
  intros [->|Hs]; [now left|]. right.
  destruct (StringFacts.startsWith_inv _ _ Hs) as [rest' ->]. now exists rest'.
Qed.

(** Any string splits into a run free of [c] and a rest that stops at [c]. *)
Lemma span (c : ascii) (s : string) :
  exists run rest, s = run ++ rest /\ lacks c run = true /\ stopsAt c rest.
Proof.
  induction s as [|a s (run & rest & -> & Hrun & Hrest)].
  - exists EmptyString, EmptyString. repeat split. now left.
  - destruct (Ascii.eqb_spec a c) as [->|Hac].
    + exists EmptyString, (String c (run ++ rest)). repeat split.
      right. now eexists.
    + exists (String a run), rest. repeat split; [|exact Hrest].
      cbn [lacks]. rewrite Hrun. apply Ascii.eqb_neq in Hac. now rewrite Hac.
Qed.

(** The pattern, at an occurrence followed by two whole segments. *)
Lemma matchAt_github (owner repo rest : string) :
  segment owner -> segment repo -> stopsAt "/" rest ->
  JS.matchAt GitHub.re_github ("github.com/" ++ owner ++ "/" ++ repo ++ rest)
  = Some [owner; repo].
Proof.
  intros Ho Hr Hrest.
  destruct (segment_lacks Ho) as (a & owner' & -> & Ha & Howner).
  destruct (segment_lacks Hr) as (b & repo' & -> & Hb & Hrepo).
  unfold GitHub.re_github. rewrite matchAt_lits.
  cbn [JS.matchAt append]. rewrite Ha.
  apply (@greedy_max "/" _ owner' _ [String b repo'] Howner).
  - right. now eexists.
  - cbn [JS.matchAt append]. rewrite Hb.
    apply (@greedy_max "/" (JS.matchAt []) repo' rest [] Hrepo Hrest).
    reflexivity.
Qed.

(** Whatever the pattern matches is of that form. *)
Lemma matchAt_github_inv (s : string) (caps : list string) :
  JS.matchAt GitHub.re_github s = Some caps ->
  exists owner repo rest,
    s = "github.com/" ++ owner ++ "/" ++ repo ++ rest
    /\ caps = [owner; repo] /\ segment owner /\ segment repo.
Proof.
  unfold GitHub.re_github. intros Hm.
  apply matchAt_lits_inv in Hm as (s1 & -> & Hm).
  cbn [JS.matchAt] in Hm.
  destruct s1 as [|a s1]; [discriminate|].
  destruct (Ascii.eqb a "/") eqn:Ha; [discriminate|].
  apply greedy_sound in Hm as (run & rest1 & caps1 & -> & Hrun & Hk & ->).
  destruct rest1 as [|x rest2]; [discriminate|].
  destruct (Ascii.eqb_spec x "/") as [->|]; [|discriminate].
  destruct rest2 as [|b rest3]; [discriminate|].
  destruct (Ascii.eqb b "/") eqn:Hb; [discriminate|].
  apply greedy_sound in Hk as (run2 & rest4 & caps2 & -> & Hrun2 & Hk & ->).
  injection Hk as <-.
  exists (String a run), (String b run2), rest4.
  split; [|split; [reflexivity|split; now apply lacks_segment]].
  reflexivity.
Qed.

(** A match somewhere gives a match of the whole search. *)
Lemma exec_app_some (re : JS.regex) (pre s : string) caps :
  JS.matchAt re s = Some caps -> exists caps', JS.exec re (pre ++ s) = Some caps'.
Proof.
  intros Hm. induction pre as [|a pre IH]; cbn [append].
  - exists caps. now apply exec_here.
  - cbn [JS.exec]. destruct (JS.matchAt re (String a (pre ++ s))); eauto.
Qed.

(** The pattern matches exactly the strings that hold [github.com/] followed
    by two segments. *)
Lemma exec_github_iff (repoUrl : string) :
  JS.exec GitHub.re_github repoUrl <> None <->
  exists pre owner repo rest,
    repoUrl = pre ++ "github.com/" ++ owner ++ "/" ++ repo ++ rest
    /\ segment owner /\ segment repo.
Proof.
  split.
  - destruct (JS.exec GitHub.re_github repoUrl) as [caps|] eqn:He; [|congruence].
    intros _. apply exec_sound in He as (pre & s' & -> & Hm).
    apply matchAt_github_inv in Hm as (owner & repo & rest & -> & _ & Ho & Hr).
    now exists pre, owner, repo, rest.
  - intros (pre & owner & repo & rest & -> & Ho & Hr).
    destruct (span "/" rest) as (run & rest' & -> & Hrun & Hrest').
    assert (Hr' : segment (repo ++ run)).
    { destruct (segment_lacks Hr) as (b & repo' & -> & Hb & Hrepo).
      cbn [append]. apply lacks_segment; [exact Hb|].
      now rewrite lacks_app, Hrepo, Hrun. }
    pose proof (matchAt_github Ho Hr' Hrest') as Hm.
    rewrite StringFacts.app_assoc in Hm.
    destruct (@exec_app_some _ pre _ _ Hm) as [caps' He].
    rewrite He. discriminate.
Qed.

(** An occurrence of [github.com/] that begins before the end of [q] and
    runs into a following [github.com/] lies within [q]. *)
Lemma no_overlap (q t : string) :
  q <> EmptyString ->
  JS.startsWith (q ++ "github.com/" ++ t) "github.com/" = true ->
  JS.startsWith q "github.com/" = true.
Proof.
  intros Hq Hs.
  destruct q as [|c1 q]; [congruence|].
  do 10 (destruct q as [|? q];
         [cbn in Hs; rewrite ?andb_false_r in Hs; discriminate Hs|]).
  cbn in Hs |- *. exact Hs.
Qed.

Lemma includes_suffix (p q sub : string) :
  JS.includes (p ++ q) sub = false -> JS.includes q sub = false.
Proof.
  induction p as [|a p IH]; cbn [append]; [trivial|].
  cbn [JS.includes]. intros Hi. apply orb_false_elim in Hi as [_ Hi]. now apply IH.
Qed.

Lemma includes_false_starts (s sub : string) :
  JS.includes s sub = false -> JS.startsWith s sub = false.
Proof.
  destruct s; cbn [JS.includes]; intros Hi;
    now apply orb_false_elim in Hi as [Hs _].
Qed.

(** The leftmost occurrence of [github.com/], followed by two whole segments,
    is where the pattern matches. *)
Lemma exec_github (pre owner repo rest : string) :
  JS.includes pre "github.com/" = false ->
  segment owner -> segment repo -> stopsAt "/" rest ->
  JS.exec GitHub.re_github (pre ++ "github.com/" ++ owner ++ "/" ++ repo ++ rest)
  = Some [owner; repo].
Proof.
  intros Hpre Ho Hr Hrest.
  rewrite exec_skip.
  - apply exec_here. now apply matchAt_github.
  - intros p q -> Hq. unfold GitHub.re_github.
    apply matchAt_lits_fail.
    destruct (JS.startsWith (q ++ _) _) eqn:Hs; [|reflexivity].
    apply no_overlap in Hs; [|exact Hq].
    apply includes_suffix, includes_false_starts in Hpre. congruence.
Qed.

Section WithEnv.
Context {W : Type} {E : Env W}.

(** Once the pattern has matched, exactly one request is sent, to the commit
    of the repository the two groups name. *)
Lemma one_request (repoUrl commitHash : string) (token : option string)
    (s : State W) (owner repo : string) :
  JS.exec GitHub.re_github repoUrl = Some [owner; repo] ->
  exists r s' hs,
    GitHub.fetchGitHubCommit repoUrl commitHash token s = (r, s')
    /\ sent s'
       = (sent s ++
          [{| url := "https://api.github.com/repos/" ++ owner ++ "/" ++ repo
                       ++ "/commits/" ++ commitHash;
              headers := hs |}])%list.
Proof.
  intros He. unfold GitHub.fetchGitHubCommit. rewrite He.
  rewrite Run.try_rethrow. cbn [nth].
  unfold bind, await_fetch, lift, perform, throw, ret.
  destruct (fetch _ (world s)) as [[m|r] w1];
    [eexists _, _, _; split; reflexivity|].
  destruct (ok r); cbn [negb].
  - destruct (json_github (body r));
      [|eexists _, _, _; split; reflexivity].
    cbn [world sent]. destruct (randomUUID w1).
    eexists _, _, _; split; reflexivity.
  - destruct (json_error (body r)) as [err|];
      [destruct (messageOf err)|]; eexists _, _, _; split; reflexivity.
Qed.

End WithEnv.
End GitHubFacts.

(** C4, as amended.  A segment is a non-empty piece of the address without
    [/]; only a [/] or the end of the address ends one, so that what is
    written after a repository name without a [/] (a query, a fragment, a
    [.git] suffix) belongs to the segment.
    - When the address holds [github.com/] (taken at its first occurrence)
      followed by a segment, a [/] and a segment that ends the address or is
      followed by a [/], the pattern extracts exactly these two segments, and
      [fetchGitHubCommit] sends its one request to the commit of that owner
      and repository.
    - An address that nowhere holds [github.com/] followed by a segment, a
      [/] and a segment makes [fetchGitHubCommit] throw the invalid-address
      error with the state unchanged: no request has been sent. *)
Theorem C4_github_address {W : Type} {E : Platform.Env W} :
  (forall (pre owner repo rest commitHash : string) (token : option string)
          (s : Platform.State W),
      JS.includes pre "github.com/" = false ->
      owner <> EmptyString -> JS.includes owner "/" = false ->
      repo <> EmptyString -> JS.includes repo "/" = false ->
      rest = EmptyString \/ JS.startsWith rest "/" = true ->
      let repoUrl := pre ++ "github.com/" ++ owner ++ "/" ++ repo ++ rest in
      JS.exec GitHub.re_github repoUrl = Some [owner; repo]
      /\ exists r s' hs,
           GitHub.fetchGitHubCommit repoUrl commitHash token s = (r, s')
           /\ Platform.sent s'
              = (Platform.sent s ++
                 [{| Platform.url :=
                       "https://api.github.com/repos/" ++ owner ++ "/" ++ repo
                         ++ "/commits/" ++ commitHash;
                     Platform.headers := hs |}])%list)
  /\ (forall (repoUrl commitHash : string) (token : option string)
             (s : Platform.State W),
      ~ (exists pre owner repo rest,
            repoUrl = pre ++ "github.com/" ++ owner ++ "/" ++ repo ++ rest
            /\ owner <> EmptyString /\ JS.includes owner "/" = false
            /\ repo <> EmptyString /\ JS.includes repo "/" = false) ->
      GitHub.fetchGitHubCommit repoUrl commitHash token s
      = (Platform.Throw "Invalid GitHub repository URL", s)).
Proof.
  split.
  - intros pre owner repo rest commitHash token s Hpre Ho1 Ho2 Hr1 Hr2 Hrest repoUrl.
    assert (He : JS.exec GitHub.re_github repoUrl = Some [owner; repo]).
    { apply GitHubFacts.exec_github; try (split; assumption); try assumption.
      now apply GitHubFacts.stopsAt_starts. }
    split; [exact He|]. now apply GitHubFacts.one_request.
  - intros repoUrl commitHash token s Hnone.
    unfold GitHub.fetchGitHubCommit.
    destruct (JS.exec GitHub.re_github repoUrl) as [caps|] eqn:He; [|reflexivity].
    exfalso. apply Hnone.
    assert (Hsome : JS.exec GitHub.re_github repoUrl <> None) by congruence.
    apply GitHubFacts.exec_github_iff in Hsome
      as (pre & owner & repo & rest & -> & [Ho1 Ho2] & [Hr1 Hr2]).
    now exists pre, owner, repo, rest.
Qed.


Lemma C4_github_address_witness :
  JS.exec GitHub.re_github "https://github.com/octocat/hello/tree/main"
  = Some ["octocat"; "hello"]
  /\ GitHubDemo.fetchAt "https://gitlab.com/octocat/hello"
     = (Platform.Throw "Invalid GitHub repository URL", GitHubDemo.online).
Proof.
  split.
  - exact (proj1 (proj1 (@C4_github_address Demo.World GitHubDemo.githubEnv)
      "https://" "octocat" "hello" "/tree/main" "89abcdef" None GitHubDemo.online
      eq_refl ltac:(discriminate) eq_refl ltac:(discriminate) eq_refl
      (or_intror eq_refl))).
  - apply (proj2 (@C4_github_address Demo.World GitHubDemo.githubEnv)).
    intros (pre & owner & repo & rest & Heq & Ho1 & Ho2 & Hr1 & Hr2).
    assert (Hsome : JS.exec GitHub.re_github "https://gitlab.com/octocat/hello"
                    <> None).
    { apply GitHubFacts.exec_github_iff.
      exists pre, owner, repo, rest. repeat split; assumption. }
    apply Hsome. reflexivity.
Defined.

(** C4, counterexample to the claim as first worded.  The path of
    [https://github.com/octocat/hello?tab=readme] has the two segments
    [octocat] and [hello], and the query is no part of it.  The pattern ends
    a group at a [/] only: the second group is [hello?tab=readme], not
    [hello], and the request goes to a repository of that name. *)
Lemma C4_counterexample :
  JS.exec GitHub.re_github "https://github.com/octocat/hello?tab=readme"
  = Some ["octocat"; "hello?tab=readme"]
  /\ JS.exec GitHub.re_github "https://github.com/octocat/hello?tab=readme"
     <> Some ["octocat"; "hello"]
  /\ map Platform.url
       (Platform.sent
          (snd (GitHubDemo.fetchAt "https://github.com/octocat/hello?tab=readme")))
     = ["https://api.github.com/repos/octocat/hello?tab=readme/commits/89abcdef"].
Proof.
  split; [vm_compute; reflexivity|].
  split; [vm_compute; discriminate | vm_compute; reflexivity].
Qed.

(* ================================================================== *)
(** * Azure DevOps repository addresses *)
(* ================================================================== *)

Module AzureUrlFacts.
Import Platform Spec RegexFacts.


Lemma split_segment (sep : ascii) (seg s : string) :
  lacks sep seg = true ->
  JS.split sep (seg ++ String sep s) = seg :: JS.split sep s.
Proof.
  induction seg as [|a seg IH]; intros Hseg; cbn [append JS.split].
  - now rewrite Ascii.eqb_refl.
  - cbn [lacks] in Hseg. apply andb_prop in Hseg as [Ha Hseg].
    apply negb_true_iff in Ha. now rewrite Ha, (IH Hseg).
Qed.

Lemma split_last (sep : ascii) (seg : string) :
  lacks sep seg = true -> JS.split sep seg = [seg].
Proof.
  induction seg as [|a seg IH]; intros Hseg; cbn [JS.split]; [reflexivity|].
  cbn [lacks] in Hseg. apply andb_prop in Hseg as [Ha Hseg].
  apply negb_true_iff in Ha. now rewrite Ha, (IH Hseg).
Qed.

Lemma pathParts_slash (s : string) : pathParts (String "/" s) = pathParts s.
Proof. reflexivity. Qed.

(** A whole segment at the front of a path is its first part. *)
Lemma pathParts_segment (x tail : string) :
  Spec.segment x -> stopsAt "/" tail ->
  pathParts (x ++ tail) = x :: pathParts tail.
Proof.
  intros Hx Htail. unfold pathParts.
  assert (Hl : lacks "/" x = true)
    by (rewrite lacks_includes; now rewrite (proj2 Hx)).
  assert (Ht : JS.truthy x = true) by (apply StringFacts.truthy_true, Hx).
  destruct Htail as [->|[tail' ->]].
  - rewrite StringFacts.app_nil_r, (split_last _ _ Hl). cbn. now rewrite Ht.
  - rewrite (split_segment _ _ _ Hl). cbn [filter JS.split].
    rewrite Ht, Ascii.eqb_refl. reflexivity.
Qed.

Lemma indexOf_absent (l : list string) (x : string) :
  ~ In x l -> JS.indexOf l x = (-1)%Z.
Proof.
  induction l as [|y l IH]; intros Hx; cbn [JS.indexOf]; [reflexivity|].
  destruct (String.eqb_spec y x) as [->|_].
  - exfalso. apply Hx. now left.
  - rewrite IH; [reflexivity|]. intros Hin. apply Hx. now right.
Qed.

(** Without a [_git] part no repository is read. *)
Lemma repoAfterGit_absent (parts : list string) :
  ~ In "_git" parts -> Azure.repoAfterGit parts = Some EmptyString.
Proof.
  intros Hno. unfold Azure.repoAfterGit. now rewrite (indexOf_absent _ _ Hno).
Qed.

Lemma endsWith_app (p suffix : string) : JS.endsWith (p ++ suffix) suffix = true.
Proof.
  induction p as [|a p IH]; cbn [append].
  - destruct suffix; cbn [JS.endsWith]; now rewrite String.eqb_refl.
  - cbn [JS.endsWith]. rewrite IH. now destruct (String.eqb _ _).
Qed.

Section WithEnv.
Context {W : Type} {E : Env W}.

(** [parseAzureUrl] returns [null] whenever no repository is read. *)
Lemma parse_without_repo (url : string) (u : URL) :
  newURL url = Some u ->
  JS.truthy_opt (Azure.repoAfterGit (pathParts (pathname u))) = false ->
  Azure.parseAzureUrl url = None.
Proof.
  intros Hu Hrepo. unfold Azure.parseAzureUrl. rewrite Hu.
  fold (pathParts (pathname u)).
  destruct (JS.endsWith (hostname u) "visualstudio.com");
    [|destruct (String.eqb (hostname u) "dev.azure.com")];
    cbv iota beta; rewrite ?Hrepo; cbn [negb]; rewrite ?orb_true_r;
    reflexivity.
Qed.

Lemma invalid_throws (url commitHash token : string) (s : State W) :
  Azure.parseAzureUrl url = None ->
  Azure.fetchAzureCommit url commitHash token s = (Throw Azure.invalidAzureUrl, s).
Proof. intros Hp. unfold Azure.fetchAzureCommit. now rewrite Hp. Qed.

End WithEnv.
End AzureUrlFacts.

Module AzureParse.
Import Platform Spec RegexFacts AzureUrlFacts.

Lemma repoAfterGit_at (before : list string) (repo : string) (more : list string) :
  ~ In "_git" before ->
  Azure.repoAfterGit (before ++ "_git" :: repo :: more)%list = Some repo.
Proof.
  intros Hno. unfold Azure.repoAfterGit.
  assert (Hi : JS.indexOf (before ++ "_git" :: repo :: more)%list "_git"
               = Z.of_nat (List.length before)).
  { induction before as [|y before IH]; [reflexivity|].
    cbn [app JS.indexOf].
    destruct (String.eqb_spec y "_git") as [->|_].
    - exfalso. apply Hno. now left.
    - rewrite IH by (intros Hin; apply Hno; now right).
      destruct (Z.eqb_spec (Z.of_nat (List.length before)) (-1)); [lia|].
      cbn [List.length]. lia. }
  rewrite Hi.
  replace (Z.of_nat (List.length before) =? -1)%Z with false
    by (symmetry; apply Z.eqb_neq; lia).
  replace (Z.of_nat (List.length before) + 1
           <? Z.of_nat (List.length (before ++ "_git" :: repo :: more)))%Z
    with true
    by (symmetry; apply Z.ltb_lt; rewrite length_app; cbn [List.length]; lia).
  cbn [negb andb]. unfold JS.at_index.
  replace (Z.of_nat (List.length before) + 1 <? 0)%Z with false
    by (symmetry; apply Z.ltb_ge; lia).
  replace (Z.to_nat (Z.of_nat (List.length before) + 1))
    with (List.length before + 1) by lia.
  rewrite nth_error_app2 by lia.
  replace (List.length before + 1 - List.length before) with 1 by lia.
  reflexivity.
Qed.

(** A [_git] part that ends the path leaves the repository empty. *)
Lemma repoAfterGit_last (before : list string) :
  ~ In "_git" before ->
  Azure.repoAfterGit (before ++ ["_git"])%list = Some EmptyString.
Proof.
  intros Hno. unfold Azure.repoAfterGit.
  assert (Hi : JS.indexOf (before ++ ["_git"])%list "_git"
               = Z.of_nat (List.length before)).
  { induction before as [|y before IH]; [reflexivity|].
    cbn [app JS.indexOf].
    destruct (String.eqb_spec y "_git") as [->|_].
    - exfalso. apply Hno. now left.
    - rewrite IH by (intros Hin; apply Hno; now right).
      destruct (Z.eqb_spec (Z.of_nat (List.length before)) (-1)); [lia|].
      cbn [List.length]. lia. }
  rewrite Hi.
  replace (Z.of_nat (List.length before) + 1
           <? Z.of_nat (List.length (before ++ ["_git"])))%Z
    with false
    by (symmetry; apply Z.ltb_ge; rewrite length_app; cbn [List.length]; lia).
  now rewrite andb_false_r.
Qed.

Lemma segment_truthy (x : string) : Spec.segment x -> JS.truthy x = true.
Proof. intros [Hx _]. now apply StringFacts.truthy_true. Qed.

Section WithEnv.
Context {W : Type} {E : Env W}.

Lemma parse_dev_azure (url org project repo tail : string) :
  newURL url
  = Some {| hostname := "dev.azure.com";
            pathname := "/" ++ org ++ "/" ++ project ++ "/_git/" ++ repo ++ tail |} ->
  Spec.segment org -> Spec.segment project ->
  Spec.segment repo -> stopsAt "/" tail ->
  org <> "_git" -> project <> "_git" ->
  Azure.parseAzureUrl url
  = Some {| Azure.ref_org := org; Azure.ref_project := project;
            Azure.ref_repo := repo |}.
Proof.
  intros Hu Ho Hp Hr Htail Hog Hpg.
  assert (Hparts :
    pathParts ("/" ++ org ++ "/" ++ project ++ "/_git/" ++ repo ++ tail)
    = ([org; project] ++ "_git" :: repo :: pathParts tail)%list).
  { cbn [append]. rewrite pathParts_slash.
    rewrite (pathParts_segment Ho) by (right; now eexists).
    rewrite pathParts_slash.
    rewrite (pathParts_segment Hp) by (right; now eexists).
    rewrite pathParts_slash.
    change (String "_" (String "g" (String "i" (String "t"
              (String "/" (repo ++ tail))))))
      with ("_git" ++ String "/" (repo ++ tail)).
    rewrite (@pathParts_segment "_git") by
      ((split; [discriminate|reflexivity]) || (right; now eexists)).
    rewrite pathParts_slash.
    now rewrite (pathParts_segment Hr Htail). }
  unfold Azure.parseAzureUrl. rewrite Hu. cbn [hostname pathname].
  fold (pathParts ("/" ++ org ++ "/" ++ project ++ "/_git/" ++ repo ++ tail)).
  rewrite Hparts.
  rewrite repoAfterGit_at by (cbn; intuition congruence).
  change (JS.endsWith "dev.azure.com" "visualstudio.com") with false.
  change (String.eqb "dev.azure.com" "dev.azure.com") with true.
  cbv iota beta. unfold JS.at_index.
  change (Z.to_nat 0) with 0. change (Z.to_nat 1) with 1.
  cbn [app Z.ltb Z.compare nth_error JS.truthy_opt].
  now rewrite (segment_truthy Ho), (segment_truthy Hp), (segment_truthy Hr).
Qed.

Lemma parse_visualstudio (url org project repo tail : string) :
  newURL url
  = Some {| hostname := org ++ ".visualstudio.com";
            pathname := "/" ++ project ++ "/_git/" ++ repo ++ tail |} ->
  org <> EmptyString -> JS.includes org "." = false ->
  Spec.segment project -> Spec.segment repo -> stopsAt "/" tail ->
  project <> "_git" ->
  Azure.parseAzureUrl url
  = Some {| Azure.ref_org := org; Azure.ref_project := project;
            Azure.ref_repo := repo |}.
Proof.
  intros Hu Hone Hodot Hp Hr Htail Hpg.
  assert (Hparts :
    pathParts ("/" ++ project ++ "/_git/" ++ repo ++ tail)
    = ([project] ++ "_git" :: repo :: pathParts tail)%list).
  { cbn [append]. rewrite pathParts_slash.
    rewrite (pathParts_segment Hp) by (right; now eexists).
    rewrite pathParts_slash.
    change (String "_" (String "g" (String "i" (String "t"
              (String "/" (repo ++ tail))))))
      with ("_git" ++ String "/" (repo ++ tail)).
    rewrite (@pathParts_segment "_git") by
      ((split; [discriminate|reflexivity]) || (right; now eexists)).
    rewrite pathParts_slash.
    now rewrite (pathParts_segment Hr Htail). }
  assert (Hends : JS.endsWith (org ++ ".visualstudio.com") "visualstudio.com" = true).
  { change ".visualstudio.com" with ("." ++ "visualstudio.com").
    rewrite <- StringFacts.app_assoc. apply endsWith_app. }
  assert (Hhead : hd_error (JS.split "." (org ++ ".visualstudio.com")) = Some org).
  { change ".visualstudio.com" with (String "." "visualstudio.com").
    rewrite split_segment; [reflexivity|].
    rewrite lacks_includes. now rewrite Hodot. }
  unfold Azure.parseAzureUrl. rewrite Hu. cbn [hostname pathname].
  fold (pathParts ("/" ++ project ++ "/_git/" ++ repo ++ tail)).
  rewrite Hparts, Hends, Hhead.
  rewrite repoAfterGit_at by (cbn; intuition congruence).
  cbv iota beta. unfold JS.at_index.
  change (Z.to_nat 0) with 0.
  cbn [app Z.ltb Z.compare nth_error JS.truthy_opt].
  apply StringFacts.truthy_true in Hone.
  now rewrite Hone, (segment_truthy Hp), (segment_truthy Hr).
Qed.

End WithEnv.
End AzureParse.

(** C5.  A segment is a non-empty piece without [/]; an address is read
    through [new URL], which gives its host name and its path.
    - Host [dev.azure.com] and path [/{org}/{project}/_git/{repo}], possibly
      followed by [/...], where neither [org] nor [project] is the word
      [_git]: [parseAzureUrl] returns exactly [{org, project, repo}].
    - Host [{org}.visualstudio.com] ([org] not empty and without a dot) and
      path [/{project}/_git/{repo}], possibly followed by [/...], where
      [project] is not the word [_git]: the same.
    - When the path has no [_git] part, or its parts are a proper prefix of
      [org, project, _git, repo] (of [project, _git, repo] on a
      [visualstudio.com] host), [parseAzureUrl] returns [null] and
      [fetchAzureCommit] throws the invalid-address error with the state
      unchanged: no request has been sent. *)
Theorem C5_azure_address {W : Type} {E : Platform.Env W} :
  (forall url org project repo tail : string,
      Platform.newURL url
      = Some {| Platform.hostname := "dev.azure.com";
                Platform.pathname :=
                  "/" ++ org ++ "/" ++ project ++ "/_git/" ++ repo ++ tail |} ->
      org <> EmptyString /\ JS.includes org "/" = false ->
      project <> EmptyString /\ JS.includes project "/" = false ->
      repo <> EmptyString /\ JS.includes repo "/" = false ->
      tail = EmptyString \/ JS.startsWith tail "/" = true ->
      org <> "_git" -> project <> "_git" ->
      Azure.parseAzureUrl url
      = Some {| Azure.ref_org := org; Azure.ref_project := project;
                Azure.ref_repo := repo |})
  /\ (forall url org project repo tail : string,
      Platform.newURL url
      = Some {| Platform.hostname := org ++ ".visualstudio.com";
                Platform.pathname :=
                  "/" ++ project ++ "/_git/" ++ repo ++ tail |} ->
      org <> EmptyString /\ JS.includes org "." = false ->
      project <> EmptyString /\ JS.includes project "/" = false ->
      repo <> EmptyString /\ JS.includes repo "/" = false ->
      tail = EmptyString \/ JS.startsWith tail "/" = true ->
      project <> "_git" ->
      Azure.parseAzureUrl url
      = Some {| Azure.ref_org := org; Azure.ref_project := project;
                Azure.ref_repo := repo |})
  /\ (forall (url commitHash token : string) (s : Platform.State W)
             (u : Platform.URL),
      Platform.newURL url = Some u ->
      let parts := filter JS.truthy (JS.split "/" (Platform.pathname u)) in
      ~ In "_git" parts
      \/ (exists org project repo k,
             org <> "_git" /\ project <> "_git" /\ k < 4
             /\ parts = firstn k [org; project; "_git"; repo])
      \/ (exists project repo k,
             project <> "_git" /\ k < 3
             /\ parts = firstn k [project; "_git"; repo]) ->
      Azure.parseAzureUrl url = None
      /\ Azure.fetchAzureCommit url commitHash token s
         = (Platform.Throw
              "Invalid Azure DevOps repository URL. Format should be https://dev.azure.com/{org}/{project}/_git/{repo}",
            s)).
Proof.
  split; [|split].
  - intros url org project repo tail Hu Ho Hp Hr Htail Hog Hpg.
    apply (AzureParse.parse_dev_azure _ Hu); try assumption.
    now apply GitHubFacts.stopsAt_starts.
  - intros url org project repo tail Hu [Ho1 Ho2] Hp Hr Htail Hpg.
    apply (AzureParse.parse_visualstudio _ Hu); try assumption.
    now apply GitHubFacts.stopsAt_starts.
  - intros url commitHash token s u Hu parts Hcases.
    assert (Hrepo : JS.truthy_opt (Azure.repoAfterGit parts) = false).
    { destruct Hcases as [Hno | [Hdev | Hvs]].
      - now rewrite AzureUrlFacts.repoAfterGit_absent.
      - destruct Hdev as (org & project & repo & k & Hog & Hpg & Hk & ->).
        destruct k as [|[|[|[|k]]]]; try lia; cbn [firstn].
        + reflexivity.
        + rewrite AzureUrlFacts.repoAfterGit_absent; [reflexivity|].
          cbn. intuition congruence.
        + rewrite AzureUrlFacts.repoAfterGit_absent; [reflexivity|].
          cbn. intuition congruence.
        + change [org; project; "_git"] with ([org; project] ++ ["_git"])%list.
          rewrite AzureParse.repoAfterGit_last; [reflexivity|].
          cbn. intuition congruence.
      - destruct Hvs as (project & repo & k & Hpg & Hk & ->).
        destruct k as [|[|[|k]]]; try lia; cbn [firstn].
        + reflexivity.
        + rewrite AzureUrlFacts.repoAfterGit_absent; [reflexivity|].
          cbn. intuition congruence.
        + change [project; "_git"] with ([project] ++ ["_git"])%list.
          rewrite AzureParse.repoAfterGit_last; [reflexivity|].
          cbn. intuition congruence. }
    assert (Hnull : Azure.parseAzureUrl url = None)
      by exact (AzureUrlFacts.parse_without_repo _ Hu Hrepo).
    split; [exact Hnull|].
    now apply AzureUrlFacts.invalid_throws.
Qed.


Lemma C5_azure_address_witness :
  AzureUrlDemo.parse "https://dev.azure.com/contoso/Web/_git/site"
  = Some AzureDemo.parsed
  /\ AzureUrlDemo.parse "https://contoso.visualstudio.com/Web/_git/site/commits"
     = Some AzureDemo.parsed
  /\ AzureUrlDemo.fetchFrom "https://dev.azure.com/contoso/Web/site"
     = (Platform.Throw Azure.invalidAzureUrl, AzureDemo.changesDown)
  /\ AzureUrlDemo.fetchFrom "https://dev.azure.com/contoso/Web/_git"
     = (Platform.Throw Azure.invalidAzureUrl, AzureDemo.changesDown).
Proof.
  pose proof (@C5_azure_address Demo.World AzureDemo.env) as (Hdev & Hvs & Hbad).
  split; [|split; [|split]].
  - apply (Hdev "https://dev.azure.com/contoso/Web/_git/site"
             "contoso" "Web" "site" EmptyString eq_refl);
      try (split; [discriminate|reflexivity]); try discriminate.
    now left.
  - apply (Hvs "https://contoso.visualstudio.com/Web/_git/site/commits"
             "contoso" "Web" "site" "/commits" eq_refl);
      try (split; [discriminate|reflexivity]); try discriminate.
    now right.
  - apply (Hbad "https://dev.azure.com/contoso/Web/site" "0123456789abcdef" "pat"
             AzureDemo.changesDown
             {| Platform.hostname := "dev.azure.com";
                Platform.pathname := "/contoso/Web/site" |} eq_refl).
    left. cbn. intuition discriminate.
  - apply (Hbad "https://dev.azure.com/contoso/Web/_git" "0123456789abcdef" "pat"
             AzureDemo.changesDown
             {| Platform.hostname := "dev.azure.com";
                Platform.pathname := "/contoso/Web/_git" |} eq_refl).
    right. left. exists "contoso", "Web", "site", 3.
    repeat split; try discriminate; lia.
Defined.

(* ================================================================== *)
(** * More on the Azure commit fetch *)
(* ================================================================== *)

Module AzureMore.
Import Platform Spec.

Lemma prefix_length_le (n : nat) (s : string) :
  String.length (String.substring 0 n s) <= n.
Proof.
  revert n; induction s as [|c s IH]; intros [|n]; cbn; try lia.
  specialize (IH n). lia.
Qed.

Section WithEnv.
Context {W : Type} {E : Env W}.

(** The loop never throws; it sends the content requests of its changes, in
    order, and nothing else. *)
Lemma processChanges_requests (authHeader : string) (changes : list AzureChange) :
  forall (diffContent : string) (s : State W),
  exists d' s',
    Azure.processChanges authHeader changes diffContent s = (Ok d', s')
    /\ sent s' = (sent s ++ contentRequests authHeader changes)%list.
Proof.
  induction changes as [|change rest IH]; intros d s; cbn [Azure.processChanges].
  - exists d, s. unfold ret, contentRequests. cbn. now rewrite List.app_nil_r.
  - destruct (AzureFacts.processChange_extends authHeader change d s)
      as (e1 & s1 & H1).
    rewrite (Run.bind_ok _ _ _ H1).
    destruct (IH (d ++ e1) s1) as (d' & s' & -> & Hsent).
    exists d', s'. split; [reflexivity|]. rewrite Hsent.
    rewrite AzureFacts.processChange_run in H1.
    unfold contentRequests. cbn [filter].
    destruct (eligible change).
    + cbv zeta in H1. destruct (fetch _ (world s)) as [o w'].
      injection H1 as _ <-. cbn [sent map]. now rewrite <- List.app_assoc.
    + injection H1 as _ <-. reflexivity.
Qed.

(** A list without a change whose content is fetched is only listed. *)
Lemma processChanges_listed (authHeader : string) (changes : list AzureChange) :
  forallb (fun change => negb (eligible change)) changes = true ->
  forall (diffContent : string) (s : State W),
    Azure.processChanges authHeader changes diffContent s
    = (Ok (diffContent ++ JS.join EmptyString (map listed changes)), s).
Proof.
  induction changes as [|change rest IH]; intros Hall d s;
    cbn [Azure.processChanges].
  - unfold ret. cbn. now rewrite StringFacts.app_nil_r.
  - cbn [forallb] in Hall. apply andb_prop in Hall as [Hc Hrest].
    apply negb_true_iff in Hc.
    pose proof (AzureFacts.processChange_run authHeader change d s) as Hrun.
    rewrite Hc in Hrun. rewrite (Run.bind_ok _ _ _ Hrun).
    rewrite (IH Hrest). f_equal. f_equal.
    rewrite StringFacts.app_assoc. f_equal.
    cbn [map]. unfold listed at 2.
    destruct rest as [|next rest'].
    + cbn. now rewrite !StringFacts.app_nil_r.
    + cbn [map JS.join]. cbn [append]. now rewrite !StringFacts.app_assoc.
Qed.

End WithEnv.
End AzureMore.

(** A commit request that fails aborts [fetchAzureCommit] after that one
    request: a rejected request throws its error; status 401 throws the
    message about the token, whatever the body; any other failure status
    throws the [message] of the error body when the body parses and holds a
    non-empty one, and the generic message when the body does not parse or
    holds no message or an empty one.  One body escapes the fallback: the
    JSON value [null] parses, reading its [message] throws, and the caller
    gets that [TypeError] instead of either message. *)
Theorem azure_commit_request_failure {W : Type} {E : Platform.Env W}
    (repoUrl commitHash token : string) (s : Platform.State W)
    (parsed : Azure.AzureRepoRef) :
  let rq1 := Azure.authorized (Azure.authHeaderOf token)
               (Azure.commitUrl (Azure.apiBaseUrl parsed) commitHash) in
  let after w1 :=
    {| Platform.world := w1; Platform.sent := (Platform.sent s ++ [rq1])%list |} in
  Azure.parseAzureUrl repoUrl = Some parsed ->
  (forall m w1,
      Platform.fetch rq1 (Platform.world s) = (Platform.Rejected m, w1) ->
      Azure.fetchAzureCommit repoUrl commitHash token s
      = (Platform.Throw m, after w1))
  /\ (forall r1 w1,
      Platform.fetch rq1 (Platform.world s) = (Platform.Resolved r1, w1) ->
      Platform.ok r1 = false ->
      (Platform.status r1 = 401%Z ->
       Azure.fetchAzureCommit repoUrl commitHash token s
       = (Platform.Throw
            "Unauthorized. Please check your Personal Access Token (PAT).",
          after w1))
      /\ (forall m,
          Platform.status r1 <> 401%Z ->
          Platform.json_error (Platform.body r1)
          = Platform.Ok
              (Platform.JsonValue {| Platform.err_message := Some m |}) ->
          m <> EmptyString ->
          Azure.fetchAzureCommit repoUrl commitHash token s
          = (Platform.Throw m, after w1))
      /\ (Platform.status r1 <> 401%Z ->
          (exists m, Platform.json_error (Platform.body r1) = Platform.Throw m)
          \/ Platform.json_error (Platform.body r1)
             = Platform.Ok (Platform.JsonValue {| Platform.err_message := None |})
          \/ Platform.json_error (Platform.body r1)
             = Platform.Ok
                 (Platform.JsonValue
                    {| Platform.err_message := Some EmptyString |}) ->
          Azure.fetchAzureCommit repoUrl commitHash token s
          = (Platform.Throw "Failed to fetch commit from Azure DevOps",
             after w1))
      /\ (Platform.status r1 <> 401%Z ->
          Platform.json_error (Platform.body r1) = Platform.Ok Platform.JsonNull ->
          Azure.fetchAzureCommit repoUrl commitHash token s
          = (Platform.Throw (Platform.readOfNull "message"), after w1))).
Proof.
  intros rq1 after Hparse.
  unfold Azure.fetchAzureCommit. rewrite Hparse, Run.try_rethrow. fold rq1.
  split.
  - intros m w1 Hf. now rewrite (Run.bind_throw _ _ _ (Run.fetch_rejected _ _ Hf)).
  - intros r1 w1 Hf Hok.
    rewrite (Run.bind_ok _ _ _ (Run.fetch_resolved _ _ Hf)), Hok. cbn [negb].
    split; [|split; [|split]].
    + intros ->. reflexivity.
    + intros m Hst Hbody Hm. apply Z.eqb_neq in Hst. rewrite Hst, Hbody.
      unfold Platform.bind, Platform.lift, Platform.throw.
      cbn [Platform.messageOf Platform.err_message JS.or_else].
      apply StringFacts.truthy_true in Hm. now rewrite Hm.
    + intros Hst Hbody. apply Z.eqb_neq in Hst. rewrite Hst.
      destruct Hbody as [[m ->] | [-> | ->]]; reflexivity.
    + intros Hst Hbody. apply Z.eqb_neq in Hst. rewrite Hst, Hbody.
      reflexivity.
Qed.

(** Once the commit request has succeeded, three faults still abort
    [fetchAzureCommit]: a commit body that does not parse (one request sent),
    a changes request that is rejected, and a changes body that does not
    parse (two requests sent).  Only a failure status of the changes request
    is tolerated. *)
Theorem azure_fatal_after_commit {W : Type} {E : Platform.Env W}
    (repoUrl commitHash token : string) (s : Platform.State W)
    (parsed : Azure.AzureRepoRef) (r1 : Platform.Response) (w1 : W) :
  let rq1 := Azure.authorized (Azure.authHeaderOf token)
               (Azure.commitUrl (Azure.apiBaseUrl parsed) commitHash) in
  let rq2 := Azure.authorized (Azure.authHeaderOf token)
               (Azure.changesUrl (Azure.apiBaseUrl parsed) commitHash) in
  Azure.parseAzureUrl repoUrl = Some parsed ->
  Platform.fetch rq1 (Platform.world s) = (Platform.Resolved r1, w1) ->
  Platform.ok r1 = true ->
  (forall m,
      Platform.json_commit (Platform.body r1) = Platform.Throw m ->
      Azure.fetchAzureCommit repoUrl commitHash token s
      = (Platform.Throw m,
         {| Platform.world := w1;
            Platform.sent := (Platform.sent s ++ [rq1])%list |}))
  /\ (forall commitData m w2,
      Platform.json_commit (Platform.body r1) = Platform.Ok commitData ->
      Platform.fetch rq2 w1 = (Platform.Rejected m, w2) ->
      Azure.fetchAzureCommit repoUrl commitHash token s
      = (Platform.Throw m,
         {| Platform.world := w2;
            Platform.sent := (Platform.sent s ++ [rq1; rq2])%list |}))
  /\ (forall commitData r2 m w2,
      Platform.json_commit (Platform.body r1) = Platform.Ok commitData ->
      Platform.fetch rq2 w1 = (Platform.Resolved r2, w2) ->
      Platform.ok r2 = true ->
      Platform.json_changes (Platform.body r2) = Platform.Throw m ->
      Azure.fetchAzureCommit repoUrl commitHash token s
      = (Platform.Throw m,
         {| Platform.world := w2;
            Platform.sent := (Platform.sent s ++ [rq1; rq2])%list |})).
Proof.
  intros rq1 rq2 Hparse Hf1 Hok1. split; [|split].
  - intros m Hjson.
    unfold Azure.fetchAzureCommit. rewrite Hparse, Run.try_rethrow. fold rq1.
    rewrite (Run.bind_ok _ _ _ (Run.fetch_resolved _ _ Hf1)), Hok1. cbn [negb].
    rewrite Hjson. reflexivity.
  - intros commitData m w2 Hjson Hf2.
    unfold Azure.fetchAzureCommit. rewrite Hparse, Run.try_rethrow.
    fold rq1 rq2.
    rewrite (Run.bind_ok _ _ _ (Run.fetch_resolved _ _ Hf1)), Hok1. cbn [negb].
    rewrite Hjson. unfold Platform.lift at 1. unfold Platform.bind at 1.
    assert (Hf2' : Platform.fetch rq2
                     (Platform.world
                        {| Platform.world := w1;
                           Platform.sent := (Platform.sent s ++ [rq1])%list |})
                   = (Platform.Rejected m, w2)) by exact Hf2.
    rewrite (Run.bind_throw _ _ _ (Run.fetch_rejected _ _ Hf2')).
    cbn [Platform.sent]. now rewrite <- List.app_assoc.
  - intros commitData r2 m w2 Hjson Hf2 Hok2 Hchanges.
    rewrite (AzureRuns.after_changes_response _ _ _ _ Hparse Hf1 Hok1 Hjson Hf2).
    rewrite Hok2, Hchanges. reflexivity.
Qed.

(** Once the commit and the list of changes have been read, nothing can make
    [fetchAzureCommit] fail: it returns a commit built from the metadata,
    having sent, after the two first requests, one content request for each
    change of type [edit] or [add] that is not a folder, in the order of the
    list, each with the same authorization header, and no other request. *)
Theorem azure_requests_sent {W : Type} {E : Platform.Env W}
    (repoUrl commitHash token : string) (s : Platform.State W)
    (parsed : Azure.AzureRepoRef) (r1 r2 : Platform.Response) (w1 w2 : W)
    (commitData : Platform.AzureCommitData)
    (changesData : Platform.AzureChangesData) :
  let authHeader := Azure.authHeaderOf token in
  let rq1 := Azure.authorized authHeader
               (Azure.commitUrl (Azure.apiBaseUrl parsed) commitHash) in
  let rq2 := Azure.authorized authHeader
               (Azure.changesUrl (Azure.apiBaseUrl parsed) commitHash) in
  Azure.parseAzureUrl repoUrl = Some parsed ->
  Platform.fetch rq1 (Platform.world s) = (Platform.Resolved r1, w1) ->
  Platform.ok r1 = true ->
  Platform.json_commit (Platform.body r1) = Platform.Ok commitData ->
  Platform.fetch rq2 w1 = (Platform.Resolved r2, w2) ->
  Platform.ok r2 = true ->
  Platform.json_changes (Platform.body r2) = Platform.Ok changesData ->
  exists id diffContent s',
    Azure.fetchAzureCommit repoUrl commitHash token s
    = (Platform.Ok (Azure.azureCommit id commitData diffContent), s')
    /\ Platform.sent s'
       = (Platform.sent s ++ [rq1; rq2]
            ++ map (fun change =>
                      Azure.authorized authHeader
                        (Platform.item_url (Platform.item change)))
                   (filter (fun change =>
                              Azure.isEditOrAdd (Platform.changeType change)
                              && negb (Platform.isFolder (Platform.item change)))
                           (Spec.changesOf changesData)))%list.
Proof.
  intros authHeader rq1 rq2 Hparse Hf1 Hok1 Hjson Hf2 Hok2 Hchanges.
  rewrite (AzureRuns.after_changes_response _ _ _ _ Hparse Hf1 Hok1 Hjson Hf2).
  rewrite Hok2, Hchanges. fold authHeader rq1 rq2.
  destruct (AzureMore.processChanges_requests authHeader
              (Spec.changesOf changesData) Azure.changesSummary
              {| Platform.world := w2;
                 Platform.sent := (Platform.sent s ++ [rq1; rq2])%list |})
    as (d' & s1 & Hloop & Hsent).
  unfold Spec.changesOf in Hloop.
  unfold Platform.bind, Platform.lift, Platform.ret, Platform.perform.
  rewrite Hloop. cbv beta iota.
  destruct (Z.of_nat _ =? 0)%Z; cbv beta iota;
    destruct (Platform.randomUUID (Platform.world s1)) as [id w3] eqn:Hid;
    eexists id, _, _; (split; [reflexivity|]); cbn [Platform.sent];
    rewrite Hsent; cbn [Platform.sent]; now rewrite <- List.app_assoc.
Qed.

(** A changes response whose list is empty or missing gives the transcript
    made of the summary line and the sentence that no file changed, after
    exactly two requests. *)
Theorem azure_no_changes {W : Type} {E : Platform.Env W}
    (repoUrl commitHash token : string) (s : Platform.State W)
    (parsed : Azure.AzureRepoRef) (r1 r2 : Platform.Response) (w1 w2 w3 : W)
    (commitData : Platform.AzureCommitData)
    (changesData : Platform.AzureChangesData) (id : string) :
  let authHeader := Azure.authHeaderOf token in
  let rq1 := Azure.authorized authHeader
               (Azure.commitUrl (Azure.apiBaseUrl parsed) commitHash) in
  let rq2 := Azure.authorized authHeader
               (Azure.changesUrl (Azure.apiBaseUrl parsed) commitHash) in
  Azure.parseAzureUrl repoUrl = Some parsed ->
  Platform.fetch rq1 (Platform.world s) = (Platform.Resolved r1, w1) ->
  Platform.ok r1 = true ->
  Platform.json_commit (Platform.body r1) = Platform.Ok commitData ->
  Platform.fetch rq2 w1 = (Platform.Resolved r2, w2) ->
  Platform.ok r2 = true ->
  Platform.json_changes (Platform.body r2) = Platform.Ok changesData ->
  Platform.changes changesData = None \/ Platform.changes changesData = Some [] ->
  Platform.randomUUID w2 = (id, w3) ->
  Azure.fetchAzureCommit repoUrl commitHash token s
  = (Platform.Ok
       (Azure.azureCommit id commitData
          ("## Changes Summary" ++ JS.nl ++ "No file changes found in this commit.")),
     {| Platform.world := w3;
        Platform.sent := (Platform.sent s ++ [rq1; rq2])%list |}).
Proof.
  intros authHeader rq1 rq2 Hparse Hf1 Hok1 Hjson Hf2 Hok2 Hchanges Hnone Hid.
  rewrite (AzureRuns.after_changes_response _ _ _ _ Hparse Hf1 Hok1 Hjson Hf2).
  rewrite Hok2, Hchanges.
  unfold Platform.bind, Platform.lift, Platform.ret, Platform.perform.
  destruct Hnone as [-> | ->]; cbn [Azure.processChanges Platform.ret];
    cbn; rewrite Hid; reflexivity.
Qed.

(** When no change of a non-empty list is an [edit] or [add] of a file (only
    deletions, renames, folders), no content request is sent and the
    transcript is the summary line followed, for each change in order, by its
    header and its separator. *)
Theorem azure_listing_only {W : Type} {E : Platform.Env W}
    (repoUrl commitHash token : string) (s : Platform.State W)
    (parsed : Azure.AzureRepoRef) (r1 r2 : Platform.Response) (w1 w2 w3 : W)
    (commitData : Platform.AzureCommitData)
    (first : Platform.AzureChange) (others : list Platform.AzureChange)
    (id : string) :
  let authHeader := Azure.authHeaderOf token in
  let rq1 := Azure.authorized authHeader
               (Azure.commitUrl (Azure.apiBaseUrl parsed) commitHash) in
  let rq2 := Azure.authorized authHeader
               (Azure.changesUrl (Azure.apiBaseUrl parsed) commitHash) in
  Azure.parseAzureUrl repoUrl = Some parsed ->
  Platform.fetch rq1 (Platform.world s) = (Platform.Resolved r1, w1) ->
  Platform.ok r1 = true ->
  Platform.json_commit (Platform.body r1) = Platform.Ok commitData ->
  Platform.fetch rq2 w1 = (Platform.Resolved r2, w2) ->
  Platform.ok r2 = true ->
  Platform.json_changes (Platform.body r2)
  = Platform.Ok {| Platform.changes := Some (first :: others) |} ->
  (forall change, In change (first :: others) ->
     (Platform.changeType change <> "edit" /\ Platform.changeType change <> "add")
     \/ Platform.isFolder (Platform.item change) = true) ->
  Platform.randomUUID w2 = (id, w3) ->
  Azure.fetchAzureCommit repoUrl commitHash token s
  = (Platform.Ok
       (Azure.azureCommit id commitData
          ("## Changes Summary" ++ JS.nl
             ++ JS.join EmptyString
                  (map (fun change =>
                          (JS.nl ++ "File: " ++ Platform.path (Platform.item change)
                             ++ " [" ++ Platform.changeType change ++ "]" ++ JS.nl)
                          ++ "---" ++ JS.nl)
                       (first :: others)))),
     {| Platform.world := w3;
        Platform.sent := (Platform.sent s ++ [rq1; rq2])%list |}).
Proof.
  intros authHeader rq1 rq2 Hparse Hf1 Hok1 Hjson Hf2 Hok2 Hchanges Hnot Hid.
  rewrite (AzureRuns.after_changes_response _ _ _ _ Hparse Hf1 Hok1 Hjson Hf2).
  rewrite Hok2, Hchanges.
  assert (Hall : forallb (fun change => negb (Spec.eligible change))
                         (first :: others) = true).
  { apply forallb_forall. intros change Hin. apply negb_true_iff.
    unfold Spec.eligible, Azure.isEditOrAdd.
    destruct (Hnot change Hin) as [[Hedit Hadd] | Hfolder].
    - apply not_eq_sym, String.eqb_neq in Hedit.
      apply not_eq_sym, String.eqb_neq in Hadd.
      now rewrite Hedit, Hadd.
    - rewrite Hfolder. apply andb_false_r. }
  unfold Platform.bind, Platform.lift, Platform.ret, Platform.perform.
  cbn [Platform.changes].
  rewrite (AzureMore.processChanges_listed _ _ Hall).
  cbv beta iota. cbn [List.length].
  replace (Z.of_nat (S (List.length others)) =? 0)%Z with false
    by (symmetry; apply Z.eqb_neq; lia).
  cbv beta iota. cbn [Platform.world Platform.sent].
  rewrite Hid. reflexivity.
Qed.

(** Every commit returned by [fetchAzureCommit] has source [AZURE] and a
    hash of at most seven characters. *)
Theorem azure_commit_shape {W : Type} {E : Platform.Env W}
    (repoUrl commitHash token : string) (s s' : Platform.State W)
    (c : Types.Commit) :
  Azure.fetchAzureCommit repoUrl commitHash token s = (Platform.Ok c, s') ->
  Types.source c = Types.AZURE /\ (JS.length (Types.hash c) <= 7)%Z.
Proof.
  intros Hrun.
  destruct (AzureFacts.fetchAzureCommit_inv _ _ _ _ Hrun) as (id & cd & ext & ->).
  split; [reflexivity|].
  cbn [Azure.azureCommit Types.hash]. unfold JS.length, JS.substring.
  change (Z.to_nat 0) with 0. change (Z.to_nat (7 - 0)) with 7.
  pose proof (AzureMore.prefix_length_le 7 (Platform.commitId cd)). lia.
Qed.

Lemma azure_commit_request_failure_witness :
  MoreDemo.azure [Platform.Rejected "Failed to fetch"]
  = (Platform.Throw "Failed to fetch", MoreDemo.finished 0 [MoreDemo.commitRequest])
  /\ MoreDemo.azure [Demo.respond 401 "notfound.json"]
     = (Platform.Throw "Unauthorized. Please check your Personal Access Token (PAT).",
        MoreDemo.finished 0 [MoreDemo.commitRequest])
  /\ MoreDemo.azure [Demo.respond 404 "notfound.json"]
     = (Platform.Throw "TF401175: commit not found",
        MoreDemo.finished 0 [MoreDemo.commitRequest])
  /\ MoreDemo.azure [Demo.respond 500 "<html>"]
     = (Platform.Throw "Failed to fetch commit from Azure DevOps",
        MoreDemo.finished 0 [MoreDemo.commitRequest])
  /\ MoreDemo.azure [Demo.respond 500 "null"]
     = (Platform.Throw "Cannot read properties of null (reading 'message')",
        MoreDemo.finished 0 [MoreDemo.commitRequest]).
Proof.
  split; [|split; [|split; [|split]]].
  - exact (proj1 (@azure_commit_request_failure Demo.World MoreDemo.env
      AzureDemo.repoUrl "0123456789abcdef" "pat"
      (MoreDemo.answering [Platform.Rejected "Failed to fetch"])
      AzureDemo.parsed eq_refl) "Failed to fetch" (MoreDemo.network []) eq_refl).
  - exact (proj1 (proj2 (@azure_commit_request_failure Demo.World MoreDemo.env
      AzureDemo.repoUrl "0123456789abcdef" "pat"
      (MoreDemo.answering [Demo.respond 401 "notfound.json"])
      AzureDemo.parsed eq_refl) (MoreDemo.failure 401 "notfound.json")
      (MoreDemo.network []) eq_refl eq_refl) eq_refl).
  - refine (proj1 (proj2 (proj2 (@azure_commit_request_failure Demo.World
      MoreDemo.env AzureDemo.repoUrl "0123456789abcdef" "pat"
      (MoreDemo.answering [Demo.respond 404 "notfound.json"])
      AzureDemo.parsed eq_refl) (MoreDemo.failure 404 "notfound.json")
      (MoreDemo.network []) eq_refl eq_refl))
      "TF401175: commit not found" _ eq_refl _); discriminate.
  - refine (proj1 (proj2 (proj2 (proj2 (@azure_commit_request_failure Demo.World
      MoreDemo.env AzureDemo.repoUrl "0123456789abcdef" "pat"
      (MoreDemo.answering [Demo.respond 500 "<html>"])
      AzureDemo.parsed eq_refl) (MoreDemo.failure 500 "<html>")
      (MoreDemo.network []) eq_refl eq_refl))) _ _); [discriminate|].
    left. now eexists.
  - refine (proj2 (proj2 (proj2 (proj2 (@azure_commit_request_failure Demo.World
      MoreDemo.env AzureDemo.repoUrl "0123456789abcdef" "pat"
      (MoreDemo.answering [Demo.respond 500 "null"])
      AzureDemo.parsed eq_refl) (MoreDemo.failure 500 "null")
      (MoreDemo.network []) eq_refl eq_refl))) _ eq_refl); discriminate.
Defined.

Lemma azure_fatal_after_commit_witness :
  MoreDemo.azure [Demo.respond 200 "commit.json"; Platform.Rejected "Failed to fetch"]
  = (Platform.Throw "Failed to fetch",
     MoreDemo.finished 0 [MoreDemo.commitRequest; MoreDemo.changesRequest])
  /\ MoreDemo.azure [Demo.respond 200 "commit.json"; Demo.respond 200 "<html>"]
     = (Platform.Throw "Unexpected token in JSON",
        MoreDemo.finished 0 [MoreDemo.commitRequest; MoreDemo.changesRequest]).
Proof.
  split.
  - exact (proj1 (proj2 (@azure_fatal_after_commit Demo.World MoreDemo.env
      AzureDemo.repoUrl "0123456789abcdef" "pat"
      (MoreDemo.answering [Demo.respond 200 "commit.json";
                           Platform.Rejected "Failed to fetch"])
      AzureDemo.parsed (MoreDemo.okResponse "commit.json")
      (MoreDemo.network [Platform.Rejected "Failed to fetch"])
      eq_refl eq_refl eq_refl))
      AzureDemo.metadata "Failed to fetch" (MoreDemo.network []) eq_refl eq_refl).
  - exact (proj2 (proj2 (@azure_fatal_after_commit Demo.World MoreDemo.env
      AzureDemo.repoUrl "0123456789abcdef" "pat"
      (MoreDemo.answering [Demo.respond 200 "commit.json";
                           Demo.respond 200 "<html>"])
      AzureDemo.parsed (MoreDemo.okResponse "commit.json")
      (MoreDemo.network [Demo.respond 200 "<html>"])
      eq_refl eq_refl eq_refl))
      AzureDemo.metadata (MoreDemo.okResponse "<html>")
      "Unexpected token in JSON" (MoreDemo.network []) eq_refl eq_refl eq_refl
      eq_refl).
Defined.

Lemma azure_requests_sent_witness :
  exists id diffContent s',
    MoreDemo.azure [Demo.respond 200 "commit.json"; Demo.respond 200 "mixed.json";
                    Demo.respond 404 "gone"; Platform.Rejected "Failed to fetch"]
    = (Platform.Ok (Azure.azureCommit id AzureDemo.metadata diffContent), s')
    /\ Platform.sent s'
       = [MoreDemo.commitRequest; MoreDemo.changesRequest;
          MoreDemo.contentRequest "1"; MoreDemo.contentRequest "4"].
Proof.
  exact (@azure_requests_sent Demo.World MoreDemo.env
    AzureDemo.repoUrl "0123456789abcdef" "pat"
    (MoreDemo.answering [Demo.respond 200 "commit.json";
                         Demo.respond 200 "mixed.json";
                         Demo.respond 404 "gone";
                         Platform.Rejected "Failed to fetch"])
    AzureDemo.parsed (MoreDemo.okResponse "commit.json")
    (MoreDemo.okResponse "mixed.json")
    (MoreDemo.network [Demo.respond 200 "mixed.json"; Demo.respond 404 "gone";
                       Platform.Rejected "Failed to fetch"])
    (MoreDemo.network [Demo.respond 404 "gone"; Platform.Rejected "Failed to fetch"])
    AzureDemo.metadata
    {| Platform.changes :=
         Some [AzureDemo.deleted; AzureDemo.edited; MoreDemo.folderAdded;
               MoreDemo.added] |}
    eq_refl eq_refl eq_refl eq_refl eq_refl eq_refl eq_refl).
Defined.

Lemma azure_no_changes_witness :
  MoreDemo.azure [Demo.respond 200 "commit.json"; Demo.respond 200 "missing.json"]
  = (Platform.Ok
       (Azure.azureCommit "uuid-0" AzureDemo.metadata
          ("## Changes Summary" ++ JS.nl ++ "No file changes found in this commit.")),
     MoreDemo.finished 1 [MoreDemo.commitRequest; MoreDemo.changesRequest]).
Proof.
  exact (@azure_no_changes Demo.World MoreDemo.env
    AzureDemo.repoUrl "0123456789abcdef" "pat"
    (MoreDemo.answering [Demo.respond 200 "commit.json";
                         Demo.respond 200 "missing.json"])
    AzureDemo.parsed (MoreDemo.okResponse "commit.json")
    (MoreDemo.okResponse "missing.json")
    (MoreDemo.network [Demo.respond 200 "missing.json"])
    (MoreDemo.network [])
    {| Demo.answers := []; Demo.nextId := 1;
       Demo.generation := Platform.GenReturns None |}
    AzureDemo.metadata {| Platform.changes := None |} "uuid-0"
    eq_refl eq_refl eq_refl eq_refl eq_refl eq_refl eq_refl
    (or_introl eq_refl) eq_refl).
Defined.

Lemma azure_listing_only_witness :
  MoreDemo.azure [Demo.respond 200 "commit.json"; Demo.respond 200 "removed.json"]
  = (Platform.Ok
       (Azure.azureCommit "uuid-0" AzureDemo.metadata
          ("## Changes Summary" ++ JS.nl
             ++ JS.nl ++ "File: /src/old.ts [delete]" ++ JS.nl ++ "---" ++ JS.nl
             ++ JS.nl ++ "File: /docs [add]" ++ JS.nl ++ "---" ++ JS.nl)),
     MoreDemo.finished 1 [MoreDemo.commitRequest; MoreDemo.changesRequest]).
Proof.
  refine (@azure_listing_only Demo.World MoreDemo.env
    AzureDemo.repoUrl "0123456789abcdef" "pat"
    (MoreDemo.answering [Demo.respond 200 "commit.json";
                         Demo.respond 200 "removed.json"])
    AzureDemo.parsed (MoreDemo.okResponse "commit.json")
    (MoreDemo.okResponse "removed.json")
    (MoreDemo.network [Demo.respond 200 "removed.json"])
    (MoreDemo.network [])
    {| Demo.answers := []; Demo.nextId := 1;
       Demo.generation := Platform.GenReturns None |}
    AzureDemo.metadata AzureDemo.deleted [MoreDemo.folderAdded] "uuid-0"
    eq_refl eq_refl eq_refl eq_refl eq_refl eq_refl eq_refl _ eq_refl).
  intros change [<- | [<- | []]].
  - left. split; discriminate.
  - right. reflexivity.
Defined.

Lemma azure_commit_shape_witness :
  match fst (MoreDemo.azure [Demo.respond 200 "commit.json";
                             Demo.respond 200 "empty.json"]) with
  | Platform.Ok c =>
      Types.source c = Types.AZURE /\ (JS.length (Types.hash c) <= 7)%Z
  | Platform.Throw _ => False
  end.
Proof.
  destruct (MoreDemo.azure _) as [[c|m] s'] eqn:Hrun; cbn [fst].
  - exact (@azure_commit_shape Demo.World MoreDemo.env _ _ _ _ s' c Hrun).
  - vm_compute in Hrun. discriminate Hrun.
Defined.

(* ================================================================== *)
(** * More on the repository listing *)
(* ================================================================== *)

(** Whatever goes wrong in [fetchAzureRepositories] is thrown to the caller
    after its one request: the error of a rejected request; for a failure
    status, the message about the token (401), the message naming the
    address that was tried (404) or the generic message (any other status);
    the parse error of a success response whose body does not parse. *)
Theorem repositories_request_failure {W : Type} {E : Platform.Env W}
    (orgInput token : string) (s : Platform.State W) :
  let baseUrl := Azure.baseUrlOf orgInput in
  let rq := Azure.authorized (Azure.authHeaderOf token)
              (Azure.repositoriesUrl baseUrl) in
  let after w1 :=
    {| Platform.world := w1; Platform.sent := (Platform.sent s ++ [rq])%list |} in
  (forall m w1,
      Platform.fetch rq (Platform.world s) = (Platform.Rejected m, w1) ->
      Azure.fetchAzureRepositories orgInput token s = (Platform.Throw m, after w1))
  /\ (forall r w1,
      Platform.fetch rq (Platform.world s) = (Platform.Resolved r, w1) ->
      Platform.ok r = false ->
      Azure.fetchAzureRepositories orgInput token s
      = (Platform.Throw
           (if (Platform.status r =? 401)%Z
            then "Unauthorized. Please check your Personal Access Token (PAT)."
            else if (Platform.status r =? 404)%Z
                 then "Organization not found at " ++ baseUrl
                 else "Failed to fetch repositories."),
         after w1))
  /\ (forall r m w1,
      Platform.fetch rq (Platform.world s) = (Platform.Resolved r, w1) ->
      Platform.ok r = true ->
      Platform.json_repos (Platform.body r) = Platform.Throw m ->
      Azure.fetchAzureRepositories orgInput token s = (Platform.Throw m, after w1)).
Proof.
  intros baseUrl rq after.
  unfold Azure.fetchAzureRepositories. rewrite Run.try_rethrow.
  fold baseUrl rq.
  split; [|split].
  - intros m w1 Hf. now rewrite (Run.bind_throw _ _ _ (Run.fetch_rejected _ _ Hf)).
  - intros r w1 Hf Hok.
    rewrite (Run.bind_ok _ _ _ (Run.fetch_resolved _ _ Hf)), Hok. cbn [negb].
    destruct (Platform.status r =? 401)%Z;
      [|destruct (Platform.status r =? 404)%Z]; reflexivity.
  - intros r m w1 Hf Hok Hjson.
    rewrite (Run.bind_ok _ _ _ (Run.fetch_resolved _ _ Hf)), Hok. cbn [negb].
    rewrite Hjson. reflexivity.
Qed.

Module BaseUrlFacts.
Import Spec RegexFacts.

Lemma trimStart_white (ws t : string) :
  allWhite ws = true -> JS.trimStart (ws ++ t) = JS.trimStart t.
Proof.
  induction ws as [|c ws IH]; cbn [allWhite append JS.trimStart]; [trivial|].
  intros Hw. apply andb_prop in Hw as [Hc Hw]. rewrite Hc. now apply IH.
Qed.

Lemma trimEnd_white (ws : string) :
  allWhite ws = true -> JS.trimEnd ws = EmptyString.
Proof.
  induction ws as [|c ws IH]; cbn [allWhite JS.trimEnd]; [trivial|].
  intros Hw. apply andb_prop in Hw as [Hc Hw]. now rewrite (IH Hw), Hc.
Qed.

Lemma trimEnd_app_white (x ws : string) :
  allWhite ws = true -> JS.trimEnd (x ++ ws) = JS.trimEnd x.
Proof.
  intros Hw. induction x as [|c x IH]; cbn [append].
  - now rewrite trimEnd_white.
  - cbn [JS.trimEnd]. now rewrite IH.
Qed.

(** White space around a string does not change what [trim] gives. *)
Lemma trim_around (lead s trail : string) :
  allWhite lead = true -> allWhite trail = true ->
  JS.trim (lead ++ s ++ trail) = JS.trim s.
Proof.
  intros Hl Ht. unfold JS.trim. rewrite (@trimStart_white lead _ Hl).
  induction s as [|c s IH]; cbn [append].
  - rewrite <- (StringFacts.app_nil_r trail), (@trimStart_white trail _ Ht).
    reflexivity.
  - cbn [JS.trimStart]. destruct (JS.isWhite c); [exact IH|].
    change (String c (s ++ trail)) with (String c s ++ trail).
    now apply trimEnd_app_white.
Qed.

(** An occurrence of [dev.azure.com/] that begins before the end of [q] and
    runs into a following [dev.azure.com/] lies within [q]. *)
Lemma no_overlap_dev (q t : string) :
  q <> EmptyString ->
  JS.startsWith (q ++ "dev.azure.com/" ++ t) "dev.azure.com/" = true ->
  JS.startsWith q "dev.azure.com/" = true.
Proof.
  intros Hq Hs.
  destruct q as [|c1 q]; [congruence|].
  do 13 (destruct q as [|? q];
         [cbn in Hs; rewrite ?andb_false_r in Hs; discriminate Hs|]).
  cbn in Hs |- *. exact Hs.
Qed.

Lemma exec_dev_azure (pre org rest : string) :
  JS.includes pre "dev.azure.com/" = false ->
  segment org -> stopsAt "/" rest ->
  JS.exec Azure.re_dev_azure (pre ++ "dev.azure.com/" ++ org ++ rest) = Some [org].
Proof.
  intros Hpre Ho Hrest.
  destruct (GitHubFacts.segment_lacks Ho) as (a & org' & -> & Ha & Horg).
  rewrite exec_skip.
  - apply exec_here. unfold Azure.re_dev_azure. rewrite matchAt_lits.
    cbn [JS.matchAt append]. rewrite Ha.
    now apply (@greedy_max "/" (JS.matchAt []) org' rest [] Horg Hrest).
  - intros p q -> Hq. unfold Azure.re_dev_azure.
    apply matchAt_lits_fail.
    destruct (JS.startsWith (q ++ _) _) eqn:Hs; [|reflexivity].
    apply no_overlap_dev in Hs; [|exact Hq].
    apply GitHubFacts.includes_suffix, GitHubFacts.includes_false_starts in Hpre.
    congruence.
Qed.

Lemma exec_visualstudio (org rest : string) :
  org <> EmptyString -> JS.includes org "." = false ->
  JS.exec Azure.re_visualstudio (org ++ ".visualstudio.com" ++ rest) = Some [org].
Proof.
  intros Hne Hdot.
  assert (Hl : lacks "." org = true) by (rewrite lacks_includes; now rewrite Hdot).
  destruct org as [|a org']; [congruence|].
  cbn [lacks] in Hl. apply andb_prop in Hl as [Ha Horg].
  apply negb_true_iff in Ha.
  apply exec_here. unfold Azure.re_visualstudio.
  cbn [JS.matchAt append]. rewrite Ha.
  apply (@greedy_max "." (JS.matchAt (JS.lits ".visualstudio.com")) org'
           (".visualstudio.com" ++ rest) [] Horg).
  - right. now eexists.
  - rewrite <- (List.app_nil_r (JS.lits ".visualstudio.com")).
    now rewrite matchAt_lits.
Qed.

End BaseUrlFacts.

(** [baseUrlOf] on organisation names and on [dev.azure.com] addresses (after
    trimming).  A text that mentions neither [dev.azure.com] nor
    [visualstudio.com] is taken as the organisation name.  In a text that
    holds [dev.azure.com/] followed by a segment, the segment after the first
    occurrence is the organisation, whatever precedes (a scheme) or follows
    (a project, a repository). *)
Theorem baseUrl_dev_azure (orgInput : string) :
  (JS.includes (JS.trim orgInput) "dev.azure.com" = false ->
   JS.includes (JS.trim orgInput) "visualstudio.com" = false ->
   Azure.baseUrlOf orgInput = "https://dev.azure.com/" ++ JS.trim orgInput)
  /\ (forall pre org rest,
      JS.trim orgInput = pre ++ "dev.azure.com/" ++ org ++ rest ->
      JS.includes pre "dev.azure.com/" = false ->
      org <> EmptyString -> JS.includes org "/" = false ->
      rest = EmptyString \/ JS.startsWith rest "/" = true ->
      Azure.baseUrlOf orgInput = "https://dev.azure.com/" ++ org).
Proof.
  unfold Azure.baseUrlOf. split.
  - intros -> ->. reflexivity.
  - intros pre org rest -> Hpre Hne Hfree Hrest.
    assert (Hinc : JS.includes
                     (pre ++ "dev.azure.com/" ++ org ++ rest) "dev.azure.com"
                   = true).
    { change ("dev.azure.com/" ++ org ++ rest)
        with ("dev.azure.com" ++ String "/" (org ++ rest)).
      apply StringFacts.includes_app. }
    rewrite Hinc, BaseUrlFacts.exec_dev_azure; try assumption.
    + reflexivity.
    + now split.
    + now apply GitHubFacts.stopsAt_starts.
Qed.

Lemma baseUrl_dev_azure_witness :
  Azure.baseUrlOf "  contoso "
  = "https://dev.azure.com/contoso"
  /\ Azure.baseUrlOf "https://dev.azure.com/contoso/Web/_git/site"
     = "https://dev.azure.com/contoso".
Proof.
  split.
  - exact (proj1 (baseUrl_dev_azure "  contoso ") eq_refl eq_refl).
  - exact (proj2 (baseUrl_dev_azure "https://dev.azure.com/contoso/Web/_git/site")
             "https://" "contoso" "/Web/_git/site" eq_refl eq_refl
             ltac:(discriminate) eq_refl (or_intror eq_refl)).
Defined.

(** [baseUrlOf] on [visualstudio.com] hosts (after trimming, and when the
    text does not mention [dev.azure.com]): in [{name}.visualstudio.com...],
    where [name] is not empty and has no dot, the whole of [name] is taken as
    the organisation.  A scheme written before the host is part of [name]
    and is kept in it. *)
Theorem baseUrl_visualstudio (orgInput name rest : string) :
  JS.trim orgInput = name ++ ".visualstudio.com" ++ rest ->
  name <> EmptyString -> JS.includes name "." = false ->
  JS.includes (JS.trim orgInput) "dev.azure.com" = false ->
  Azure.baseUrlOf orgInput = "https://" ++ name ++ ".visualstudio.com".
Proof.
  intros Hclean Hne Hdot Hdev. unfold Azure.baseUrlOf.
  rewrite Hdev, Hclean.
  assert (Hinc : JS.includes (name ++ ".visualstudio.com" ++ rest)
                   "visualstudio.com" = true).
  { change (".visualstudio.com" ++ rest)
      with ("." ++ "visualstudio.com" ++ rest).
    rewrite <- StringFacts.app_assoc. apply StringFacts.includes_app. }
  rewrite Hinc, BaseUrlFacts.exec_visualstudio by assumption.
  reflexivity.
Qed.

Lemma baseUrl_visualstudio_witness :
  Azure.baseUrlOf "contoso.visualstudio.com/Web"
  = "https://contoso.visualstudio.com"
  /\ Azure.baseUrlOf "https://contoso.visualstudio.com"
     = "https://https://contoso.visualstudio.com".
Proof.
  split.
  - exact (@baseUrl_visualstudio "contoso.visualstudio.com/Web" "contoso" "/Web"
             eq_refl ltac:(discriminate) eq_refl eq_refl).
  - exact (@baseUrl_visualstudio "https://contoso.visualstudio.com"
             "https://contoso" EmptyString
             eq_refl ltac:(discriminate) eq_refl eq_refl).
Defined.

(** White space before and after the organisation input is ignored. *)
Theorem baseUrl_ignores_white_space (lead orgInput trail : string) :
  Spec.allWhite lead = true -> Spec.allWhite trail = true ->
  Azure.baseUrlOf (lead ++ orgInput ++ trail) = Azure.baseUrlOf orgInput.
Proof.
  intros Hl Ht. unfold Azure.baseUrlOf.
  now rewrite (@BaseUrlFacts.trim_around lead orgInput trail Hl Ht).
Qed.

Lemma baseUrl_ignores_white_space_witness :
  Azure.baseUrlOf ("  " ++ "contoso" ++ " " ++ JS.nl) = Azure.baseUrlOf "contoso".
Proof.
  exact (@baseUrl_ignores_white_space "  " "contoso" (" " ++ JS.nl)
           eq_refl eq_refl).
Defined.

Lemma repositories_request_failure_witness :
  Azure.fetchAzureRepositories (E := MoreDemo.env) "contoso" "pat"
    (MoreDemo.answering [Demo.respond 404 "Not found"])
  = (Platform.Throw "Organization not found at https://dev.azure.com/contoso",
     MoreDemo.finished 0
       [Azure.authorized "Basic OnBhdA=="
          "https://dev.azure.com/contoso/_apis/git/repositories?api-version=7.1"]).
Proof.
  exact (proj1 (proj2 (@repositories_request_failure Demo.World MoreDemo.env
    "contoso" "pat" (MoreDemo.answering [Demo.respond 404 "Not found"])))
    (MoreDemo.failure 404 "Not found") (MoreDemo.network []) eq_refl eq_refl).
Defined.

(* ================================================================== *)
(** * More on the GitHub commit fetch *)
(* ================================================================== *)

(** When the address matches, [fetchGitHubCommit] sends exactly one request,
    whatever the answer: to the commit of the extracted owner and repository,
    with the [Accept] header, and with the [Authorization] header exactly
    when a non-empty token is given. *)
Theorem github_request {W : Type} {E : Platform.Env W}
    (repoUrl commitHash : string) (token : option string)
    (s : Platform.State W) (owner repo : string) :
  let target :=
    "https://api.github.com/repos/" ++ owner ++ "/" ++ repo
      ++ "/commits/" ++ commitHash in
  let accept := ("Accept", "application/vnd.github.v3+json") in
  JS.exec GitHub.re_github repoUrl = Some [owner; repo] ->
  exists r s' hs,
    GitHub.fetchGitHubCommit repoUrl commitHash token s = (r, s')
    /\ Platform.sent s'
       = (Platform.sent s
            ++ [{| Platform.url := target; Platform.headers := hs |}])%list
    /\ (token = None \/ token = Some EmptyString -> hs = [accept])
    /\ (forall t, token = Some t -> t <> EmptyString ->
        hs = [accept; ("Authorization", "token " ++ t)]).
Proof.
  intros target accept He.
  assert (Hsent : exists r s',
    GitHub.fetchGitHubCommit repoUrl commitHash token s = (r, s')
    /\ Platform.sent s'
       = (Platform.sent s ++ [Spec.githubRequest owner repo commitHash token])%list).
  { unfold GitHub.fetchGitHubCommit. rewrite He, Run.try_rethrow. cbn [nth].
    unfold Platform.bind, Platform.await_fetch, Platform.lift, Platform.perform,
      Platform.throw, Platform.ret.
    destruct (Platform.fetch _ (Platform.world s)) as [[m|r] w1];
      [eexists _, _; split; reflexivity|].
    destruct (Platform.ok r); cbn [negb].
    - destruct (Platform.json_github (Platform.body r));
        [|eexists _, _; split; reflexivity].
      cbn [Platform.world Platform.sent]. destruct (Platform.randomUUID w1).
      eexists _, _; split; reflexivity.
    - destruct (Platform.json_error (Platform.body r)) as [err|];
        [destruct (Platform.messageOf err)|];
        eexists _, _; split; reflexivity. }
  destruct Hsent as (r & s' & Hrun & Hsent).
  exists r, s', (Platform.headers (Spec.githubRequest owner repo commitHash token)).
  split; [exact Hrun|]. split; [exact Hsent|]. split.
  - intros [-> | ->]; reflexivity.
  - intros t -> Ht. cbn [Spec.githubRequest Platform.headers].
    apply StringFacts.truthy_true in Ht. now rewrite Ht.
Qed.

Lemma github_request_witness :
  exists r s',
    GitHub.fetchGitHubCommit (E := MoreDemo.env)
      "https://github.com/octocat/hello" "89abcdef" (Some "ghp_secret")
      (MoreDemo.answering [Demo.respond 200 "github.json"]) = (r, s')
    /\ Platform.sent s'
       = [{| Platform.url :=
               "https://api.github.com/repos/octocat/hello/commits/89abcdef";
             Platform.headers :=
               [("Accept", "application/vnd.github.v3+json");
                ("Authorization", "token ghp_secret")] |}].
Proof.
  destruct (@github_request Demo.World MoreDemo.env
              "https://github.com/octocat/hello" "89abcdef" (Some "ghp_secret")
              (MoreDemo.answering [Demo.respond 200 "github.json"])
              "octocat" "hello" eq_refl) as (r & s' & hs & Hrun & Hsent & _ & Hauth).
  exists r, s'. split; [exact Hrun|].
  rewrite Hsent, (Hauth "ghp_secret" eq_refl ltac:(discriminate)). reflexivity.
Defined.

(** A failed request aborts [fetchGitHubCommit] after its one request: a
    rejected request throws its error; a failure status throws the [message]
    of the error body when it holds a non-empty one and the generic message
    when it holds none or an empty one.  Two bodies of a failure response
    give neither: one that does not parse, for which the parse error is
    thrown (this path has no fallback), and the JSON value [null], for which
    reading its [message] throws and the caller gets that [TypeError]. *)
Theorem github_request_failure {W : Type} {E : Platform.Env W}
    (repoUrl commitHash : string) (token : option string)
    (s : Platform.State W) (owner repo : string) :
  let rq := Spec.githubRequest owner repo commitHash token in
  let after w1 :=
    {| Platform.world := w1; Platform.sent := (Platform.sent s ++ [rq])%list |} in
  JS.exec GitHub.re_github repoUrl = Some [owner; repo] ->
  (forall m w1,
      Platform.fetch rq (Platform.world s) = (Platform.Rejected m, w1) ->
      GitHub.fetchGitHubCommit repoUrl commitHash token s
      = (Platform.Throw m, after w1))
  /\ (forall r w1,
      Platform.fetch rq (Platform.world s) = (Platform.Resolved r, w1) ->
      Platform.ok r = false ->
      (forall m,
          Platform.json_error (Platform.body r)
          = Platform.Ok
              (Platform.JsonValue {| Platform.err_message := Some m |}) ->
          m <> EmptyString ->
          GitHub.fetchGitHubCommit repoUrl commitHash token s
          = (Platform.Throw m, after w1))
      /\ (Platform.json_error (Platform.body r)
          = Platform.Ok (Platform.JsonValue {| Platform.err_message := None |})
          \/ Platform.json_error (Platform.body r)
             = Platform.Ok
                 (Platform.JsonValue
                    {| Platform.err_message := Some EmptyString |}) ->
          GitHub.fetchGitHubCommit repoUrl commitHash token s
          = (Platform.Throw "Failed to fetch commit from GitHub", after w1))
      /\ (forall m,
          Platform.json_error (Platform.body r) = Platform.Throw m ->
          GitHub.fetchGitHubCommit repoUrl commitHash token s
          = (Platform.Throw m, after w1))
      /\ (Platform.json_error (Platform.body r) = Platform.Ok Platform.JsonNull ->
          GitHub.fetchGitHubCommit repoUrl commitHash token s
          = (Platform.Throw (Platform.readOfNull "message"), after w1))).
Proof.
  intros rq after He.
  unfold GitHub.fetchGitHubCommit. rewrite He, Run.try_rethrow. cbn [nth].
  fold (Spec.githubRequest owner repo commitHash token). fold rq.
  split.
  - intros m w1 Hf. now rewrite (Run.bind_throw _ _ _ (Run.fetch_rejected _ _ Hf)).
  - intros r w1 Hf Hok.
    rewrite (Run.bind_ok _ _ _ (Run.fetch_resolved _ _ Hf)), Hok. cbn [negb].
    split; [|split; [|split]].
    + intros m Hbody Hm. rewrite Hbody.
      apply StringFacts.truthy_true in Hm.
      unfold Platform.bind, Platform.lift, Platform.throw.
      cbn [Platform.messageOf Platform.err_message JS.or_else]. now rewrite Hm.
    + intros [-> | ->]; reflexivity.
    + intros m ->. reflexivity.
    + intros ->. reflexivity.
Qed.

Lemma github_request_failure_witness :
  GitHub.fetchGitHubCommit (E := MoreDemo.env)
    "https://github.com/octocat/hello" "89abcdef" None
    (MoreDemo.answering [Demo.respond 502 "<html>"])
  = (Platform.Throw "Unexpected token in JSON",
     MoreDemo.finished 0
       [Spec.githubRequest "octocat" "hello" "89abcdef" None])
  /\ GitHub.fetchGitHubCommit (E := MoreDemo.env)
       "https://github.com/octocat/hello" "89abcdef" None
       (MoreDemo.answering [Demo.respond 404 "notfound.json"])
     = (Platform.Throw "TF401175: commit not found",
        MoreDemo.finished 0
          [Spec.githubRequest "octocat" "hello" "89abcdef" None])
  /\ GitHub.fetchGitHubCommit (E := MoreDemo.env)
       "https://github.com/octocat/hello" "89abcdef" None
       (MoreDemo.answering [Demo.respond 500 "null"])
     = (Platform.Throw "Cannot read properties of null (reading 'message')",
        MoreDemo.finished 0
          [Spec.githubRequest "octocat" "hello" "89abcdef" None]).
Proof.
  split; [|split].
  - exact (proj1 (proj2 (proj2 (proj2 (@github_request_failure Demo.World
      MoreDemo.env "https://github.com/octocat/hello" "89abcdef" None
      (MoreDemo.answering [Demo.respond 502 "<html>"]) "octocat" "hello" eq_refl)
      (MoreDemo.failure 502 "<html>") (MoreDemo.network []) eq_refl eq_refl)))
      "Unexpected token in JSON" eq_refl).
  - refine (proj1 (proj2 (@github_request_failure Demo.World
      MoreDemo.env "https://github.com/octocat/hello" "89abcdef" None
      (MoreDemo.answering [Demo.respond 404 "notfound.json"]) "octocat" "hello"
      eq_refl)
      (MoreDemo.failure 404 "notfound.json") (MoreDemo.network []) eq_refl eq_refl)
      "TF401175: commit not found" eq_refl _); discriminate.
  - exact (proj2 (proj2 (proj2 (proj2 (@github_request_failure Demo.World
      MoreDemo.env "https://github.com/octocat/hello" "89abcdef" None
      (MoreDemo.answering [Demo.respond 500 "null"]) "octocat" "hello" eq_refl)
      (MoreDemo.failure 500 "null") (MoreDemo.network []) eq_refl eq_refl)))
      eq_refl).
Defined.

(** A success response gives the commit: the hash is the first seven
    characters of [sha], author and date are always present, the source is
    [GITHUB], and the diff is the blocks of the files joined by blank lines,
    empty when the response has no [files]. *)
Theorem github_success {W : Type} {E : Platform.Env W}
    (repoUrl commitHash : string) (token : option string)
    (s : Platform.State W) (owner repo : string)
    (r : Platform.Response) (w1 w2 : W)
    (data : Platform.GitHubCommitResponse) (id : string) :
  let rq := Spec.githubRequest owner repo commitHash token in
  JS.exec GitHub.re_github repoUrl = Some [owner; repo] ->
  Platform.fetch rq (Platform.world s) = (Platform.Resolved r, w1) ->
  Platform.ok r = true ->
  Platform.json_github (Platform.body r) = Platform.Ok data ->
  Platform.randomUUID w1 = (id, w2) ->
  exists c,
    GitHub.fetchGitHubCommit repoUrl commitHash token s
    = (Platform.Ok c,
       {| Platform.world := w2; Platform.sent := (Platform.sent s ++ [rq])%list |})
    /\ Types.id c = id
    /\ Types.hash c = JS.substring (Platform.sha data) 0 7
    /\ (JS.length (Types.hash c) <= 7)%Z
    /\ Types.message c = Platform.commit_message data
    /\ Types.author c = Some (Platform.commit_author_name data)
    /\ Types.date c = Some (Platform.commit_author_date data)
    /\ Types.source c = Types.GITHUB
    /\ (Platform.files data = None \/ Platform.files data = Some [] ->
        Types.diff c = EmptyString)
    /\ (forall fs, Platform.files data = Some fs ->
        Types.diff c = JS.join (JS.nl ++ JS.nl) (map GitHub.fileBlock fs)).
Proof.
  intros rq He Hf Hok Hjson Hid.
  unfold GitHub.fetchGitHubCommit. rewrite He, Run.try_rethrow. cbn [nth].
  fold (Spec.githubRequest owner repo commitHash token). fold rq.
  rewrite (Run.bind_ok _ _ _ (Run.fetch_resolved _ _ Hf)), Hok. cbn [negb].
  rewrite Hjson.
  unfold Platform.bind, Platform.lift, Platform.perform, Platform.ret.
  cbn [Platform.world Platform.sent]. rewrite Hid.
  eexists. split; [reflexivity|]. cbn.
  repeat split.
  - unfold JS.length, JS.substring.
    change (Z.to_nat 0) with 0. change (Z.to_nat (7 - 0)) with 7.
    pose proof (AzureMore.prefix_length_le 7 (Platform.sha data)). lia.
  - intros [-> | ->]; reflexivity.
  - now intros fs ->.
Qed.

Lemma github_success_witness :
  exists c,
    GitHub.fetchGitHubCommit (E := MoreDemo.env)
      "https://github.com/octocat/hello" "89abcdef" None
      (MoreDemo.answering [Demo.respond 200 "github.json"])
    = (Platform.Ok c,
       MoreDemo.finished 1 [Spec.githubRequest "octocat" "hello" "89abcdef" None])
    /\ Types.hash c = "89abcde"
    /\ Types.diff c
       = "File: hello.txt (added)" ++ JS.nl ++ "@@ -0,0 +1 @@" ++ JS.nl ++ JS.nl
           ++ "File: logo.png (added)" ++ JS.nl ++ "[Binary or Large File]".
Proof.
  destruct (@github_success Demo.World MoreDemo.env
              "https://github.com/octocat/hello" "89abcdef" None
              (MoreDemo.answering [Demo.respond 200 "github.json"])
              "octocat" "hello" (MoreDemo.okResponse "github.json")
              (MoreDemo.network [])
              {| Demo.answers := []; Demo.nextId := 1;
                 Demo.generation := Platform.GenReturns None |}
              GitHubDemo.response "uuid-0"
              eq_refl eq_refl eq_refl eq_refl eq_refl)
    as (c & Hrun & _ & Hhash & _ & _ & _ & _ & _ & _ & Hdiff).
  exists c. split; [exact Hrun|]. split.
  - rewrite Hhash. reflexivity.
  - rewrite (Hdiff _ eq_refl). reflexivity.
Defined.

(* ================================================================== *)
(** * More on the prompt *)
(* ================================================================== *)

Module PromptFacts.

Lemma prefix_prefix (n : nat) (s : string) :
  String.substring 0 n (String.substring 0 n s) = String.substring 0 n s.
Proof.
  revert n; induction s as [|c s IH]; intros [|n]; cbn; try reflexivity.
  now rewrite IH.
Qed.

Lemma commitBlock_cut (c : Types.Commit) (i : nat) :
  Gemini.commitBlock (Spec.cutDiff c) i = Gemini.commitBlock c i.
Proof.
  unfold Gemini.commitBlock, Spec.cutDiff, JS.substring.
  cbn [Types.hash Types.message Types.author Types.date Types.diff].
  now rewrite prefix_prefix.
Qed.

Lemma mapIndexed_cut (commits : list Types.Commit) :
  forall i, Gemini.mapIndexed i (map Spec.cutDiff commits)
            = Gemini.mapIndexed i commits.
Proof.
  induction commits as [|c commits IH]; intros i; cbn [map Gemini.mapIndexed].
  - reflexivity.
  - now rewrite commitBlock_cut, IH.
Qed.

(** The prompt is built around the previous document, fenced. *)
Lemma prompt_fences (commits : list Types.Commit) (e i doc : string) :
  doc <> EmptyString ->
  exists before after,
    Gemini.buildPrompt commits
      {| Types.extraInfo := e; Types.setupInstructions := i;
         Types.previousDocContent := Some doc |}
    = before
        ++ (JS.bt ++ JS.bt ++ JS.bt ++ "markdown" ++ JS.nl ++ doc ++ JS.nl
              ++ JS.bt ++ JS.bt ++ JS.bt)
        ++ after.
Proof.
  intros Hdoc. apply StringFacts.truthy_true in Hdoc.
  unfold Gemini.buildPrompt. cbn [Types.previousDocContent JS.truthy_opt].
  rewrite Hdoc.
  eexists (JS.nl ++ (Gemini.taskIntro ++ Gemini.taskUpdate) ++ JS.nl ++ JS.nl
             ++ "User Provided Extra Context:" ++ JS.nl
             ++ JS.dq ++ JS.or_else (Some e) "N/A" ++ JS.dq ++ JS.nl ++ JS.nl
             ++ "User Provided Setup Instructions (incorporate this exactly if present):"
             ++ JS.nl ++ JS.dq ++ JS.or_else (Some i) "N/A" ++ JS.dq ++ JS.nl
             ++ JS.nl ++ "Previous Documentation Content:" ++ JS.nl), _.
  cbn [Types.extraInfo Types.setupInstructions].
  rewrite !StringFacts.app_assoc. reflexivity.
Qed.

End PromptFacts.

(** The prompt reads at most the first 15000 characters of each diff:
    cutting every diff to its first 15000 characters beforehand gives the
    same request to the text-generation call. *)
Theorem prompt_reads_first_15000 (commits : list Types.Commit)
    (config : Types.GenerationConfig) :
  Gemini.generateRequest (map Spec.cutDiff commits) config
  = Gemini.generateRequest commits config.
Proof.
  unfold Gemini.generateRequest, Gemini.buildPrompt.
  now rewrite PromptFacts.mapIndexed_cut.
Qed.

(** How the previous document enters the prompt.  An empty previous document
    counts as none: the prompt is the same as without one.  A non-empty one
    is embedded verbatim between [```markdown] and [```], and the prompt then
    carries the instruction to update the existing documentation. *)
Theorem prompt_previous_document (commits : list Types.Commit)
    (extraInfo setupInstructions : string) :
  let configWith doc :=
    {| Types.extraInfo := extraInfo;
       Types.setupInstructions := setupInstructions;
       Types.previousDocContent := doc |} in
  Gemini.buildPrompt commits (configWith (Some EmptyString))
  = Gemini.buildPrompt commits (configWith None)
  /\ (forall doc,
      doc <> EmptyString ->
      JS.includes (Gemini.buildPrompt commits (configWith (Some doc)))
        (JS.bt ++ JS.bt ++ JS.bt ++ "markdown" ++ JS.nl ++ doc ++ JS.nl
           ++ JS.bt ++ JS.bt ++ JS.bt) = true
      /\ JS.includes (Gemini.buildPrompt commits (configWith (Some doc)))
           "Your goal is to UPDATE this existing documentation" = true).
Proof.
  intros configWith. split; [reflexivity|].
  intros doc Hdoc. subst configWith. cbv beta. split.
  - destruct (PromptFacts.prompt_fences commits extraInfo setupInstructions Hdoc)
      as (before & after & ->).
    apply StringFacts.includes_app.
  - apply StringFacts.truthy_true in Hdoc.
    unfold Gemini.buildPrompt.
    cbn [Types.previousDocContent JS.truthy_opt]. rewrite Hdoc.
    unfold Gemini.taskUpdate.
    match goal with
    | |- JS.includes ?p ?sub = true =>
        assert (Hshape : exists before after, p = before ++ sub ++ after)
    end.
    { eexists (JS.nl ++ Gemini.taskIntro ++ JS.nl ++ JS.nl
                 ++ "IMPORTANT: You have been provided with an EXISTING DOCUMENTATION file. "
                 ++ JS.nl), _.
      rewrite !StringFacts.app_assoc. cbn [append]. reflexivity. }
    destruct Hshape as (before & after & ->).
    apply StringFacts.includes_app.
Qed.

Lemma prompt_previous_document_witness :
  JS.includes
    (Gemini.buildPrompt GeminiDemo.oneCommit
       {| Types.extraInfo := EmptyString;
          Types.setupInstructions := "npm install";
          Types.previousDocContent := Some "# Old" |})
    (JS.bt ++ JS.bt ++ JS.bt ++ "markdown" ++ JS.nl ++ "# Old" ++ JS.nl
       ++ JS.bt ++ JS.bt ++ JS.bt) = true.
Proof.
  exact (proj1 (proj2 (prompt_previous_document GeminiDemo.oneCommit
                         EmptyString "npm install") "# Old" ltac:(discriminate))).
Defined.

(* ================================================================== *)
(** * The handlers of the commit manager *)
(* ================================================================== *)

Module HandlerFacts.
Import Platform.

Section WithEnv.
Context {W : Type} {E : Env W}.

(** [handleFetch] once the two fields are filled in, by what the provider
    call gives. *)
Lemma handleFetch_run (st : CommitManager.FetchForm)
    (commits : list Types.Commit) (s : State W) :
  JS.truthy (CommitManager.repoUrl st) = true ->
  JS.truthy (CommitManager.commitHash st) = true ->
  CommitManager.handleFetch st commits s
  = let '(r, s') := CommitManager.fetchByTab st s in
    (Ok match r with
        | Ok commit =>
            (CommitManager.setIsFetching false
               (CommitManager.setFetchError EmptyString
                  (CommitManager.setCommitHash EmptyString st)),
             (commits ++ [commit])%list)
        | Throw m =>
            (CommitManager.setIsFetching false
               (CommitManager.setFetchError
                  (JS.or_else (Some m) "Failed to fetch") st),
             commits)
        end, s').
Proof.
  intros Hurl Hhash. unfold CommitManager.handleFetch.
  rewrite Hurl, Hhash. cbn [negb orb].
  unfold bind, try_catch, ret.
  change (CommitManager.fetchByTab
            (CommitManager.setFetchError EmptyString
               (CommitManager.setIsFetching true st)))
    with (CommitManager.fetchByTab st).
  destruct (CommitManager.fetchByTab st s) as [[commit|m] s']; reflexivity.
Qed.

Lemma or_else_truthy (m d : string) :
  d <> EmptyString -> JS.or_else (Some m) d <> EmptyString.
Proof.
  intros Hd. cbn [JS.or_else]. destruct m; cbn [JS.truthy]; [exact Hd|discriminate].
Qed.

Lemma handleLoadRepos_run (st : CommitManager.FetchForm) (s : State W) :
  JS.truthy (CommitManager.azureOrg st) = true ->
  JS.truthy (CommitManager.azureToken st) = true ->
  CommitManager.handleLoadRepos st s
  = let '(r, s') :=
      Azure.fetchAzureRepositories (CommitManager.azureOrg st)
        (CommitManager.azureToken st) s in
    (Ok match r with
        | Ok repos =>
            CommitManager.setIsLoadingRepos false
              (CommitManager.setFetchError
                 match repos with
                 | [] => "No repositories found in this organization."
                 | _ :: _ => EmptyString
                 end
                 (CommitManager.setAzureRepos repos st))
        | Throw m =>
            CommitManager.setIsLoadingRepos false
              (CommitManager.setFetchError
                 (JS.or_else (Some m) "Failed to load repositories")
                 (CommitManager.setAzureRepos [] st))
        end, s').
Proof.
  intros Horg Htoken. unfold CommitManager.handleLoadRepos.
  rewrite Horg, Htoken. cbn [negb orb].
  unfold bind, try_catch, ret.
  cbn [CommitManager.azureOrg CommitManager.azureToken
       CommitManager.setAzureRepos CommitManager.setFetchError
       CommitManager.setIsLoadingRepos].
  destruct (Azure.fetchAzureRepositories _ _ s) as [[repos|m] s'];
    [destruct repos|]; reflexivity.
Qed.

End WithEnv.
End HandlerFacts.

(** A manual entry never throws, sends no request and keeps the commits
    already in the store in place.  With an empty diff it does nothing at
    all: no commit is added, no identifier is drawn and the form (the typed
    message included) is left as it is.  With a non-empty diff exactly one
    commit is appended and both fields are cleared. *)
Theorem manual_add_store {W : Type} {E : Platform.Env W}
    (form : CommitManager.ManualForm) (commits : list Types.Commit)
    (s : Platform.State W) :
  exists form' added s',
    CommitManager.handleManualAdd form commits s
    = (Platform.Ok (form', (commits ++ added)%list), s')
    /\ Platform.sent s' = Platform.sent s
    /\ (CommitManager.manualDiff form = EmptyString ->
        added = [] /\ form' = form /\ s' = s)
    /\ (CommitManager.manualDiff form <> EmptyString ->
        List.length added = 1
        /\ form' = {| CommitManager.manualDiff := EmptyString;
                      CommitManager.manualMessage := EmptyString |}).
Proof.
  unfold CommitManager.handleManualAdd, CommitManager.newManualCommit.
  destruct (CommitManager.manualDiff form) as [|a d] eqn:Hdiff; cbn [JS.truthy negb].
  - exists form, [], s. unfold Platform.ret. rewrite List.app_nil_r.
    repeat split; congruence.
  - unfold Platform.bind, Platform.perform, Platform.ret, App.handleAddCommit.
    destruct (Platform.randomUUID (Platform.world s)) as [id w1].
    cbn [Platform.world Platform.sent].
    destruct (Platform.nowISOString w1) as [now w2].
    eexists _, [_], _. split; [reflexivity|]. cbn [Platform.sent].
    repeat split; congruence.
Qed.

Lemma manual_add_store_witness :
  CommitManager.handleManualAdd (E := Demo.env Demo.noBodies)
    {| CommitManager.manualDiff := EmptyString;
       CommitManager.manualMessage := "typed, but no diff" |}
    StoreDemo.three ManualDemo.before
  = (Platform.Ok
       ({| CommitManager.manualDiff := EmptyString;
           CommitManager.manualMessage := "typed, but no diff" |},
        StoreDemo.three),
     ManualDemo.before).
Proof.
  destruct (@manual_add_store Demo.World (Demo.env Demo.noBodies)
              {| CommitManager.manualDiff := EmptyString;
                 CommitManager.manualMessage := "typed, but no diff" |}
              StoreDemo.three ManualDemo.before)
    as (form' & added & s' & Hrun & _ & Hempty & _).
  destruct (Hempty eq_refl) as (-> & -> & ->).
  rewrite Hrun, List.app_nil_r. reflexivity.
Defined.

(** What [handleFetch] refuses without sending any request: a form whose
    address or commit hash is empty (the error says both are required); the
    Azure tab without a token (the error asks for the token); the manual tab.
    In each case the store is unchanged. *)
Theorem handleFetch_refusals {W : Type} {E : Platform.Env W}
    (st : CommitManager.FetchForm) (commits : list Types.Commit)
    (s : Platform.State W) :
  (CommitManager.repoUrl st = EmptyString
   \/ CommitManager.commitHash st = EmptyString ->
   CommitManager.handleFetch st commits s
   = (Platform.Ok
        (CommitManager.setFetchError "Repo URL and Commit Hash are required" st,
         commits), s))
  /\ (CommitManager.repoUrl st <> EmptyString ->
      CommitManager.commitHash st <> EmptyString ->
      (CommitManager.activeTab st = CommitManager.azure ->
       CommitManager.azureToken st = EmptyString ->
       CommitManager.handleFetch st commits s
       = (Platform.Ok
            (CommitManager.setIsFetching false
               (CommitManager.setFetchError
                  "Personal Access Token (PAT) is required for Azure DevOps" st),
             commits), s))
      /\ (CommitManager.activeTab st = CommitManager.manual ->
          CommitManager.handleFetch st commits s
          = (Platform.Ok
               (CommitManager.setIsFetching false
                  (CommitManager.setFetchError "Invalid fetch source" st),
                commits), s))).
Proof.
  split.
  - intros Hmissing. unfold CommitManager.handleFetch.
    destruct Hmissing as [-> | ->]; cbn [JS.truthy negb orb];
      rewrite ?orb_true_r; reflexivity.
  - intros Hurl Hhash.
    apply StringFacts.truthy_true in Hurl. apply StringFacts.truthy_true in Hhash.
    rewrite (HandlerFacts.handleFetch_run _ _ _ Hurl Hhash).
    unfold CommitManager.fetchByTab. split.
    + intros -> ->. reflexivity.
    + intros ->. reflexivity.
Qed.

(** What a fetch leaves behind, once address and hash are filled in.
    [handleFetch] never throws and always ends with [isFetching] off.  Either
    the provider call returned a commit: it is appended to the store, the
    error is cleared and so is the hash field; or it threw: the store and
    the hash field are unchanged and the error is not empty.  No commit of
    the store is removed or moved in either case. *)
Theorem handleFetch_outcome {W : Type} {E : Platform.Env W}
    (st : CommitManager.FetchForm) (commits : list Types.Commit)
    (s : Platform.State W) :
  CommitManager.repoUrl st <> EmptyString ->
  CommitManager.commitHash st <> EmptyString ->
  exists st' commits' s',
    CommitManager.handleFetch st commits s = (Platform.Ok (st', commits'), s')
    /\ CommitManager.isFetching st' = false
    /\ CommitManager.repoUrl st' = CommitManager.repoUrl st
    /\ ((exists commit,
           CommitManager.fetchByTab st s = (Platform.Ok commit, s')
           /\ commits' = (commits ++ [commit])%list
           /\ CommitManager.fetchError st' = EmptyString
           /\ CommitManager.commitHash st' = EmptyString)
        \/ (exists m,
              CommitManager.fetchByTab st s = (Platform.Throw m, s')
              /\ commits' = commits
              /\ CommitManager.fetchError st' <> EmptyString
              /\ CommitManager.commitHash st' = CommitManager.commitHash st)).
Proof.
  intros Hurl Hhash.
  apply StringFacts.truthy_true in Hurl. apply StringFacts.truthy_true in Hhash.
  rewrite (HandlerFacts.handleFetch_run _ _ _ Hurl Hhash).
  destruct (CommitManager.fetchByTab st s) as [[commit|m] s'].
  - eexists _, _, s'. split; [reflexivity|]. split; [reflexivity|].
    split; [reflexivity|]. left. exists commit. repeat split.
  - eexists _, _, s'. split; [reflexivity|]. split; [reflexivity|].
    split; [reflexivity|]. right. exists m. repeat split.
    cbn [CommitManager.setIsFetching CommitManager.setFetchError
         CommitManager.fetchError].
    apply HandlerFacts.or_else_truthy. discriminate.
Qed.

(** What loading the repositories leaves behind.  Without an organisation or
    without a token nothing is sent.  Otherwise [handleLoadRepos] never
    throws and ends with [isLoadingRepos] off; a list that was loaded is
    shown, with the error "No repositories found in this organization." when
    it is empty and no error otherwise; a failed call leaves a non-empty
    error and an empty list, whatever list was shown before. *)
Theorem handleLoadRepos_outcome {W : Type} {E : Platform.Env W}
    (st : CommitManager.FetchForm) (s : Platform.State W) :
  (CommitManager.azureOrg st = EmptyString
   \/ CommitManager.azureToken st = EmptyString ->
   CommitManager.handleLoadRepos st s
   = (Platform.Ok
        (CommitManager.setFetchError
           "Organization and PAT are required to load repositories" st), s))
  /\ (CommitManager.azureOrg st <> EmptyString ->
      CommitManager.azureToken st <> EmptyString ->
      exists st' s',
        CommitManager.handleLoadRepos st s = (Platform.Ok st', s')
        /\ CommitManager.isLoadingRepos st' = false
        /\ ((exists repos,
               Azure.fetchAzureRepositories (CommitManager.azureOrg st)
                 (CommitManager.azureToken st) s = (Platform.Ok repos, s')
               /\ CommitManager.azureRepos st' = repos
               /\ (repos = [] ->
                   CommitManager.fetchError st'
                   = "No repositories found in this organization.")
               /\ (repos <> [] -> CommitManager.fetchError st' = EmptyString))
            \/ (exists m,
                  Azure.fetchAzureRepositories (CommitManager.azureOrg st)
                    (CommitManager.azureToken st) s = (Platform.Throw m, s')
                  /\ CommitManager.azureRepos st' = []
                  /\ CommitManager.fetchError st' <> EmptyString))).
Proof.
  split.
  - intros Hmissing. unfold CommitManager.handleLoadRepos.
    destruct Hmissing as [-> | ->]; cbn [JS.truthy negb orb];
      rewrite ?orb_true_r; reflexivity.
  - intros Horg Htoken.
    apply StringFacts.truthy_true in Horg. apply StringFacts.truthy_true in Htoken.
    rewrite (HandlerFacts.handleLoadRepos_run _ _ Horg Htoken).
    destruct (Azure.fetchAzureRepositories _ _ s) as [[repos|m] s'].
    + eexists _, s'. split; [reflexivity|]. split; [reflexivity|].
      left. exists repos. split; [reflexivity|]. split; [reflexivity|].
      split; [now intros -> | destruct repos; [congruence | reflexivity]].
    + eexists _, s'. split; [reflexivity|]. split; [reflexivity|].
      right. exists m. split; [reflexivity|]. split; [reflexivity|].
      cbn [CommitManager.setIsLoadingRepos CommitManager.setFetchError
           CommitManager.fetchError].
      apply HandlerFacts.or_else_truthy. discriminate.
Qed.

Lemma handleFetch_refusals_witness :
  CommitManager.handleFetch (E := MoreDemo.env)
    (CommitManager.setCommitHash EmptyString MoreDemo.githubForm)
    StoreDemo.three (MoreDemo.answering [Demo.respond 200 "github.json"])
  = (Platform.Ok
       (CommitManager.setFetchError "Repo URL and Commit Hash are required"
          (CommitManager.setCommitHash EmptyString MoreDemo.githubForm),
        StoreDemo.three),
     MoreDemo.answering [Demo.respond 200 "github.json"]).
Proof.
  exact (proj1 (@handleFetch_refusals Demo.World MoreDemo.env
    (CommitManager.setCommitHash EmptyString MoreDemo.githubForm)
    StoreDemo.three (MoreDemo.answering [Demo.respond 200 "github.json"]))
    (or_intror eq_refl)).
Defined.

Lemma handleFetch_outcome_witness :
  exists st' commit s',
    CommitManager.handleFetch (E := MoreDemo.env) MoreDemo.githubForm
      StoreDemo.three (MoreDemo.answering [Demo.respond 200 "github.json"])
    = (Platform.Ok (st', (StoreDemo.three ++ [commit])%list), s')
    /\ CommitManager.isFetching st' = false
    /\ CommitManager.fetchError st' = EmptyString
    /\ CommitManager.commitHash st' = EmptyString.
Proof.
  destruct (@handleFetch_outcome Demo.World MoreDemo.env MoreDemo.githubForm
              StoreDemo.three (MoreDemo.answering [Demo.respond 200 "github.json"])
              ltac:(discriminate) ltac:(discriminate))
    as (st' & commits' & s' & Hrun & Hoff & _ & [Hok | Hthrow]).
  - destruct Hok as (commit & _ & -> & Herr & Hhash).
    exists st', commit, s'. repeat split; assumption.
  - destruct Hthrow as (m & Hf & _). vm_compute in Hf. discriminate Hf.
Defined.

Lemma handleLoadRepos_outcome_witness :
  exists st' s',
    CommitManager.handleLoadRepos (E := MoreDemo.env) MoreDemo.azureForm
      (MoreDemo.answering [Demo.respond 500 "Internal error"])
    = (Platform.Ok st', s')
    /\ CommitManager.isLoadingRepos st' = false
    /\ CommitManager.azureRepos st' = []
    /\ CommitManager.fetchError st' <> EmptyString.
Proof.
  destruct (proj2 (@handleLoadRepos_outcome Demo.World MoreDemo.env
              MoreDemo.azureForm
              (MoreDemo.answering [Demo.respond 500 "Internal error"]))
              ltac:(discriminate) ltac:(discriminate))
    as (st' & s' & Hrun & Hoff & [Hok | Hthrow]).
  - destruct Hok as (repos & Hf & _). vm_compute in Hf. discriminate Hf.
  - destruct Hthrow as (m & _ & Hnone & Herr).
    exists st', s'. repeat split; assumption.
Defined.

(* ================================================================== *)
(** * The application: generating, and the store *)
(* ================================================================== *)

(** [handleGenerate] never throws.  With an empty store it does nothing: no
    text-generation call, the state as it was.  With a non-empty store it
    ends with [isGenerating] off and with a document that is never empty
    (the generated text, the placeholder or the failure document), all other
    cells unchanged; it sends no request to the commit providers. *)
Theorem handleGenerate_outcome {W : Type} {E : Platform.Env W}
    (st : App.AppState) (s : Platform.State W) :
  (App.commits st = [] -> App.handleGenerate st s = (Platform.Ok st, s))
  /\ (App.commits st <> [] ->
      exists doc s',
        App.handleGenerate st s
        = (Platform.Ok (App.setIsGenerating false (App.setGeneratedDoc doc st)), s')
        /\ doc <> EmptyString
        /\ Gemini.generateDocumentation (App.commits st) (App.configOf st) s
           = (Platform.Ok doc, s')
        /\ Platform.sent s' = Platform.sent s).
Proof.
  unfold App.handleGenerate. split.
  - intros ->. reflexivity.
  - intros Hne. destruct (App.commits st) as [|c cs] eqn:Hcs; [congruence|].
    cbn [List.length].
    replace (Z.of_nat (S (List.length cs)) =? 0)%Z with false
      by (symmetry; apply Z.eqb_neq; lia).
    unfold Platform.bind, Platform.try_catch, Platform.ret.
    cbn [App.commits App.setIsGenerating].
    change (App.configOf (App.setIsGenerating true st)) with (App.configOf st).
    rewrite Hcs, GeminiFacts.generate_run.
    destruct (Platform.generateContent _ _) as [o w'].
    eexists _, _. split; [reflexivity|]. split; [|split; [reflexivity|reflexivity]].
    destruct o as [m|[[|a t]|]]; discriminate.
Qed.

Lemma handleGenerate_outcome_witness :
  App.handleGenerate (E := MoreDemo.env) (MoreDemo.appState [])
    GeminiDemo.quota
  = (Platform.Ok (MoreDemo.appState []), GeminiDemo.quota)
  /\ exists doc,
       App.handleGenerate (E := MoreDemo.env) (MoreDemo.appState StoreDemo.three)
         GeminiDemo.quota
       = (Platform.Ok
            (App.setIsGenerating false
               (App.setGeneratedDoc doc (MoreDemo.appState StoreDemo.three))),
          GeminiDemo.quota)
       /\ JS.startsWith doc "# Generation Failed" = true.
Proof.
  split.
  - exact (proj1 (@handleGenerate_outcome Demo.World MoreDemo.env
             (MoreDemo.appState []) GeminiDemo.quota) eq_refl).
  - destruct (proj2 (@handleGenerate_outcome Demo.World MoreDemo.env
                (MoreDemo.appState StoreDemo.three) GeminiDemo.quota)
                ltac:(discriminate)) as (doc & s' & Hrun & _ & Hgen & _).
    vm_compute in Hgen. injection Hgen as <- <-.
    eexists. split; [exact Hrun | reflexivity].
Defined.

(** Removing by identifier, without assuming the identifiers distinct: what
    remains is exactly the commits with another identifier (so every entry
    with that identifier goes); removing twice is removing once; and
    removing the identifier of a commit just added to a store that did not
    hold it gives the store back. *)
Theorem remove_postconditions (id : string) (store : list Types.Commit) :
  (forall c,
      In c (App.handleRemoveCommit id store) <-> In c store /\ Types.id c <> id)
  /\ App.handleRemoveCommit id (App.handleRemoveCommit id store)
     = App.handleRemoveCommit id store
  /\ (forall c,
      Types.id c = id -> ~ In id (map Types.id store) ->
      App.handleRemoveCommit id (App.handleAddCommit c store) = store).
Proof.
  split; [|split].
  - intros c. unfold App.handleRemoveCommit. rewrite filter_In.
    split; intros [Hin Hid]; (split; [exact Hin|]).
    + apply negb_true_iff, String.eqb_neq in Hid. exact Hid.
    + apply negb_true_iff, String.eqb_neq. exact Hid.
  - unfold App.handleRemoveCommit.
    induction store as [|c store IH]; cbn [filter]; [reflexivity|].
    destruct (negb (String.eqb (Types.id c) id)) eqn:Hc; cbn [filter].
    + now rewrite Hc, IH.
    + exact IH.
  - intros c Hc Hfresh. unfold App.handleAddCommit.
    rewrite StoreFacts.remove_app, (StoreFacts.remove_absent _ _ Hfresh).
    unfold App.handleRemoveCommit. cbn [filter].
    rewrite Hc, String.eqb_refl. cbn [negb]. apply List.app_nil_r.
Qed.

Lemma remove_postconditions_witness :
  App.handleRemoveCommit "d"
    (App.handleAddCommit (StoreDemo.commit "d" "fourth") StoreDemo.three)
  = StoreDemo.three.
Proof.
  refine (proj2 (proj2 (remove_postconditions "d" StoreDemo.three))
            (StoreDemo.commit "d" "fourth") eq_refl _).
  cbn. intuition discriminate.
Defined.

(* ================================================================== *)
(** * More on the Azure addresses *)
(* ================================================================== *)

Module AzureUrlMore.
Import Platform Spec.

(** Where [indexOf] finds [x]: at the first place that holds it. *)
Lemma indexOf_found (l : list string) (x : string) :
  JS.indexOf l x <> (-1)%Z ->
  exists before after,
    l = (before ++ x :: after)%list /\ ~ In x before
    /\ JS.indexOf l x = Z.of_nat (List.length before).
Proof.
  induction l as [|y l IH]; cbn [JS.indexOf]; [congruence|].
  destruct (String.eqb_spec y x) as [->|Hyx].
  - intros _. exists [], l. repeat split. intros [].
  - destruct (Z.eqb_spec (JS.indexOf l x) (-1)) as [|Hi]; [congruence|].
    intros _. destruct (IH Hi) as (before & after & -> & Hno & Hidx).
    exists (y :: before), after. repeat split.
    + intros [Heq | Hin]; [congruence | now apply Hno].
    + rewrite Hidx. cbn [List.length]. lia.
Qed.

(** A non-empty repository is the part that follows the first [_git]. *)
Lemma repoAfterGit_inv (parts : list string) (r : string) :
  Azure.repoAfterGit parts = Some r -> r <> EmptyString ->
  exists before more,
    parts = (before ++ "_git" :: r :: more)%list /\ ~ In "_git" before.
Proof.
  unfold Azure.repoAfterGit. intros Hr Hne.
  destruct (negb (JS.indexOf parts "_git" =? -1)%Z) eqn:Hfound; cbn [andb] in Hr;
    [|congruence].
  destruct (JS.indexOf parts "_git" + 1 <? Z.of_nat (List.length parts))%Z;
    [|congruence].
  apply negb_true_iff, Z.eqb_neq in Hfound.
  destruct (indexOf_found _ _ Hfound) as (before & after & -> & Hno & Hidx).
  rewrite Hidx in Hr. unfold JS.at_index in Hr.
  replace (Z.of_nat (List.length before) + 1 <? 0)%Z with false in Hr
    by (symmetry; apply Z.ltb_ge; lia).
  replace (Z.to_nat (Z.of_nat (List.length before) + 1))
    with (List.length before + 1) in Hr by lia.
  rewrite nth_error_app2 in Hr by lia.
  replace (List.length before + 1 - List.length before) with 1 in Hr by lia.
  destruct after as [|r' more]; [discriminate|].
  injection Hr as ->. now exists before, more.
Qed.

Lemma truthy_opt_some (o : option string) :
  JS.truthy_opt o = true -> exists x, o = Some x /\ x <> EmptyString.
Proof.
  destruct o as [x|]; cbn; [|discriminate].
  intros Hx. exists x. split; [reflexivity|]. now apply StringFacts.truthy_true.
Qed.

End AzureUrlMore.

(** Whatever [parseAzureUrl] returns was read from an address that [new URL]
    accepts, whose host ends with [visualstudio.com] or is [dev.azure.com]:
    none of the three fields is empty; the repository is the part of the path
    that follows its first [_git] part; on a [visualstudio.com] host the
    organisation is the first label of the host and the project the first
    part of the path; on [dev.azure.com] they are the first and the second
    part. *)
Theorem parseAzureUrl_sound {W : Type} {E : Platform.Env W}
    (url : string) (parsed : Azure.AzureRepoRef) :
  Azure.parseAzureUrl url = Some parsed ->
  exists u before more,
    let parts := filter JS.truthy (JS.split "/" (Platform.pathname u)) in
    Platform.newURL url = Some u
    /\ Azure.ref_org parsed <> EmptyString
    /\ Azure.ref_project parsed <> EmptyString
    /\ Azure.ref_repo parsed <> EmptyString
    /\ parts = (before ++ "_git" :: Azure.ref_repo parsed :: more)%list
    /\ ~ In "_git" before
    /\ ((JS.endsWith (Platform.hostname u) "visualstudio.com" = true
         /\ hd_error (JS.split "." (Platform.hostname u))
            = Some (Azure.ref_org parsed)
         /\ nth_error parts 0 = Some (Azure.ref_project parsed))
        \/ (Platform.hostname u = "dev.azure.com"
            /\ nth_error parts 0 = Some (Azure.ref_org parsed)
            /\ nth_error parts 1 = Some (Azure.ref_project parsed))).
Proof.
  unfold Azure.parseAzureUrl.
  destruct (Platform.newURL url) as [u|]; [|discriminate].
  set (parts := filter JS.truthy (JS.split "/" (Platform.pathname u))).
  assert (Hfields : forall org project repo,
    (if negb (JS.truthy_opt org) || negb (JS.truthy_opt project)
        || negb (JS.truthy_opt repo)
     then None
     else match org, project, repo with
          | Some o, Some p, Some r =>
              Some {| Azure.ref_org := o; Azure.ref_project := p;
                      Azure.ref_repo := r |}
          | _, _, _ => None
          end) = Some parsed ->
    org = Some (Azure.ref_org parsed) /\ Azure.ref_org parsed <> EmptyString
    /\ project = Some (Azure.ref_project parsed)
    /\ Azure.ref_project parsed <> EmptyString
    /\ repo = Some (Azure.ref_repo parsed)
    /\ Azure.ref_repo parsed <> EmptyString).
  { intros org project repo Hsome.
    destruct (JS.truthy_opt org) eqn:Ho; cbn [negb orb] in Hsome; [|discriminate].
    destruct (JS.truthy_opt project) eqn:Hp; cbn [negb orb] in Hsome;
      [|discriminate].
    destruct (JS.truthy_opt repo) eqn:Hr; cbn [negb] in Hsome; [|discriminate].
    apply AzureUrlMore.truthy_opt_some in Ho as (o & -> & Ho).
    apply AzureUrlMore.truthy_opt_some in Hp as (p & -> & Hp).
    apply AzureUrlMore.truthy_opt_some in Hr as (r & -> & Hr).
    injection Hsome as <-. cbn. repeat split; assumption. }
  destruct (JS.endsWith (Platform.hostname u) "visualstudio.com") eqn:Hvs.
  - intros Hsome. apply Hfields in Hsome as (Ho & Hone & Hp & Hpne & Hr & Hrne).
    destruct (AzureUrlMore.repoAfterGit_inv _ Hr Hrne) as (before & more & Hparts & Hno).
    exists u, before, more. cbv zeta. fold parts.
    repeat split; try assumption. left. repeat split; assumption.
  - destruct (String.eqb_spec (Platform.hostname u) "dev.azure.com") as [Hdev|_].
    + intros Hsome. apply Hfields in Hsome as (Ho & Hone & Hp & Hpne & Hr & Hrne).
      destruct (AzureUrlMore.repoAfterGit_inv _ Hr Hrne)
        as (before & more & Hparts & Hno).
      exists u, before, more. cbv zeta. fold parts.
      repeat split; try assumption. right. repeat split; assumption.
    + intros Hsome. discriminate Hsome.
Qed.

Lemma parseAzureUrl_sound_witness :
  exists before more,
    filter JS.truthy (JS.split "/" "/Web/_git/site/commits")
    = (before ++ "_git" :: "site" :: more)%list
    /\ ~ In "_git" before.
Proof.
  destruct (@parseAzureUrl_sound Demo.World MoreDemo.env
              "https://contoso.visualstudio.com/Web/_git/site/commits"
              AzureDemo.parsed eq_refl)
    as (u & before & more & Hu & _ & _ & _ & Hparts & Hno & _).
  injection Hu as <-. now exists before, more.
Defined.

(** [parseAzureUrl] never throws: a string that [new URL] rejects, and an
    address on any host that neither ends with [visualstudio.com] nor is
    [dev.azure.com], give [null], whatever the path; [fetchAzureCommit] then
    throws the invalid-address error without sending a request. *)
Theorem parseAzureUrl_refuses {W : Type} {E : Platform.Env W}
    (url commitHash token : string) (s : Platform.State W) :
  Platform.newURL url = None
  \/ (exists u, Platform.newURL url = Some u
                /\ JS.endsWith (Platform.hostname u) "visualstudio.com" = false
                /\ Platform.hostname u <> "dev.azure.com") ->
  Azure.parseAzureUrl url = None
  /\ Azure.fetchAzureCommit url commitHash token s
     = (Platform.Throw Azure.invalidAzureUrl, s).
Proof.
  intros Hbad.
  assert (Hnull : Azure.parseAzureUrl url = None).
  { unfold Azure.parseAzureUrl.
    destruct Hbad as [-> | (u & -> & Hvs & Hdev)]; [reflexivity|].
    rewrite Hvs. apply String.eqb_neq in Hdev. rewrite Hdev. reflexivity. }
  split; [exact Hnull|]. now apply AzureUrlFacts.invalid_throws.
Qed.

Lemma parseAzureUrl_refuses_witness :
  Azure.fetchAzureCommit (E := MoreDemo.env)
    "https://gitlab.com/contoso/Web/_git/site" "0123456789abcdef" "pat"
    (MoreDemo.answering [Demo.respond 200 "commit.json"])
  = (Platform.Throw Azure.invalidAzureUrl,
     MoreDemo.answering [Demo.respond 200 "commit.json"])
  /\ Azure.fetchAzureCommit (E := MoreDemo.env)
       "dev.azure.com/contoso/Web/_git/site" "0123456789abcdef" "pat"
       (MoreDemo.answering [Demo.respond 200 "commit.json"])
     = (Platform.Throw Azure.invalidAzureUrl,
        MoreDemo.answering [Demo.respond 200 "commit.json"]).
Proof.
  split.
  - apply (@parseAzureUrl_refuses Demo.World MoreDemo.env).
    right. eexists. split; [reflexivity|]. split; [reflexivity|discriminate].
  - apply (@parseAzureUrl_refuses Demo.World MoreDemo.env).
    left. reflexivity.
Defined.

(* ================================================================== *)
(** * A rejected content request *)
(* ================================================================== *)

(** In a run of [fetchAzureCommit] that reads the commit and the list of
    changes, a content request that is rejected (a transport failure) does
    not abort the call: the returned [diff] holds, after the header of that
    file, the note "(Could not fetch file content)" and the separator, and
    goes on with the changes that follow. *)
Theorem azure_content_rejected {W : Type} {E : Platform.Env W}
    (repoUrl commitHash token : string) (s s1 : Platform.State W)
    (parsed : Azure.AzureRepoRef) (r1 r2 : Platform.Response) (w1 w2 w3 : W)
    (commitData : Platform.AzureCommitData)
    (pre post : list Platform.AzureChange) (change : Platform.AzureChange)
    (d1 m : string) :
  let authHeader := Azure.authHeaderOf token in
  let rq1 := Azure.authorized authHeader
               (Azure.commitUrl (Azure.apiBaseUrl parsed) commitHash) in
  let rq2 := Azure.authorized authHeader
               (Azure.changesUrl (Azure.apiBaseUrl parsed) commitHash) in
  Azure.parseAzureUrl repoUrl = Some parsed ->
  Platform.fetch rq1 (Platform.world s) = (Platform.Resolved r1, w1) ->
  Platform.ok r1 = true ->
  Platform.json_commit (Platform.body r1) = Platform.Ok commitData ->
  Platform.fetch rq2 w1 = (Platform.Resolved r2, w2) ->
  Platform.ok r2 = true ->
  Platform.json_changes (Platform.body r2)
  = Platform.Ok {| Platform.changes := Some (pre ++ change :: post)%list |} ->
  Azure.processChanges authHeader pre ("## Changes Summary" ++ JS.nl)
    {| Platform.world := w2;
       Platform.sent := (Platform.sent s ++ [rq1; rq2])%list |}
  = (Platform.Ok d1, s1) ->
  Platform.changeType change = "edit" \/ Platform.changeType change = "add" ->
  Platform.isFolder (Platform.item change) = false ->
  Platform.fetch
    (Azure.authorized authHeader (Platform.item_url (Platform.item change)))
    (Platform.world s1) = (Platform.Rejected m, w3) ->
  exists c s' rest,
    Azure.fetchAzureCommit repoUrl commitHash token s = (Platform.Ok c, s')
    /\ Types.diff c
       = d1 ++ (JS.nl ++ "File: " ++ Platform.path (Platform.item change)
                  ++ " [" ++ Platform.changeType change ++ "]" ++ JS.nl)
            ++ ("(Could not fetch file content)" ++ JS.nl)
            ++ ("---" ++ JS.nl) ++ rest.
Proof.
  intros authHeader rq1 rq2 Hparse Hf1 Hok1 Hjson Hf2 Hok2 Hchanges Hpre
    Htype Hfile Hf3.
  rewrite (AzureRuns.after_changes_response _ _ _ _ Hparse Hf1 Hok1 Hjson Hf2).
  rewrite Hok2, Hchanges. fold authHeader rq1 rq2.
  assert (Helig : Spec.eligible change = true).
  { unfold Spec.eligible, Azure.isEditOrAdd. rewrite Hfile.
    destruct Htype as [-> | ->]; reflexivity. }
  pose proof (@ContentFailure.rejected_leaves_note W E authHeader change d1 s1 m w3
                Helig Hf3) as Hone.
  destruct (AzureFacts.processChanges_extends authHeader post
              (d1 ++ Azure.fileHeader change
                  ++ ("(Could not fetch file content)" ++ JS.nl) ++ "---" ++ JS.nl)
              {| Platform.world := w3;
                 Platform.sent := (Platform.sent s1
                   ++ [Azure.authorized authHeader
                         (Platform.item_url (Platform.item change))])%list |})
    as (rest & s2 & Hpost).
  assert (Hloop :
    Azure.processChanges authHeader (pre ++ change :: post)%list
      Azure.changesSummary
      {| Platform.world := w2;
         Platform.sent := (Platform.sent s ++ [rq1; rq2])%list |}
    = (Platform.Ok ((d1 ++ Azure.fileHeader change
                        ++ ("(Could not fetch file content)" ++ JS.nl)
                        ++ "---" ++ JS.nl) ++ rest), s2)).
  { rewrite AzureFacts.processChanges_app.
    rewrite (Run.bind_ok _ _ _ Hpre). cbn [Azure.processChanges].
    rewrite (Run.bind_ok _ _ _ Hone). exact Hpost. }
  destruct (Platform.randomUUID (Platform.world s2)) as [id w4] eqn:Hid.
  eexists _, _, rest. split.
  - unfold Platform.bind, Platform.lift, Platform.ret, Platform.perform.
    cbn [Platform.changes]. rewrite Hloop.
    replace (Z.of_nat (List.length (pre ++ change :: post)) =? 0)%Z with false.
    2:{ symmetry. apply Z.eqb_neq. rewrite length_app. cbn [List.length]. lia. }
    cbn [Platform.world Platform.sent]. rewrite Hid. reflexivity.
  - cbn [Azure.azureCommit Types.diff]. unfold Azure.fileHeader.
    now rewrite !StringFacts.app_assoc.
Qed.

Lemma azure_content_rejected_witness :
  exists c s' rest,
    MoreDemo.azure [Demo.respond 200 "commit.json"; Demo.respond 200 "mixed.json";
                    Platform.Rejected "Failed to fetch";
                    Demo.respond 200 "export {};"]
    = (Platform.Ok c, s')
    /\ Types.diff c
       = ("## Changes Summary" ++ JS.nl
            ++ JS.nl ++ "File: /src/old.ts [delete]" ++ JS.nl ++ "---" ++ JS.nl)
           ++ (JS.nl ++ "File: /src/app.ts [edit]" ++ JS.nl)
           ++ ("(Could not fetch file content)" ++ JS.nl)
           ++ ("---" ++ JS.nl) ++ rest.
Proof.
  exact (@azure_content_rejected Demo.World MoreDemo.env
    AzureDemo.repoUrl "0123456789abcdef" "pat"
    (MoreDemo.answering [Demo.respond 200 "commit.json";
                         Demo.respond 200 "mixed.json";
                         Platform.Rejected "Failed to fetch";
                         Demo.respond 200 "export {};"])
    {| Platform.world :=
         MoreDemo.network [Platform.Rejected "Failed to fetch";
                           Demo.respond 200 "export {};"];
       Platform.sent := [MoreDemo.commitRequest; MoreDemo.changesRequest] |}
    AzureDemo.parsed (MoreDemo.okResponse "commit.json")
    (MoreDemo.okResponse "mixed.json")
    (MoreDemo.network [Demo.respond 200 "mixed.json";
                       Platform.Rejected "Failed to fetch";
                       Demo.respond 200 "export {};"])
    (MoreDemo.network [Platform.Rejected "Failed to fetch";
                       Demo.respond 200 "export {};"])
    (MoreDemo.network [Demo.respond 200 "export {};"])
    AzureDemo.metadata [AzureDemo.deleted] [MoreDemo.folderAdded; MoreDemo.added]
    AzureDemo.edited
    ("## Changes Summary" ++ JS.nl
       ++ JS.nl ++ "File: /src/old.ts [delete]" ++ JS.nl ++ "---" ++ JS.nl)
    "Failed to fetch"
    eq_refl eq_refl eq_refl eq_refl eq_refl eq_refl eq_refl eq_refl
    (or_introl eq_refl) eq_refl eq_refl).
Defined.
